(** * The snap manager of Inkscape (src/snap.cpp): a shallow embedding

    The development follows [SnapManager] of [src/snap.cpp]: the free and
    constrained snapping primitives, the guide variants, grid-pitch
    quantisation, the selection policy [findBestSnap] and the batch routine
    [_snapTransformed].

    Modelling decisions.
    - The value of a [Geom::Coord] (a C++ [double]) is a rational number of
      [Q]; comparisons, [fabs] and [std::min] are exact, as they are for
      doubles.  The arithmetic of the batch routine ([_transformPoint] and
      the recovery of a transformation in [_snapTransformed]) is that of
      doubles: its four operations are the fields of the class
      [DoubleArith], of which nothing but being functions of the values is
      assumed, so that what is proved holds with rounding; the examples run
      with round-to-nearest to 53 binary digits.  NaN and infinities are
      outside the model.
    - Every snap target provider ([Snapper] and its subclasses) is a record
      of functions; a provider call is recorded in an event log, together
      with [g_warning] messages and calls to the snap indicator, so that
      "which collaborator was called, with which arguments" is observable.
    - Classes and helpers that [snap.cpp] uses but does not define
      ([Inkscape::SnappedPoint], [getClosestSP], [NR_HUGE], ...) are either
      modelled from the specification (their doc comment says so) or are
      fields of the class [Collaborators], over which all results are
      universally quantified. *)

From Stdlib Require Import QArith Qabs Qminmax List Bool String Lia Lqa Morphisms.
Import ListNotations.
Open Scope Q_scope.

(** ** Comparisons of coordinates, as booleans *)

Definition Qltb (x y : Q) : bool := negb (Qle_bool y x).

(** ** Geometry (the part of lib2geom that snap.cpp touches) *)

Module Geom.

Definition Coord := Q.

(** [Geom::Dim2]: [X = 0], [Y = 1]. *)
Inductive Dim2 := X | Y.

(** [1 - dim]. *)
Definition other (d : Dim2) : Dim2 := match d with X => Y | Y => X end.

Record Point := mkPoint { px : Coord; py : Coord }.

(** [p[d]] read and written. *)
Definition get (p : Point) (d : Dim2) : Coord :=
  match d with X => px p | Y => py p end.

Definition set (p : Point) (d : Dim2) (v : Coord) : Point :=
  match d with
  | X => mkPoint v (py p)
  | Y => mkPoint (px p) v
  end.

Definition add (a b : Point) : Point := mkPoint (px a + px b) (py a + py b).
Definition sub (a b : Point) : Point := mkPoint (px a - px b) (py a - py b).

(** [p * Geom::Scale(sx, sy)]. *)
Definition scale (p : Point) (sx sy : Coord) : Point :=
  mkPoint (px p * sx) (py p * sy).

Definition origin0 : Point := mkPoint 0 0.

(** [component_vectors[d]]. *)
Definition component_vectors (d : Dim2) : Point :=
  match d with X => mkPoint 1 0 | Y => mkPoint 0 1 end.

(** [Geom::Rect] by its two corners, and [expandTo]. *)
Record Rect := mkRect { rmin : Point; rmax : Point }.

Definition expandTo (r : Rect) (p : Point) : Rect :=
  mkRect (mkPoint (Qmin (px (rmin r)) (px p)) (Qmin (py (rmin r)) (py p)))
         (mkPoint (Qmax (px (rmax r)) (px p)) (Qmax (py (rmax r)) (py p))).

Definition OptRect := option Rect.

(** The square of the Euclidean distance between two points. *)
Definition sqdist (a b : Point) : Coord :=
  (px a - px b) * (px a - px b) + (py a - py b) * (py a - py b).

(** [Geom::rot90]. *)
Definition rot90 (p : Point) : Point := mkPoint (- py p) (px p).

End Geom.

Import Geom.

(** ** The data model *)

(** [Inkscape::SnapPreferences::PointType]. *)
Inductive PointType := SNAPPOINT_NODE | SNAPPOINT_BBOX | SNAPPOINT_GUIDE.

(** Modelled from the spec: [Inkscape::SnapSourceType], the "source kind"
    of a query point: what the point that is snapped stands for. *)
Inductive SnapSourceType :=
| SNAPSOURCE_UNDEFINED
| SNAPSOURCE_NODE
| SNAPSOURCE_BBOX_CORNER
| SNAPSOURCE_GUIDE
| SNAPSOURCE_GUIDE_ORIGIN.

(** Modelled from the spec: [Inkscape::SnapTargetType], the "target kind" of
    a result: what was snapped to. *)
Inductive SnapTargetType :=
| SNAPTARGET_UNDEFINED
| SNAPTARGET_GRID
| SNAPTARGET_GUIDE
| SNAPTARGET_GRID_GUIDE_INTERSECTION
| SNAPTARGET_GRID_INTERSECTION
| SNAPTARGET_GUIDE_INTERSECTION
| SNAPTARGET_NODE
| SNAPTARGET_PATH
| SNAPTARGET_PATH_INTERSECTION.

(** Modelled from the spec: [Inkscape::Snapper::ConstraintLine], "a point +
    direction pair" that "may be re-pointed": a direction, and optionally a
    point the line runs through.  [ConstraintLine(d)] has no point,
    [ConstraintLine(p, d)] has one, [setPoint] re-points the line. *)
Record ConstraintLine := mkConstraintLine {
  cl_point : option Point;
  cl_direction : Point
}.

Definition ConstraintLine_dir (d : Point) : ConstraintLine :=
  mkConstraintLine None d.

Definition ConstraintLine_at (p d : Point) : ConstraintLine :=
  mkConstraintLine (Some p) d.

Definition setLinePoint (c : ConstraintLine) (p : Point) : ConstraintLine :=
  mkConstraintLine (Some p) (cl_direction c).

(** Modelled from the spec: [Inkscape::SnappedPoint] (snapped-point.h is not
    part of the sources at hand).  The fields are those of the "Snapped
    result" of the data model: target point, source kind, target kind,
    primary and secondary snap distance, the tolerance that applied, the
    "always snap" and "at intersection" flags, the recovered transformation
    and the pointer distance. *)
Record SnappedPoint := mkSnappedPoint {
  sp_point : Point;
  sp_source : SnapSourceType;
  sp_target : SnapTargetType;
  sp_distance : Coord;
  sp_tolerance : Coord;
  sp_always_snap : bool;
  sp_at_intersection : bool;
  sp_second_distance : Coord;
  sp_transformation : Point;
  sp_pointer_distance : Coord
}.

(** The setters of [SnappedPoint] that snap.cpp calls. *)
Definition setSource (s : SnappedPoint) (v : SnapSourceType) : SnappedPoint :=
  mkSnappedPoint (sp_point s) v (sp_target s) (sp_distance s) (sp_tolerance s)
    (sp_always_snap s) (sp_at_intersection s) (sp_second_distance s)
    (sp_transformation s) (sp_pointer_distance s).

Definition setTarget (s : SnappedPoint) (v : SnapTargetType) : SnappedPoint :=
  mkSnappedPoint (sp_point s) (sp_source s) v (sp_distance s) (sp_tolerance s)
    (sp_always_snap s) (sp_at_intersection s) (sp_second_distance s)
    (sp_transformation s) (sp_pointer_distance s).

Definition setSnapDistance (s : SnappedPoint) (v : Coord) : SnappedPoint :=
  mkSnappedPoint (sp_point s) (sp_source s) (sp_target s) v (sp_tolerance s)
    (sp_always_snap s) (sp_at_intersection s) (sp_second_distance s)
    (sp_transformation s) (sp_pointer_distance s).

Definition setSecondSnapDistance (s : SnappedPoint) (v : Coord) : SnappedPoint :=
  mkSnappedPoint (sp_point s) (sp_source s) (sp_target s) (sp_distance s)
    (sp_tolerance s) (sp_always_snap s) (sp_at_intersection s) v
    (sp_transformation s) (sp_pointer_distance s).

Definition setTransformation (s : SnappedPoint) (v : Point) : SnappedPoint :=
  mkSnappedPoint (sp_point s) (sp_source s) (sp_target s) (sp_distance s)
    (sp_tolerance s) (sp_always_snap s) (sp_at_intersection s)
    (sp_second_distance s) v (sp_pointer_distance s).

Definition setPointerDistance (s : SnappedPoint) (v : Coord) : SnappedPoint :=
  mkSnappedPoint (sp_point s) (sp_source s) (sp_target s) (sp_distance s)
    (sp_tolerance s) (sp_always_snap s) (sp_at_intersection s)
    (sp_second_distance s) (sp_transformation s) v.

(** [Inkscape::SnappedLine] and [Inkscape::SnappedCurve] derive from
    [SnappedPoint]; [SnappedPoint(line)] keeps the base part. *)
Record SnappedLine := mkSnappedLine {
  sl_base : SnappedPoint;
  sl_normal : Point;
  sl_point_on_line : Point
}.

Record SnappedCurve := mkSnappedCurve {
  scv_base : SnappedPoint;
  scv_curve : nat
}.

(** Modelled from the spec: [SnappedConstraints], the candidate set of one
    query, with the five sequences that snap.cpp names. *)
Record SnappedConstraints := mkSnappedConstraints {
  points : list SnappedPoint;
  lines : list SnappedLine;
  grid_lines : list SnappedLine;
  guide_lines : list SnappedLine;
  curves : list SnappedCurve
}.

Definition empty_constraints : SnappedConstraints :=
  mkSnappedConstraints [] [] [] [] [].

(** Drawable items are known to the manager by identity only. *)
Definition SPItem := nat.

(** ** The event log *)

Inductive SnapperId := GuideSnapperId | ObjectSnapperId | GridSnapperId (n : nat).

Inductive Event :=
| Warning (msg : string)
| CallFreeSnap (who : SnapperId) (p : Point)
| CallConstrainedSnap (who : SnapperId) (p : Point) (c : ConstraintLine)
| CallGuideFreeSnap (p : Point) (guide_normal : Point)
| SetNewSnapTarget (s : SnappedPoint)
| RemoveSnapTarget.

(** Is the event a call of a provider's [freeSnap], [constrainedSnap] or
    [guideFreeSnap]? *)
Definition is_provider_call (e : Event) : bool :=
  match e with
  | CallFreeSnap _ _ | CallConstrainedSnap _ _ _ | CallGuideFreeSnap _ _ => true
  | _ => false
  end.

(** No event of the log satisfies [P]. *)
Definition no_event (P : Event -> bool) (l : list Event) : bool :=
  forallb (fun e => negb (P e)) l.

(** No provider was called. *)
Definition no_provider_call (l : list Event) : bool :=
  forallb (fun e => negb (is_provider_call e)) l.

Definition is_warning (msg : string) (e : Event) : bool :=
  match e with
  | Warning m => String.eqb m msg
  | _ => false
  end.

(** A computation that returns a value and the events it caused, in order. *)
Definition Logged (A : Type) : Type := (A * list Event)%type.

Definition ret {A} (a : A) : Logged A := (a, []).

Definition bind {A B} (c : Logged A) (k : A -> Logged B) : Logged B :=
  let (a, l1) := c in
  let (b, l2) := k a in
  (b, l1 ++ l2).

Definition tell (e : Event) : Logged unit := (tt, [e]).

Definition value {A} (c : Logged A) : A := fst c.
Definition events {A} (c : Logged A) : list Event := snd c.

Notation "x <- c ;; k" := (bind c (fun x => k))
  (at level 61, c at next level, right associativity).
Notation "c ;;; k" := (bind c (fun _ => k))
  (at level 61, right associativity).

(** The snap distance of [s] is the Euclidean distance between [q] and the
    point that [s] snapped to. *)
Definition measured_from (q : Point) (s : SnappedPoint) : Prop :=
  0 <= sp_distance s /\ sp_distance s * sp_distance s == sqdist q (sp_point s).

(** ** Preferences, providers and the manager *)

(** [Inkscape::SnapPreferences], the flags that snap.cpp reads. *)
Record SnapPreferences := mkSnapPreferences {
  getSnapEnabledGlobally : bool;
  getSnapPostponedGlobally : bool;
  getSnapToGrids : bool;
  getSnapToGuides : bool;
  getSnapIntersectionCS : bool;
  getSnapIntersectionGG : bool
}.

(** The capability contract of a snap target provider ([Inkscape::Snapper]).
    [freeSnap] and [constrainedSnap] receive the candidate set and return it
    with what they found added. *)
Record Snapper := mkSnapper {
  ThisSnapperMightSnap : bool;
  provider_freeSnap :
    SnappedConstraints -> PointType -> Point -> SnapSourceType -> bool ->
    OptRect -> option (list SPItem) -> option (list (Point * SnapSourceType)) ->
    SnappedConstraints;
  provider_constrainedSnap :
    SnappedConstraints -> PointType -> Point -> SnapSourceType -> bool ->
    OptRect -> ConstraintLine -> option (list SPItem) -> SnappedConstraints
}.

(** [Inkscape::ObjectSnapper]: a provider with two more members, used when a
    guide is dragged. *)
Record ObjectSnapper := mkObjectSnapper {
  object_snapper : Snapper;
  GuidesMightSnap : bool;
  provider_guideFreeSnap : SnappedConstraints -> Point -> Point -> SnappedConstraints
}.

(** [Inkscape::CanvasGrid]: its origin and its snapper.  The snapper pointer
    is never null in the model, so the test [snapper &&] of
    [multipleOfGridPitch] always succeeds. *)
Record CanvasGrid := mkCanvasGrid {
  grid_origin : Point;
  grid_snapper : Snapper
}.

(** [SPDesktop], as far as snap.cpp looks at it: [event_context] may be
    null; when it is not, it says whether the snap window is open. *)
Record SPDesktop := mkSPDesktop {
  gridsEnabled : bool;
  event_context_snap_window_open : option bool
}.

(** [SnapManager] after [setup()]: [g_assert(desktop != NULL)] makes
    [_desktop] a valid desktop, so the tests [_desktop &&] succeed. *)
Record SnapManager := mkSnapManager {
  guide : Snapper;
  object : ObjectSnapper;
  snapprefs : SnapPreferences;
  named_view_grids : list CanvasGrid;
  _desktop : SPDesktop;
  _snapindicator : bool;
  _item_to_ignore : option SPItem;
  _items_to_ignore : option (list SPItem);
  _unselected_nodes : option (list (Point * SnapSourceType))
}.

Inductive Transformation := TRANSLATION | SCALE | STRETCH | SKEW.

(** What snap.cpp uses and does not define: the sentinel [NR_HUGE], a few
    functions of lib2geom, members of [SnappedPoint] and the [getClosest...]
    helpers of snapped-point.cpp, snapped-line.cpp and snapped-curve.cpp.
    The transformation [_desktop->dt2doc()], which the source hands to
    [getClosestIntersectionCS], is part of that helper here.
    The laws are what the source itself says of them: "NR_HUGE means that we
    haven't snapped anything" and the two [g_assert]s on a default
    [SnappedPoint] in [_snapTransformed]. *)
Class Collaborators := mkCollaborators {
  NR_HUGE : Coord;
  L2 : Point -> Coord;
  projection : ConstraintLine -> Point -> Point;
  SnappedPoint_default : SnappedPoint;
  getSnapped : SnappedPoint -> bool;
  isOtherSnapBetter : SnappedPoint -> SnappedPoint -> bool -> bool;
  getClosestSP : list SnappedPoint -> option SnappedPoint;
  getClosestCurve : list SnappedCurve -> option SnappedCurve;
  getClosestSL : list SnappedLine -> option SnappedLine;
  getClosestIntersectionCS : list SnappedCurve -> Point -> option SnappedPoint;
  getClosestIntersectionSL : list SnappedLine -> option SnappedPoint;
  getClosestIntersectionSL2 :
    list SnappedLine -> list SnappedLine -> option SnappedPoint;
  default_distance : sp_distance SnappedPoint_default = NR_HUGE;
  default_always_snap : sp_always_snap SnappedPoint_default = false;
  default_at_intersection : sp_at_intersection SnappedPoint_default = false;
  getSnapped_finite : forall s, getSnapped s = true -> sp_distance s < NR_HUGE
}.

(** The arithmetic of [double] ([Geom::Coord]) in the batch routine.  The
    sum, difference, product and quotient of two doubles are rounded, so
    none of them is the exact operation on rationals: the four operations
    are taken as they come, and all that is assumed of them is that they are
    functions of the values of their arguments.  In the source a quotient
    by zero is an infinity or not a number; [Coord] has neither, and [ddiv]
    leaves that value open.  Comparisons, [fabs] and [std::min] of doubles
    are exact. *)
Class DoubleArith := mkDoubleArith {
  dadd : Coord -> Coord -> Coord;
  dsub : Coord -> Coord -> Coord;
  dmul : Coord -> Coord -> Coord;
  ddiv : Coord -> Coord -> Coord;
  dadd_values :: Proper (Qeq ==> Qeq ==> Qeq) dadd;
  dsub_values :: Proper (Qeq ==> Qeq ==> Qeq) dsub;
  dmul_values :: Proper (Qeq ==> Qeq ==> Qeq) dmul;
  ddiv_values :: Proper (Qeq ==> Qeq ==> Qeq) ddiv
}.

Section Manager.

Context {Fl : DoubleArith} {C : Collaborators}.

(** Modelled from the spec: the seven-argument constructor
    [SnappedPoint(p, source, target, d, t, a, flag)] of snapped-point.cpp.
    It stores the point, the source and target kind, the distance, the
    tolerance and the "always snap" flag; the last argument is [false] at
    each call in snap.cpp and is kept as the remaining flag of the data
    model.  The fields that it is not given are those of a default
    [SnappedPoint]. *)
Definition SnappedPoint_make (p : Point) (source : SnapSourceType)
    (target : SnapTargetType) (d t : Coord) (a flag : bool) : SnappedPoint :=
  mkSnappedPoint p source target d t a flag
    (sp_second_distance SnappedPoint_default)
    (sp_transformation SnappedPoint_default)
    (sp_pointer_distance SnappedPoint_default).

(** Modelled from the spec: [SnappedPoint::getPoint(Geom::Point &p)], which
    overwrites [p] with the target "if snapping has occurred" and leaves it
    untouched otherwise (doc comment of [freeSnapReturnByRef]). *)
Definition getPoint_into (s : SnappedPoint) (p : Point) : Point :=
  if getSnapped s then sp_point s else p.

(** [SnapManager::getGridSnappers]. *)
Definition getGridSnappers (m : SnapManager) : list (SnapperId * Snapper) :=
  if gridsEnabled (_desktop m) && getSnapToGrids (snapprefs m) then
    combine (map GridSnapperId (seq 0 (List.length (named_view_grids m))))
            (map grid_snapper (named_view_grids m))
  else [].

(** [SnapManager::getSnappers]: the grid snappers are spliced in front of the
    guide and the object snapper. *)
Definition getSnappers (m : SnapManager) : list (SnapperId * Snapper) :=
  getGridSnappers m
    ++ [(GuideSnapperId, guide m); (ObjectSnapperId, object_snapper (object m))].

(** [SnapManager::someSnapperMightSnap]. *)
Definition someSnapperMightSnap (m : SnapManager) : bool :=
  if negb (getSnapEnabledGlobally (snapprefs m))
     || getSnapPostponedGlobally (snapprefs m)
  then false
  else existsb (fun s => ThisSnapperMightSnap (snd s)) (getSnappers m).

(** [SnapManager::gridSnapperMightSnap]. *)
Definition gridSnapperMightSnap (m : SnapManager) : bool :=
  if negb (getSnapEnabledGlobally (snapprefs m))
     || getSnapPostponedGlobally (snapprefs m)
  then false
  else existsb (fun s => ThisSnapperMightSnap (snd s)) (getGridSnappers m).

Definition snap_window_message : string :=
  "The current tool tries to snap, but it hasn't yet opened the snap window. Please report this!".

(** The test at the head of every primitive. *)
Definition check_snap_window (m : SnapManager) : Logged unit :=
  match event_context_snap_window_open (_desktop m) with
  | Some false => tell (Warning snap_window_message)
  | _ => ret tt
  end.

(** The list of items that the providers are told to ignore: a single item
    prevails over a list. *)
Definition items_to_ignore (m : SnapManager) : option (list SPItem) :=
  match _item_to_ignore m with
  | Some it => Some [it]
  | None => _items_to_ignore m
  end.

(** ** The selection policy *)

(** The first part of [findBestSnap]: the list [sp_list] of candidates. *)
Definition opt_list {A} (o : option A) : list A :=
  match o with Some a => [a] | None => [] end.

Definition collect_candidates (m : SnapManager) (p : Point)
    (source_type : SnapSourceType) (sc : SnappedConstraints)
    (constrained : bool) : list SnappedPoint :=
  opt_list (getClosestSP (points sc))
  ++ opt_list (option_map scv_base (getClosestCurve (curves sc)))
  ++ (if getSnapIntersectionCS (snapprefs m) then
        opt_list (option_map (fun s => setSource s source_type)
                    (getClosestIntersectionCS (curves sc) p))
      else [])
  ++ opt_list (option_map sl_base (getClosestSL (grid_lines sc)))
  ++ opt_list (option_map sl_base (getClosestSL (guide_lines sc)))
  ++ (if negb constrained then
        opt_list (option_map
                    (fun s => setTarget (setSource s source_type)
                                SNAPTARGET_GRID_INTERSECTION)
                    (getClosestIntersectionSL (grid_lines sc)))
        ++ opt_list (option_map
                       (fun s => setTarget (setSource s source_type)
                                   SNAPTARGET_GUIDE_INTERSECTION)
                       (getClosestIntersectionSL (guide_lines sc)))
        ++ (if getSnapIntersectionGG (snapprefs m) then
              opt_list (option_map
                          (fun s => setTarget (setSource s source_type)
                                      SNAPTARGET_GRID_GUIDE_INTERSECTION)
                          (getClosestIntersectionSL2 (grid_lines sc)
                             (guide_lines sc)))
            else [])
      else []).

(** The loop over [sp_list]: [at_begin] is the test [i == sp_list.begin()]. *)
Fixpoint select_best (best : SnappedPoint) (at_begin : bool)
    (sp_list : list SnappedPoint) : SnappedPoint :=
  match sp_list with
  | [] => best
  | i :: rest =>
      let best' :=
        if Qle_bool (sp_distance i) (sp_tolerance i) then
          if at_begin || isOtherSnapBetter best i false then i else best
        else best in
      select_best best' false rest
  end.

(** The result that [findBestSnap] starts from. *)
Definition not_snapped (p : Point) : SnappedPoint :=
  SnappedPoint_make p SNAPSOURCE_UNDEFINED SNAPTARGET_UNDEFINED NR_HUGE 0
    false false.

(** [SnapManager::findBestSnap]. *)
Definition findBestSnap (m : SnapManager) (p : Point)
    (source_type : SnapSourceType) (sc : SnappedConstraints)
    (constrained : bool) : Logged SnappedPoint :=
  let sp_list := collect_candidates m p source_type sc constrained in
  let bestSnappedPoint := select_best (not_snapped p) true sp_list in
  (if _snapindicator m then
     if getSnapped bestSnappedPoint
     then tell (SetNewSnapTarget bestSnappedPoint)
     else tell RemoveSnapTarget
   else ret tt) ;;;
  ret bestSnappedPoint.

(** ** Free and constrained snapping *)

(** One provider is asked; the call is logged with the query point. *)
Definition call_freeSnap (s : SnapperId * Snapper) (sc : SnappedConstraints)
    (point_type : PointType) (p : Point) (source_type : SnapSourceType)
    (first_point : bool) (bbox : OptRect) (ignore : option (list SPItem))
    (nodes : option (list (Point * SnapSourceType))) : Logged SnappedConstraints :=
  tell (CallFreeSnap (fst s) p) ;;;
  ret (provider_freeSnap (snd s) sc point_type p source_type first_point bbox
         ignore nodes).

Definition call_constrainedSnap (s : SnapperId * Snapper)
    (sc : SnappedConstraints) (point_type : PointType) (p : Point)
    (source_type : SnapSourceType) (first_point : bool) (bbox : OptRect)
    (c : ConstraintLine) (ignore : option (list SPItem)) :
    Logged SnappedConstraints :=
  tell (CallConstrainedSnap (fst s) p c) ;;;
  ret (provider_constrainedSnap (snd s) sc point_type p source_type first_point
         bbox c ignore).

(** The loop [for (i = snappers.begin(); ...)] of [freeSnap]. *)
Fixpoint freeSnap_all (snappers : list (SnapperId * Snapper))
    (sc : SnappedConstraints) (point_type : PointType) (p : Point)
    (source_type : SnapSourceType) (first_point : bool) (bbox : OptRect)
    (ignore : option (list SPItem))
    (nodes : option (list (Point * SnapSourceType))) : Logged SnappedConstraints :=
  match snappers with
  | [] => ret sc
  | s :: rest =>
      sc' <- call_freeSnap s sc point_type p source_type first_point bbox
               ignore nodes ;;
      freeSnap_all rest sc' point_type p source_type first_point bbox ignore nodes
  end.

(** The same loop of [constrainedSnap]. *)
Fixpoint constrainedSnap_all (snappers : list (SnapperId * Snapper))
    (sc : SnappedConstraints) (point_type : PointType) (p : Point)
    (source_type : SnapSourceType) (first_point : bool) (bbox : OptRect)
    (c : ConstraintLine) (ignore : option (list SPItem)) :
    Logged SnappedConstraints :=
  match snappers with
  | [] => ret sc
  | s :: rest =>
      sc' <- call_constrainedSnap s sc point_type p source_type first_point
               bbox c ignore ;;
      constrainedSnap_all rest sc' point_type p source_type first_point bbox c
        ignore
  end.

(** [SnapManager::freeSnap]. *)
Definition freeSnap (m : SnapManager) (point_type : PointType) (p : Point)
    (source_type : SnapSourceType) (first_point : bool)
    (bbox_to_snap : OptRect) : Logged SnappedPoint :=
  check_snap_window m ;;;
  if negb (someSnapperMightSnap m) then
    ret (SnappedPoint_make p source_type SNAPTARGET_UNDEFINED NR_HUGE 0
           false false)
  else
    sc <- freeSnap_all (getSnappers m) empty_constraints point_type p
            source_type first_point bbox_to_snap (items_to_ignore m)
            (_unselected_nodes m) ;;
    findBestSnap m p source_type sc false.

(** [SnapManager::constrainedSnap]; the unused [snap_projection] is kept. *)
Definition constrainedSnap (m : SnapManager) (point_type : PointType)
    (p : Point) (source_type : SnapSourceType) (constraint : ConstraintLine)
    (snap_projection : bool) (first_point : bool) (bbox_to_snap : OptRect) :
    Logged SnappedPoint :=
  check_snap_window m ;;;
  if negb (someSnapperMightSnap m) then
    ret (SnappedPoint_make p source_type SNAPTARGET_UNDEFINED NR_HUGE 0
           false false)
  else
    let pp := projection constraint p in
    sc <- constrainedSnap_all (getSnappers m) empty_constraints point_type pp
            source_type first_point bbox_to_snap constraint
            (items_to_ignore m) ;;
    findBestSnap m p source_type sc true.

(** [SnapManager::freeSnapReturnByRef] and
    [SnapManager::constrainedSnapReturnByRef]: the value is [p] after the
    call. *)
Definition freeSnapReturnByRef (m : SnapManager) (point_type : PointType)
    (p : Point) (source_type : SnapSourceType) (first_point : bool)
    (bbox_to_snap : OptRect) : Logged Point :=
  s <- freeSnap m point_type p source_type first_point bbox_to_snap ;;
  ret (getPoint_into s p).

Definition constrainedSnapReturnByRef (m : SnapManager)
    (point_type : PointType) (p : Point) (source_type : SnapSourceType)
    (constraint : ConstraintLine) (snap_projection : bool) (first_point : bool)
    (bbox_to_snap : OptRect) : Logged Point :=
  s <- constrainedSnap m point_type p source_type constraint snap_projection
         first_point bbox_to_snap ;;
  ret (getPoint_into s p).

(** ** Grid-pitch quantisation *)

(** The three locals of [multipleOfGridPitch]. *)
Record PitchSearch := mkPitchSearch {
  success : bool;
  nearest_multiple : Point;
  nearest_distance : Coord
}.

(** The body of the loop over the grids, for one grid. *)
Definition gridPitchStep (m : SnapManager) (t : Point) (n : nat)
    (grid : CanvasGrid) (st : PitchSearch) : Logged PitchSearch :=
  if ThisSnapperMightSnap (grid_snapper grid) then
    let t_offset := add t (grid_origin grid) in
    sc <- call_freeSnap (GridSnapperId n, grid_snapper grid) empty_constraints
            SNAPPOINT_NODE t_offset SNAPSOURCE_UNDEFINED true None None None ;;
    s <- findBestSnap m t_offset SNAPSOURCE_UNDEFINED sc false ;;
    ret (if getSnapped s && Qltb (sp_distance s) (nearest_distance st) then
           mkPitchSearch true (sub (sp_point s) (grid_origin grid))
             (sp_distance s)
         else st)
  else ret st.

Fixpoint gridPitchLoop (m : SnapManager) (t : Point)
    (gs : list (nat * CanvasGrid)) (st : PitchSearch) : Logged PitchSearch :=
  match gs with
  | [] => ret st
  | (n, grid) :: rest =>
      st' <- gridPitchStep m t n grid st ;;
      gridPitchLoop m t rest st'
  end.

Definition numbered_grids (m : SnapManager) : list (nat * CanvasGrid) :=
  combine (seq 0 (List.length (named_view_grids m))) (named_view_grids m).

(** [SnapManager::multipleOfGridPitch]. *)
Definition multipleOfGridPitch (m : SnapManager) (t : Point) : Logged Point :=
  if negb (getSnapEnabledGlobally (snapprefs m)) then ret t
  else if gridsEnabled (_desktop m) then
    st <- gridPitchLoop m t (numbered_grids m)
            (mkPitchSearch false origin0 NR_HUGE) ;;
    ret (if success st then nearest_multiple st else t)
  else ret t.

(** What one grid finds for the offset [t]: the best snap of [t], moved by
    the origin of the grid, among what the snapper of the grid finds. *)
Definition grid_snap (m : SnapManager) (t : Point) (grid : CanvasGrid) :
    SnappedPoint :=
  let t_offset := add t (grid_origin grid) in
  value (findBestSnap m t_offset SNAPSOURCE_UNDEFINED
           (provider_freeSnap (grid_snapper grid) empty_constraints
              SNAPPOINT_NODE t_offset SNAPSOURCE_UNDEFINED true None None None)
           false).

(** The grid is asked and its best snap is a snap. *)
Definition grid_yields (m : SnapManager) (t : Point) (grid : CanvasGrid) : bool :=
  ThisSnapperMightSnap (grid_snapper grid) && getSnapped (grid_snap m t grid).

(** The grid [g] is the one that [multipleOfGridPitch] snaps to, among the
    grids [gs] in their order: its snap is strictly closer than that of each
    grid before it, and no grid after it is strictly closer. *)
Definition closest_grid (m : SnapManager) (t : Point) (gs : list CanvasGrid)
    (g : CanvasGrid) : Prop :=
  exists before after,
    gs = before ++ g :: after
    /\ grid_yields m t g = true
    /\ (forall g', In g' before -> grid_yields m t g' = true ->
          sp_distance (grid_snap m t g) < sp_distance (grid_snap m t g'))
    /\ (forall g', In g' after -> grid_yields m t g' = true ->
          sp_distance (grid_snap m t g) <= sp_distance (grid_snap m t g')).


(** ** Snapping a guide *)

(** [SnapManager::guideFreeSnap]; the value is [p] after the call. *)
Definition guideFreeSnap (m : SnapManager) (p : Point) (guide_normal : Point) :
    Logged Point :=
  check_snap_window m ;;;
  if negb (getSnapEnabledGlobally (snapprefs m))
     || getSnapPostponedGlobally (snapprefs m) then ret p
  else if negb (GuidesMightSnap (object m) || getSnapToGuides (snapprefs m))
  then ret p
  else
    sc1 <- (if GuidesMightSnap (object m) then
              tell (CallGuideFreeSnap p guide_normal) ;;;
              ret (provider_guideFreeSnap (object m) empty_constraints p
                     guide_normal)
            else ret empty_constraints) ;;
    sc2 <- (if getSnapToGuides (snapprefs m) then
              call_freeSnap (GuideSnapperId, guide m) sc1 SNAPPOINT_GUIDE p
                SNAPSOURCE_GUIDE true None None None
            else ret sc1) ;;
    s <- findBestSnap m p SNAPSOURCE_GUIDE sc2 false ;;
    ret (getPoint_into s p).

(** [SPGuide], as far as [guideConstrainedSnap] reads it. *)
Record SPGuide := mkSPGuide {
  point_on_line : Point;
  normal_to_line : Point
}.

(** [SnapManager::guideConstrainedSnap]; the value is [p] after the call. *)
Definition guideConstrainedSnap (m : SnapManager) (p : Point)
    (guideline : SPGuide) : Logged Point :=
  check_snap_window m ;;;
  if negb (getSnapEnabledGlobally (snapprefs m))
     || getSnapPostponedGlobally (snapprefs m) then ret p
  else if negb (ThisSnapperMightSnap (object_snapper (object m))
                || getSnapToGuides (snapprefs m))
  then ret p
  else
    let cl := ConstraintLine_at (point_on_line guideline)
                (rot90 (normal_to_line guideline)) in
    sc1 <- (if ThisSnapperMightSnap (object_snapper (object m)) then
              call_constrainedSnap (ObjectSnapperId, object_snapper (object m))
                empty_constraints SNAPPOINT_GUIDE p SNAPSOURCE_GUIDE_ORIGIN true
                None cl None
            else ret empty_constraints) ;;
    sc2 <- (if getSnapToGuides (snapprefs m) then
              call_constrainedSnap (GuideSnapperId, guide m) sc1 SNAPPOINT_GUIDE
                p SNAPSOURCE_GUIDE_ORIGIN true None cl None
            else ret sc1) ;;
    s <- findBestSnap m p SNAPSOURCE_GUIDE sc2 false ;;
    ret (getPoint_into s p).

(** ** Snapping a set of points that is being transformed *)

Definition eps6 : Coord := 1 # 1000000.
Definition eps12 : Coord := 1 # 1000000000000.

Definition is_SCALE (t : Transformation) : bool :=
  match t with SCALE => true | _ => false end.
Definition is_STRETCH (t : Transformation) : bool :=
  match t with STRETCH => true | _ => false end.
Definition is_TRANSLATION (t : Transformation) : bool :=
  match t with TRANSLATION => true | _ => false end.

(** The operations of [Geom::Point] and [Geom::Scale] on doubles. *)
Definition padd (a b : Point) : Point :=
  mkPoint (dadd (px a) (px b)) (dadd (py a) (py b)).

Definition psub (a b : Point) : Point :=
  mkPoint (dsub (px a) (px b)) (dsub (py a) (py b)).

Definition pscale (a : Point) (sx sy : Coord) : Point :=
  mkPoint (dmul (px a) sx) (dmul (py a) sy).

(** [SnapManager::_transformPoint]. *)
Definition _transformPoint (p : Point * SnapSourceType)
    (transformation_type : Transformation) (transformation origin : Point)
    (dim : Dim2) (uniform : bool) : Point :=
  match transformation_type with
  | TRANSLATION => padd (fst p) transformation
  | SCALE =>
      padd (pscale (psub (fst p) origin) (get transformation X)
              (get transformation Y)) origin
  | STRETCH =>
      let s :=
        if uniform then mkPoint (get transformation dim) (get transformation dim)
        else set (set (mkPoint 1 1) dim (get transformation dim)) (other dim) 1 in
      padd (pscale (psub (fst p) origin) (px s) (py s)) origin
  | SKEW =>
      let transformed :=
        set origin0 dim
          (dadd (get (fst p) dim)
             (dmul (get transformation X)
                (dsub (get (fst p) (other dim)) (get origin (other dim))))) in
      set transformed (other dim)
        (dadd (dmul (get (psub (fst p) origin) (other dim)) (get transformation Y))
           (get origin (other dim)))
  end.

(** The box hulling all transformed points (first loop of
    [_snapTransformed]). *)
Definition hull (transformed : list Point) : Rect :=
  match transformed with
  | [] => mkRect origin0 origin0
  | t :: rest => fold_left expandTo rest (mkRect t t)
  end.

(** The arguments of [_snapTransformed] that stay the same for all points. *)
Record BatchArgs := mkBatchArgs {
  arg_type : PointType;
  arg_pointer : Point;
  arg_constrained : bool;
  arg_constraint : ConstraintLine;
  arg_transformation_type : Transformation;
  arg_transformation : Point;
  arg_origin : Point;
  arg_dim : Dim2;
  arg_uniform : bool
}.

Definition nonuniform_scale_message : string :=
  "Non-uniform constrained scaling is not supported!".

(** The constraint line of one point of a constrained call. *)
Definition dedicated_constraint (a : BatchArgs) (orig : Point) : ConstraintLine :=
  let b := sub orig (arg_origin a) in
  if (is_SCALE (arg_transformation_type a)
      || is_STRETCH (arg_transformation_type a)) && arg_uniform a then
    ConstraintLine_at (arg_origin a) b
  else if is_STRETCH (arg_transformation_type a) then
    ConstraintLine_at orig (component_vectors (arg_dim a))
  else if is_TRANSLATION (arg_transformation_type a) then
    setLinePoint (arg_constraint a) orig
  else arg_constraint a.

(** "Snap it": the first half of the body of the second loop, for the point
    [i] (untransformed) and [j] (transformed). *)
Definition snapOnePoint (m : SnapManager) (a : BatchArgs) (bbox : Rect)
    (first : bool) (i j : Point * SnapSourceType) : Logged SnappedPoint :=
  let b := sub (fst i) (arg_origin a) in
  snapped_point <-
    (if arg_constrained a then
       (if is_SCALE (arg_transformation_type a) && negb (arg_uniform a)
        then tell (Warning nonuniform_scale_message) else ret tt) ;;;
       constrainedSnap m (arg_type a) (fst j) (snd j)
         (dedicated_constraint a (fst i)) false first (Some bbox)
     else
       let c1 := Qltb (Qabs (get b X)) eps6 in
       let c2 := Qltb (Qabs (get b Y)) eps6 in
       if is_SCALE (arg_transformation_type a) && (c1 || c2) && negb (c1 && c2)
       then
         constrainedSnap m (arg_type a) (fst j) (snd j)
           (ConstraintLine_at (arg_origin a)
              (component_vectors (if c1 then Y else X)))
           false first (Some bbox)
       else freeSnap m (arg_type a) (fst j) (snd j) first (Some bbox)) ;;
  ret (setPointerDistance snapped_point (L2 (sub (arg_pointer a) (fst i)))).

(** What is computed from a point that snapped: the transformation that
    takes the point to where it snapped, the metric of a scaling, and the
    snapped point with its distance replaced by a metric, where the source
    does so. *)
Record Recovered := mkRecovered {
  rec_result : Point;
  rec_scale_metric : Point;
  rec_snapped : SnappedPoint
}.

(** One round of the loop [for (index = 0; index < 2; index++)] that
    recovers a scaling. *)
Definition scale_result_axis (a b transformation : Point) (index : Dim2)
    (result : Point) : Point :=
  if Qltb eps6 (Qabs (get b index)) then
    if Qltb eps12
         (Qabs (dsub (Qabs (ddiv (get a index) (get b index)))
                  (Qabs (get transformation index))))
    then set result index (ddiv (get a index) (get b index))
    else result
  else result.

(** The [switch (transformation_type)] of the second loop, in the arithmetic
    of doubles.  The divisor of a skew may be zero; the quotient is then
    whatever [ddiv] gives. *)
Definition recover (args : BatchArgs) (i : Point * SnapSourceType)
    (snapped_point : SnappedPoint) : Recovered :=
  let origin := arg_origin args in
  let transformation := arg_transformation args in
  let dim := arg_dim args in
  let a := psub (sp_point snapped_point) origin in
  let b := psub (fst i) origin in
  let huge := mkPoint NR_HUGE NR_HUGE in
  match arg_transformation_type args with
  | TRANSLATION =>
      mkRecovered (psub (sp_point snapped_point) (fst i)) huge snapped_point
  | SCALE =>
      let result :=
        scale_result_axis a b transformation Y
          (scale_result_axis a b transformation X huge) in
      mkRecovered result (psub result transformation) snapped_point
  | STRETCH =>
      let result :=
        if Qltb eps6 (Qabs (get b dim)) then
          let r1 := set huge dim (ddiv (get a dim) (get b dim)) in
          set r1 (other dim) (if arg_uniform args then get r1 dim else 1)
        else if arg_uniform args && Qltb eps6 (Qabs (get b (other dim))) then
          let r1 :=
            set huge (other dim)
              (ddiv (get a (other dim)) (get b (other dim))) in
          set r1 dim (get r1 (other dim))
        else huge in
      mkRecovered result huge
        (setSecondSnapDistance
           (setSnapDistance snapped_point
              (Qabs (dsub (get result dim) (get transformation dim))))
           NR_HUGE)
  | SKEW =>
      let r0 :=
        set origin0 X
          (ddiv (dsub (get (sp_point snapped_point) dim) (get (fst i) dim))
             (dsub (get (fst i) (other dim)) (get origin (other dim)))) in
      let result := set r0 Y (get transformation Y) in
      mkRecovered result huge
        (setSecondSnapDistance
           (setSnapDistance snapped_point
              (Qabs (dsub (get result X) (get transformation X))))
           NR_HUGE)
  end.

(** The three locals that the second loop updates. *)
Record Best := mkBest {
  best_transformation : Point;
  best_scale_metric : Point;
  best_snapped_point : SnappedPoint
}.

(** One round of the loop over [index] that keeps the best scaling.  The
    metric it compares is the difference of doubles that [recover] computed
    ([scale_metric = result - transformation]); the comparison of the two
    absolute values is exact. *)
Definition scale_update_axis (index : Dim2) (r : Recovered) (st : Best) : Best :=
  if Qltb (Qabs (get (rec_scale_metric r) index))
          (Qabs (get (best_scale_metric st) index))
  then
    mkBest (set (best_transformation st) index (get (rec_result r) index))
      (set (best_scale_metric st) index (Qabs (get (rec_scale_metric r) index)))
      (rec_snapped r)
  else st.

(** [if (uniform) { ... }]: both directions take the better one. *)
Definition scale_collapse (st : Best) : Best :=
  if Qltb (get (best_scale_metric st) X) (get (best_scale_metric st) Y) then
    mkBest (set (best_transformation st) Y (get (best_transformation st) X))
      (set (best_scale_metric st) Y (get (best_scale_metric st) X))
      (best_snapped_point st)
  else
    mkBest (set (best_transformation st) X (get (best_transformation st) Y))
      (set (best_scale_metric st) X (get (best_scale_metric st) Y))
      (best_snapped_point st).

(** The second half of the body of the second loop, for a point that
    snapped. *)
Definition update_best (args : BatchArgs) (r : Recovered) (st : Best) : Best :=
  if is_SCALE (arg_transformation_type args) then
    let st' := scale_update_axis Y r (scale_update_axis X r st) in
    if arg_uniform args then scale_collapse st' else st'
  else if isOtherSnapBetter (best_snapped_point st) (rec_snapped r) true then
    mkBest (rec_result r) (best_scale_metric st) (rec_snapped r)
  else st.

(** What one point does to the three locals, given how it snapped. *)
Definition absorb (args : BatchArgs) (i : Point * SnapSourceType)
    (snapped_point : SnappedPoint) (st : Best) : Best :=
  if getSnapped snapped_point
  then update_best args (recover args i snapped_point) st
  else st.

(** The second loop of [_snapTransformed], over the points and their
    transformed positions. *)
Fixpoint snapLoop (m : SnapManager) (args : BatchArgs) (bbox : Rect)
    (first : bool)
    (pts : list ((Point * SnapSourceType) * (Point * SnapSourceType)))
    (st : Best) : Logged Best :=
  match pts with
  | [] => ret st
  | (i, j) :: rest =>
      snapped_point <- snapOnePoint m args bbox first i j ;;
      snapLoop m args bbox false rest (absorb args i snapped_point st)
  end.

(** "When scaling, don't ever exit with one of scaling components set to
    NR_HUGE": one round of the last loop over [index]. *)
Definition scale_fallback_axis (uniform : bool) (transformation : Point)
    (index : Dim2) (bt : Point) : Point :=
  if Qeq_bool (get bt index) NR_HUGE then
    if uniform && Qltb (get bt (other index)) NR_HUGE
    then set bt index (get bt (other index))
    else set bt index (get transformation index)
  else bt.

(** The end of [_snapTransformed], after the second loop. *)
Definition finish (args : BatchArgs) (st : Best) : SnappedPoint :=
  let bt :=
    if is_SCALE (arg_transformation_type args) then
      scale_fallback_axis (arg_uniform args) (arg_transformation args) Y
        (scale_fallback_axis (arg_uniform args) (arg_transformation args) X
           (best_transformation st))
    else best_transformation st in
  let best_metric :=
    if is_SCALE (arg_transformation_type args) then
      Qmin (get (best_scale_metric st) X) (get (best_scale_metric st) Y)
    else sp_distance (best_snapped_point st) in
  setSnapDistance (setTransformation (best_snapped_point st) bt)
    (if Qltb best_metric 1000000 then best_metric else NR_HUGE).

(** The transformed points, in the order of the points. *)
Definition transformed_points (args : BatchArgs)
    (pts : list (Point * SnapSourceType)) : list (Point * SnapSourceType) :=
  map (fun i =>
         (_transformPoint i (arg_transformation_type args)
            (arg_transformation args) (arg_origin args) (arg_dim args)
            (arg_uniform args), snd i)) pts.

Definition initial_best (args : BatchArgs) : Best :=
  mkBest (arg_transformation args) (mkPoint NR_HUGE NR_HUGE)
    SnappedPoint_default.

(** [SnapManager::_snapTransformed]. *)
Definition _snapTransformed (m : SnapManager) (args : BatchArgs)
    (pts : list (Point * SnapSourceType)) : Logged SnappedPoint :=
  if negb (someSnapperMightSnap m) then ret SnappedPoint_default
  else
    let tps := transformed_points args pts in
    let bbox := hull (map fst tps) in
    st <- snapLoop m args bbox true (combine pts tps) (initial_best args) ;;
    ret (finish args st).

(** The same arguments with another proposed transformation. *)
Definition with_transformation (a : BatchArgs) (t : Point) : BatchArgs :=
  mkBatchArgs (arg_type a) (arg_pointer a) (arg_constrained a)
    (arg_constraint a) (arg_transformation_type a) t (arg_origin a) (arg_dim a)
    (arg_uniform a).

(** What the points that snapped give, in the order of the points: the loop
    of [_snapTransformed] seen through its values only. *)
Fixpoint recoveries (m : SnapManager) (args : BatchArgs) (bbox : Rect)
    (first : bool)
    (pts : list ((Point * SnapSourceType) * (Point * SnapSourceType))) :
    list Recovered :=
  match pts with
  | [] => []
  | (i, j) :: rest =>
      let snapped_point := value (snapOnePoint m args bbox first i j) in
      (if getSnapped snapped_point then [recover args i snapped_point] else [])
      ++ recoveries m args bbox false rest
  end.

(** The recoveries of a call of [_snapTransformed]. *)
Definition batch_recoveries (m : SnapManager) (args : BatchArgs)
    (pts : list (Point * SnapSourceType)) : list Recovered :=
  recoveries m args (hull (map fst (transformed_points args pts))) true
    (combine pts (transformed_points args pts)).

(** The body of the second loop for a uniform scaling, for a point that
    snapped. *)
Definition scale_step (r : Recovered) (st : Best) : Best :=
  scale_collapse (scale_update_axis Y r (scale_update_axis X r st)).

(** Where a best value [v] with metric [mu] comes from: the metric is still
    the initial one, or both come from one of the recoveries [rs]. *)
Definition provenance (rs : list Recovered) (v mu : Coord) : Prop :=
  mu == NR_HUGE
  \/ exists r k, In r rs /\ v = get (rec_result r) k
                 /\ mu = Qabs (get (rec_scale_metric r) k).

(** What holds of the best scaling after the recoveries [rs] of a uniform
    scaling. *)
Definition scale_invariant (rs : list Recovered) (st : Best) : Prop :=
  0 <= get (best_scale_metric st) X
  /\ 0 <= get (best_scale_metric st) Y
  /\ (forall r, In r rs -> forall k,
        get (best_scale_metric st) X <= Qabs (get (rec_scale_metric r) k)
        /\ get (best_scale_metric st) Y <= Qabs (get (rec_scale_metric r) k))
  /\ provenance rs (get (best_transformation st) X) (get (best_scale_metric st) X)
  /\ provenance rs (get (best_transformation st) Y) (get (best_scale_metric st) Y)
  /\ (rs <> [] ->
      get (best_transformation st) X = get (best_transformation st) Y
      /\ get (best_scale_metric st) X = get (best_scale_metric st) Y).

(** The three locals when the second loop of [_snapTransformed] is left. *)
Definition batch_exit (m : SnapManager) (a : BatchArgs)
    (pts : list (Point * SnapSourceType)) : Best :=
  fold_left (fun st r => update_best a r st) (batch_recoveries m a pts)
    (initial_best a).

(** ** The session and the entry points of the batch routine *)

(** The manager [m] with another list of items to ignore. *)
Definition with_items_to_ignore (m : SnapManager) (l : option (list SPItem)) :
    SnapManager :=
  mkSnapManager (guide m) (object m) (snapprefs m) (named_view_grids m)
    (_desktop m) (_snapindicator m) (_item_to_ignore m) l (_unselected_nodes m).

(** [SnapManager::setup], the overload for a single item to ignore (which
    may be null).  The manager keeps its providers, preferences and named
    view; the second component is [_guide_to_ignore], which snap.cpp stores
    and does not read. *)
Definition setup_item (m : SnapManager) (desktop : SPDesktop)
    (snapindicator : bool) (item_to_ignore : option SPItem)
    (unselected_nodes : option (list (Point * SnapSourceType)))
    (guide_to_ignore : option SPGuide) : SnapManager * option SPGuide :=
  (mkSnapManager (guide m) (object m) (snapprefs m) (named_view_grids m)
     desktop snapindicator item_to_ignore None unselected_nodes,
   guide_to_ignore).

(** [SnapManager::setup], the overload for a list of items to ignore. *)
Definition setup_items (m : SnapManager) (desktop : SPDesktop)
    (snapindicator : bool) (items : list SPItem)
    (unselected_nodes : option (list (Point * SnapSourceType)))
    (guide_to_ignore : option SPGuide) : SnapManager * option SPGuide :=
  (mkSnapManager (guide m) (object m) (snapprefs m) (named_view_grids m)
     desktop snapindicator None (Some items) unselected_nodes,
   guide_to_ignore).

(** The calls of the snap indicator that mark the snap source. *)
Inductive SourceEvent :=
| SetNewSnapSource (p : Point * SnapSourceType)
| RemoveSnapSource.

(** The flags that only [_displaySnapsource] reads: the preference
    "/options/snapclosestonly/value" and two members of [snapprefs]. *)
Record DisplayPreferences := mkDisplayPreferences {
  snapclosestonly : bool;
  getSnapModeNode : bool;
  getSnapModeBBox : bool
}.

(** [SnapManager::_displaySnapsource]. *)
Definition _displaySnapsource (dp : DisplayPreferences) (m : SnapManager)
    (point_type : PointType) (p : Point * SnapSourceType) : list SourceEvent :=
  if snapclosestonly dp then
    let p_is_a_node :=
      match point_type with SNAPPOINT_NODE => true | _ => false end in
    let p_is_a_bbox :=
      match point_type with SNAPPOINT_BBOX => true | _ => false end in
    if getSnapEnabledGlobally (snapprefs m)
       && ((p_is_a_node && getSnapModeNode dp)
           || (p_is_a_bbox && getSnapModeBBox dp))
    then [SetNewSnapSource p]
    else [RemoveSnapSource]
  else [].

(** [if (p.size() == 1) { _displaySnapsource(...) }], with the arguments of
    the batch. *)
Definition display_single (dp : DisplayPreferences) (m : SnapManager)
    (args : BatchArgs) (p : list (Point * SnapSourceType)) : list SourceEvent :=
  match p with
  | [x] =>
      _displaySnapsource dp m (arg_type args)
        (_transformPoint x (arg_transformation_type args)
           (arg_transformation args) (arg_origin args) (arg_dim args)
           (arg_uniform args), snd x)
  | _ => []
  end.

(** The arguments with which each entry point calls [_snapTransformed]. *)
Definition freeSnapTranslation_args (point_type : PointType)
    (pointer tr : Point) : BatchArgs :=
  mkBatchArgs point_type pointer false (ConstraintLine_dir origin0) TRANSLATION
    tr origin0 X false.

Definition constrainedSnapTranslation_args (point_type : PointType)
    (pointer : Point) (constraint : ConstraintLine) (tr : Point) : BatchArgs :=
  mkBatchArgs point_type pointer true constraint TRANSLATION tr origin0 X false.

Definition freeSnapScale_args (point_type : PointType) (pointer s o : Point) :
    BatchArgs :=
  mkBatchArgs point_type pointer false (ConstraintLine_dir origin0) SCALE
    (mkPoint (get s X) (get s Y)) o X false.

Definition constrainedSnapScale_args (point_type : PointType)
    (pointer s o : Point) : BatchArgs :=
  mkBatchArgs point_type pointer true (ConstraintLine_dir origin0) SCALE
    (mkPoint (get s X) (get s Y)) o X true.

Definition constrainedSnapStretch_args (point_type : PointType)
    (pointer : Point) (s : Coord) (o : Point) (d : Dim2) (u : bool) : BatchArgs :=
  mkBatchArgs point_type pointer true (ConstraintLine_dir origin0) STRETCH
    (mkPoint s s) o d u.

Definition constrainedSnapSkew_args (point_type : PointType) (pointer : Point)
    (constraint : ConstraintLine) (s o : Point) (d : Dim2) : BatchArgs :=
  mkBatchArgs point_type pointer true constraint SKEW s o d false.

(** An entry point: the snap source is marked for a batch of one point, then
    the batch is snapped.  The calls that mark the source come before all
    events of the batch. *)
Definition entry (dp : DisplayPreferences) (m : SnapManager) (args : BatchArgs)
    (p : list (Point * SnapSourceType)) :
    list SourceEvent * Logged SnappedPoint :=
  (display_single dp m args p, _snapTransformed m args p).

(** [SnapManager::freeSnapTranslation] and the four entry points after it. *)
Definition freeSnapTranslation (dp : DisplayPreferences) (m : SnapManager)
    (point_type : PointType) (p : list (Point * SnapSourceType))
    (pointer tr : Point) : list SourceEvent * Logged SnappedPoint :=
  entry dp m (freeSnapTranslation_args point_type pointer tr) p.

Definition constrainedSnapTranslation (dp : DisplayPreferences)
    (m : SnapManager) (point_type : PointType)
    (p : list (Point * SnapSourceType)) (pointer : Point)
    (constraint : ConstraintLine) (tr : Point) :
    list SourceEvent * Logged SnappedPoint :=
  entry dp m (constrainedSnapTranslation_args point_type pointer constraint tr) p.

Definition freeSnapScale (dp : DisplayPreferences) (m : SnapManager)
    (point_type : PointType) (p : list (Point * SnapSourceType))
    (pointer s o : Point) : list SourceEvent * Logged SnappedPoint :=
  entry dp m (freeSnapScale_args point_type pointer s o) p.

(** [SnapManager::constrainedSnapScale]: "when constrained scaling, only
    uniform scaling is supported". *)
Definition constrainedSnapScale (dp : DisplayPreferences) (m : SnapManager)
    (point_type : PointType) (p : list (Point * SnapSourceType))
    (pointer s o : Point) : list SourceEvent * Logged SnappedPoint :=
  entry dp m (constrainedSnapScale_args point_type pointer s o) p.

Definition constrainedSnapStretch (dp : DisplayPreferences) (m : SnapManager)
    (point_type : PointType) (p : list (Point * SnapSourceType))
    (pointer : Point) (s : Coord) (o : Point) (d : Dim2) (u : bool) :
    list SourceEvent * Logged SnappedPoint :=
  entry dp m (constrainedSnapStretch_args point_type pointer s o d u) p.

(** [SnapManager::constrainedSnapSkew]: [g_assert] stops the program when
    the points are those of a bounding box; [None] is that outcome. *)
Definition constrainedSnapSkew (dp : DisplayPreferences) (m : SnapManager)
    (point_type : PointType) (p : list (Point * SnapSourceType))
    (pointer : Point) (constraint : ConstraintLine) (s o : Point) (d : Dim2) :
    option (list SourceEvent * Logged SnappedPoint) :=
  match point_type with
  | SNAPPOINT_BBOX => None
  | _ =>
      Some (entry dp m
              (constrainedSnapSkew_args point_type pointer constraint s o d) p)
  end.

(** Two points with equal coordinates. *)
Definition same_point (a b : Point) : Prop := px a == px b /\ py a == py b.

(** Is the event a call of the snap indicator? *)
Definition is_indicator_call (e : Event) : bool :=
  match e with
  | SetNewSnapTarget _ | RemoveSnapTarget => true
  | _ => false
  end.

(** What [findBestSnap] tells the indicator about its result [r]. *)
Definition indicator_call (r : SnappedPoint) : Event :=
  if getSnapped r then SetNewSnapTarget r else RemoveSnapTarget.

(** The provider calls that [_snapTransformed] causes for the point [i],
    transformed to [j]: along the line [l] if there is one, freely
    otherwise. *)
Definition point_calls (m : SnapManager) (l : option ConstraintLine)
    (j : Point * SnapSourceType) : list Event :=
  match l with
  | Some c =>
      map (fun s => CallConstrainedSnap (fst s) (projection c (fst j)) c)
        (getSnappers m)
  | None => map (fun s => CallFreeSnap (fst s) (fst j)) (getSnappers m)
  end.

(** The line along which the point [i] of a batch is snapped, if any. *)
Definition point_line (a : BatchArgs) (i : Point * SnapSourceType) :
    option ConstraintLine :=
  let b := sub (fst i) (arg_origin a) in
  let c1 := Qltb (Qabs (get b X)) eps6 in
  let c2 := Qltb (Qabs (get b Y)) eps6 in
  if arg_constrained a then Some (dedicated_constraint a (fst i))
  else if is_SCALE (arg_transformation_type a) && xorb c1 c2 then
    Some (ConstraintLine_at (arg_origin a)
            (component_vectors (if c1 then Y else X)))
  else None.

End Manager.

(** The collaborators [C] with other searches for the intersection of
    snapped lines. *)
Definition with_line_intersections (C : Collaborators)
    (f : list SnappedLine -> option SnappedPoint)
    (g : list SnappedLine -> list SnappedLine -> option SnappedPoint) :
    Collaborators :=
  @mkCollaborators NR_HUGE L2 projection SnappedPoint_default getSnapped
    isOtherSnapBetter getClosestSP getClosestCurve getClosestSL
    getClosestIntersectionCS f g default_distance default_always_snap
    default_at_intersection getSnapped_finite.

(** A candidate that an intersection search found, as [findBestSnap] puts it
    in its list: with the source kind of the query and its own target kind. *)
Definition intersection_candidate (target : SnapTargetType)
    (source_type : SnapSourceType) (found : option SnappedPoint) :
    list SnappedPoint :=
  opt_list (option_map (fun s => setTarget (setSource s source_type) target)
              found).

Section Candidates.

Context {C : Collaborators}.

(** The candidates that [findBestSnap] gathers for every query, constrained
    or not: the closest snapped point, curve, intersection of curves (when
    that preference is on), grid line and guide line. *)
Definition plain_candidates (m : SnapManager) (p : Point)
    (source_type : SnapSourceType) (sc : SnappedConstraints) :
    list SnappedPoint :=
  opt_list (getClosestSP (points sc))
  ++ opt_list (option_map scv_base (getClosestCurve (curves sc)))
  ++ (if getSnapIntersectionCS (snapprefs m) then
        opt_list (option_map (fun s => setSource s source_type)
                    (getClosestIntersectionCS (curves sc) p))
      else [])
  ++ opt_list (option_map sl_base (getClosestSL (grid_lines sc)))
  ++ opt_list (option_map sl_base (getClosestSL (guide_lines sc))).

(** What the three searches for an intersection of snapped lines add: the
    closest intersection of two grid lines, of two guide lines and, when the
    preference for it is on, of a grid line with a guide line. *)
Definition line_intersection_candidates (m : SnapManager)
    (source_type : SnapSourceType) (sc : SnappedConstraints) :
    list SnappedPoint :=
  intersection_candidate SNAPTARGET_GRID_INTERSECTION source_type
    (getClosestIntersectionSL (grid_lines sc))
  ++ intersection_candidate SNAPTARGET_GUIDE_INTERSECTION source_type
       (getClosestIntersectionSL (guide_lines sc))
  ++ (if getSnapIntersectionGG (snapprefs m) then
        intersection_candidate SNAPTARGET_GRID_GUIDE_INTERSECTION source_type
          (getClosestIntersectionSL2 (grid_lines sc) (guide_lines sc))
      else []).

End Candidates.

(** ** The specification's selection, in its own words *)

Section SpecSelection.

Context {C : Collaborators}.

(** A candidate is in range when its distance is within its own tolerance. *)
Definition within_tolerance (c : SnappedPoint) : bool :=
  Qle_bool (sp_distance c) (sp_tolerance c).

(** "Scan the remainder, replacing best whenever a later candidate is a
    better snap than the current best". *)
Fixpoint scan_better (best : SnappedPoint) (l : list SnappedPoint) : SnappedPoint :=
  match l with
  | [] => best
  | c :: rest =>
      scan_better (if isOtherSnapBetter best c false then c else best) rest
  end.

(** "Select the first candidate whose distance is within its own tolerance
    as an initial best; then scan the remainder"; "if nothing qualified,
    return the sentinel". *)
Definition first_then_better (p : Point) (l : list SnappedPoint) : SnappedPoint :=
  match filter within_tolerance l with
  | [] => not_snapped p
  | c :: rest => scan_better c rest
  end.

(** The selection as the loop makes it: the head of the list is the initial
    best if it is within its tolerance, without a comparison; every other
    candidate within its tolerance is compared with the best so far, which
    is the "not snapped" result until a candidate has been taken. *)
Definition head_then_better (p : Point) (l : list SnappedPoint) : SnappedPoint :=
  match l with
  | [] => not_snapped p
  | c :: rest =>
      scan_better (if within_tolerance c then c else not_snapped p)
        (filter within_tolerance rest)
  end.

End SpecSelection.

(** Modelled from the spec: [SnappedPoint::isOtherSnapBetter] of
    snapped-point.cpp, after the tie-break rule of the selection policy.  A
    candidate flagged "always snap" beats one that is not; otherwise a
    strictly smaller primary distance wins; at equal primary distance an
    intersection beats a result that is none, then the strictly smaller
    secondary distance wins, then (with [weighted], the batch path) the
    smaller pointer distance; else the earlier candidate is kept. *)
Definition isOtherSnapBetter_spec (this other : SnappedPoint) (weighted : bool) :
    bool :=
  if xorb (sp_always_snap other) (sp_always_snap this) then sp_always_snap other
  else if Qltb (sp_distance other) (sp_distance this) then true
  else if Qltb (sp_distance this) (sp_distance other) then false
  else if xorb (sp_at_intersection other) (sp_at_intersection this)
  then sp_at_intersection other
  else if Qltb (sp_second_distance other) (sp_second_distance this) then true
  else if Qltb (sp_second_distance this) (sp_second_distance other) then false
  else weighted && Qltb (sp_pointer_distance other) (sp_pointer_distance this).

(** ** One set of collaborators, to run the manager on examples *)

Module Demo.

(** Rounding to the nearest [double] (binary64, ties to even): 53 binary
    digits, exponents down to that of the subnormal numbers.  A magnitude
    beyond the finite doubles becomes [2^1024], which stands for the
    infinity. *)
Definition round64 (q : Q) : Q :=
  let n := Qnum q in
  let d := Zpos (Qden q) in
  if (n =? 0)%Z then 0
  else
    let an := Z.abs n in
    let e0 := (Z.log2 an - Z.log2 d)%Z in
    let below :=
      if (0 <=? e0)%Z then (an <? d * 2 ^ e0)%Z
      else (an * 2 ^ (- e0) <? d)%Z in
    let e := if below then (e0 - 1)%Z else e0 in
    let k := Z.min (52 - e) 1074 in
    let N := if (0 <=? k)%Z then (an * 2 ^ k)%Z else an in
    let M := if (0 <=? k)%Z then d else (d * 2 ^ (- k))%Z in
    let qz := (N / M)%Z in
    let r := (N mod M)%Z in
    let up := ((M <? 2 * r) || ((M =? 2 * r) && Z.odd qz))%Z in
    let m := if up then (qz + 1)%Z else qz in
    let v :=
      if (0 <=? k)%Z then Qred (Qmake m (Z.to_pos (2 ^ k)))
      else inject_Z (m * 2 ^ (- k)) in
    let top := inject_Z (2 ^ 1024) in
    let v' := if Qle_bool top v then top else v in
    if (n <? 0)%Z then - v' else v'.

(** Division of doubles; a quotient by zero is the stand-in of the infinity,
    with the sign of the dividend (the examples divide by no zero). *)
Definition div64 (x y : Q) : Q :=
  if Qeq_bool y 0 then
    if Qle_bool 0 x then inject_Z (2 ^ 1024) else - inject_Z (2 ^ 1024)
  else round64 (Qred (x / y)).

Definition add64 (x y : Q) : Q := round64 (Qred (x + y)).
Definition sub64 (x y : Q) : Q := round64 (Qred (x - y)).
Definition mul64 (x y : Q) : Q := round64 (Qred (x * y)).

#[export] Instance double_arith : DoubleArith.
Proof.
  refine (@mkDoubleArith add64 sub64 mul64 div64 _ _ _ _);
    intros x x' Hx y y' Hy.
  - unfold add64. rewrite (Qred_complete (x + y) (x' + y')); [reflexivity |].
    rewrite Hx, Hy. reflexivity.
  - unfold sub64. rewrite (Qred_complete (x - y) (x' - y')); [reflexivity |].
    rewrite Hx, Hy. reflexivity.
  - unfold mul64. rewrite (Qred_complete (x * y) (x' * y')); [reflexivity |].
    rewrite Hx, Hy. reflexivity.
  - unfold div64.
    assert (E0 : Qeq_bool y 0 = Qeq_bool y' 0).
    { destruct (Qeq_bool y 0) eqn:A, (Qeq_bool y' 0) eqn:B; try reflexivity.
      - apply Qeq_bool_iff in A. rewrite Hy in A. apply Qeq_bool_iff in A.
        congruence.
      - apply Qeq_bool_iff in B. rewrite <- Hy in B. apply Qeq_bool_iff in B.
        congruence. }
    assert (E1 : Qle_bool 0 x = Qle_bool 0 x').
    { destruct (Qle_bool 0 x) eqn:A, (Qle_bool 0 x') eqn:B; try reflexivity.
      - apply Qle_bool_iff in A. rewrite Hx in A. apply Qle_bool_iff in A.
        congruence.
      - apply Qle_bool_iff in B. rewrite <- Hx in B. apply Qle_bool_iff in B.
        congruence. }
    rewrite E0, E1.
    rewrite (Qred_complete (x / y) (x' / y')); [reflexivity |].
    rewrite Hx, Hy. reflexivity.
Defined.

Definition huge : Coord := 1000000000000000000.

(** Modelled from the spec: a default [SnappedPoint], the "nothing found"
    result: target kind undefined, distance the sentinel, not snapped.  The
    other fields are a choice of this instance. *)
Definition default_point : SnappedPoint :=
  mkSnappedPoint origin0 SNAPSOURCE_UNDEFINED SNAPTARGET_UNDEFINED huge 1 false
    false huge (mkPoint 1 1) huge.

(** Modelled from the spec: a result is snapped when its primary distance is
    finite, that is below the sentinel. *)
Definition snapped (s : SnappedPoint) : bool := Qltb (sp_distance s) huge.

(** The projection of [p] on a constraint line; a line that has no point
    runs through [p]. *)
Definition project (c : ConstraintLine) (p : Point) : Point :=
  let q := match cl_point c with Some q => q | None => p end in
  let d := cl_direction c in
  let dd := px d * px d + py d * py d in
  let k := ((px p - px q) * px d + (py p - py q) * py d) / dd in
  mkPoint (px q + k * px d) (py q + k * py d).

(** The length of a vector that is parallel to an axis; the instance uses it
    where the source takes [Geom::L2], and its providers only measure along
    an axis. *)
Definition axis_length (v : Point) : Coord := Qabs (px v) + Qabs (py v).

(** The closest of a list by a distance; the first of equally close ones. *)
Fixpoint closest_by {A} (d : A -> Coord) (l : list A) : option A :=
  match l with
  | [] => None
  | x :: rest =>
      match closest_by d rest with
      | Some y => if Qltb (d y) (d x) then Some y else Some x
      | None => Some x
      end
  end.

(** The intersection of two snapped lines, each through [sl_point_on_line]
    with normal [sl_normal]; its snap distance is "the distance to the
    nearest line of the intersection", its secondary distance that to the
    other line. *)
Definition intersect (l1 l2 : SnappedLine) : option SnappedPoint :=
  let a1 := px (sl_normal l1) in
  let b1 := py (sl_normal l1) in
  let a2 := px (sl_normal l2) in
  let b2 := py (sl_normal l2) in
  let c1 := a1 * px (sl_point_on_line l1) + b1 * py (sl_point_on_line l1) in
  let c2 := a2 * px (sl_point_on_line l2) + b2 * py (sl_point_on_line l2) in
  let det := a1 * b2 - a2 * b1 in
  if Qeq_bool det 0 then None
  else
    let near := if Qltb (sp_distance (sl_base l2)) (sp_distance (sl_base l1))
                then sl_base l2 else sl_base l1 in
    Some (mkSnappedPoint
            (mkPoint ((c1 * b2 - c2 * b1) / det) ((a1 * c2 - a2 * c1) / det))
            (sp_source near) (sp_target near)
            (Qmin (sp_distance (sl_base l1)) (sp_distance (sl_base l2)))
            (sp_tolerance near) (sp_always_snap near) true
            (Qmax (sp_distance (sl_base l1)) (sp_distance (sl_base l2)))
            (mkPoint 1 1) huge).

Definition intersections (ls1 ls2 : list SnappedLine) : list SnappedPoint :=
  flat_map (fun l1 => flat_map (fun l2 => opt_list (intersect l1 l2)) ls2) ls1.

#[export] Instance collaborators : Collaborators.
Proof.
  refine (@mkCollaborators huge axis_length project default_point snapped
            isOtherSnapBetter_spec
            (closest_by sp_distance)
            (closest_by (fun c => sp_distance (scv_base c)))
            (closest_by (fun l => sp_distance (sl_base l)))
            (fun _ _ => None)
            (fun ls => closest_by sp_distance (intersections ls ls))
            (fun ls1 ls2 => closest_by sp_distance (intersections ls1 ls2))
            eq_refl eq_refl eq_refl _).
  intros s H. unfold snapped, Qltb in H.
  apply Qnot_le_lt. intro L. apply Qle_bool_iff in L.
  rewrite L in H. discriminate.
Defined.

(** A provider that knows one target point [q]: it finds it from a query
    point on the same horizontal or vertical, within the tolerance, and
    reports the distance between the two. *)
Definition point_candidate (q : Point) (tol : Coord) (target : SnapTargetType)
    (p : Point) (source : SnapSourceType) : list SnappedPoint :=
  let v := sub q p in
  if (Qeq_bool (px v) 0 || Qeq_bool (py v) 0)
     && Qle_bool (axis_length v) tol
  then [mkSnappedPoint q source target (axis_length v) tol false false huge
          (mkPoint 1 1) huge]
  else [].

Definition add_points (sc : SnappedConstraints) (l : list SnappedPoint) :
    SnappedConstraints :=
  mkSnappedConstraints (points sc ++ l) (lines sc) (grid_lines sc)
    (guide_lines sc) (curves sc).

Definition point_snapper (enabled : bool) (q : Point) (tol : Coord)
    (target : SnapTargetType) : Snapper :=
  mkSnapper enabled
    (fun sc _ p source _ _ _ _ => add_points sc (point_candidate q tol target p source))
    (fun sc _ p source _ _ _ _ => add_points sc (point_candidate q tol target p source)).

(** A provider that finds nothing. *)
Definition idle_snapper (enabled : bool) : Snapper :=
  mkSnapper enabled (fun sc _ _ _ _ _ _ _ => sc) (fun sc _ _ _ _ _ _ _ => sc).

(** A provider for the lines [x = x0] and [y = y0]: from a query point it
    finds each line that is within the tolerance. *)
Definition line_candidate (vertical : bool) (at_ : Coord) (tol : Coord)
    (target : SnapTargetType) (p : Point) (source : SnapSourceType) :
    list SnappedLine :=
  let d := if vertical then Qabs (px p - at_) else Qabs (py p - at_) in
  let foot := if vertical then mkPoint at_ (py p) else mkPoint (px p) at_ in
  if Qle_bool d tol then
    [mkSnappedLine
       (mkSnappedPoint foot source target d tol false false huge (mkPoint 1 1)
          huge)
       (if vertical then mkPoint 1 0 else mkPoint 0 1) foot]
  else [].

Definition add_grid_lines (sc : SnappedConstraints) (l : list SnappedLine) :
    SnappedConstraints :=
  mkSnappedConstraints (points sc) (lines sc) (grid_lines sc ++ l)
    (guide_lines sc) (curves sc).

Definition add_guide_lines (sc : SnappedConstraints) (l : list SnappedLine) :
    SnappedConstraints :=
  mkSnappedConstraints (points sc) (lines sc) (grid_lines sc)
    (guide_lines sc ++ l) (curves sc).

Definition cross_grid_snapper (enabled : bool) (x0 y0 tol : Coord) : Snapper :=
  let found p source :=
    line_candidate true x0 tol SNAPTARGET_GRID p source
    ++ line_candidate false y0 tol SNAPTARGET_GRID p source in
  mkSnapper enabled
    (fun sc _ p source _ _ _ _ => add_grid_lines sc (found p source))
    (fun sc _ p source _ _ _ _ => add_grid_lines sc (found p source)).

Definition cross_guide_snapper (enabled : bool) (x0 y0 tol : Coord) : Snapper :=
  let found p source :=
    line_candidate true x0 tol SNAPTARGET_GUIDE p source
    ++ line_candidate false y0 tol SNAPTARGET_GUIDE p source in
  mkSnapper enabled
    (fun sc _ p source _ _ _ _ => add_guide_lines sc (found p source))
    (fun sc _ p source _ _ _ _ => add_guide_lines sc (found p source)).

Definition prefs_on : SnapPreferences :=
  mkSnapPreferences true false true true false true.

Definition prefs_off : SnapPreferences :=
  mkSnapPreferences false false true true false true.

Definition desktop : SPDesktop := mkSPDesktop true (Some true).

(** A manager with the given guide and object providers and grids. *)
Definition manager (prefs : SnapPreferences) (g o : Snapper)
    (grids : list CanvasGrid) : SnapManager :=
  mkSnapManager g (mkObjectSnapper o false (fun sc _ _ => sc)) prefs grids
    desktop false None None None.

(** The same, with the guides of the manager able to snap or not. *)
Definition prefs_no_guides : SnapPreferences :=
  mkSnapPreferences true false true false false true.

Definition prefs_no_grid_guide : SnapPreferences :=
  mkSnapPreferences true false true true false false.

(** A manager whose object provider knows the node [q]. *)
Definition node_manager (prefs : SnapPreferences) (q : Point) : SnapManager :=
  manager prefs (idle_snapper false) (point_snapper true q 5 SNAPTARGET_NODE) [].

(** A manager whose object provider knows the node [q], with the tolerance
    [tol]. *)
Definition node_manager_within (tol : Coord) (q : Point) : SnapManager :=
  manager prefs_on (idle_snapper false) (point_snapper true q tol SNAPTARGET_NODE)
    [].

(** A manager whose object provider knows a node at [(NR_HUGE, 0)] and has
    the tolerance [NR_HUGE]. *)
Definition far_manager : SnapManager :=
  manager prefs_on (idle_snapper false)
    (point_snapper true (mkPoint huge 0) huge SNAPTARGET_NODE) [].

(** What the object provider of [far_manager] finds from [(0, 0)]. *)
Definition far_found : SnappedConstraints :=
  provider_freeSnap (point_snapper true (mkPoint huge 0) huge SNAPTARGET_NODE)
    empty_constraints SNAPPOINT_NODE origin0 SNAPSOURCE_NODE true None None None.

(** What a grid with the line [x = 20] and a guide with the line [y = 50]
    give from [(21, 49)]: one grid line and one guide line. *)
Definition grid_and_guide_found : SnappedConstraints :=
  provider_freeSnap (cross_guide_snapper true 1000 50 5)
    (provider_freeSnap (cross_grid_snapper true 20 1000 5) empty_constraints
       SNAPPOINT_NODE (mkPoint 21 49) SNAPSOURCE_NODE true None None None)
    SNAPPOINT_NODE (mkPoint 21 49) SNAPSOURCE_NODE true None None None.

(** What providers may have found from [(0, 0)]: a node at [(10, 0)] that is
    out of its tolerance 5, and the grid line [x = NR_HUGE] within its
    tolerance [NR_HUGE]. *)
Definition stale_found : SnappedConstraints :=
  mkSnappedConstraints
    [mkSnappedPoint (mkPoint 10 0) SNAPSOURCE_NODE SNAPTARGET_NODE 10 5 false
       false huge (mkPoint 1 1) huge]
    []
    [mkSnappedLine
       (mkSnappedPoint (mkPoint huge 0) SNAPSOURCE_NODE SNAPTARGET_GRID huge
          huge false false huge (mkPoint 1 1) huge)
       (mkPoint 1 0) (mkPoint huge 0)]
    [] [].

(** A manager with a vertical guide at [x = 20] and a horizontal one at
    [y = 50]. *)
Definition guide_manager (prefs : SnapPreferences) : SnapManager :=
  manager prefs (cross_guide_snapper true 20 50 5) (idle_snapper true) [].

(** What the guide provider of [guide_manager] finds from [(21, 49)]. *)
Definition guides_found : SnappedConstraints :=
  provider_freeSnap (cross_guide_snapper true 20 50 5) empty_constraints
    SNAPPOINT_NODE (mkPoint 21 49) SNAPSOURCE_NODE true None None None.

(** A manager with two grids: one with origin [(0, 0)] and lines through
    [(10, 10)], one with origin [(1, 1)] and lines through [(9, 10)]. *)
Definition first_grid : CanvasGrid :=
  mkCanvasGrid origin0 (cross_grid_snapper true 10 10 5).

Definition second_grid : CanvasGrid :=
  mkCanvasGrid (mkPoint 1 1) (cross_grid_snapper true 9 10 5).

Definition grid_manager : SnapManager :=
  manager prefs_on (idle_snapper false) (idle_snapper false)
    [first_grid; second_grid].

(** The horizontal line through the origin. *)
Definition x_axis : ConstraintLine := ConstraintLine_at origin0 (mkPoint 1 0).

(** A constrained scaling about the origin by the factors [t], not uniform,
    along the horizontal through the origin. *)
Definition scale_along_x_args (t : Point) : BatchArgs :=
  mkBatchArgs SNAPPOINT_NODE origin0 true x_axis SCALE t origin0 X false.

(** A constrained scaling about the origin by the factors [t]. *)
Definition scale_args (t : Point) (uniform : bool) : BatchArgs :=
  mkBatchArgs SNAPPOINT_NODE origin0 true (ConstraintLine_dir origin0) SCALE t
    origin0 X uniform.

Definition translation_args (t : Point) : BatchArgs :=
  mkBatchArgs SNAPPOINT_NODE origin0 false (ConstraintLine_dir origin0)
    TRANSLATION t origin0 X false.

End Demo.

(** * Properties *)

(** ** Coordinates, points and the event log *)

Lemma Qltb_lt (x y : Q) : Qltb x y = true <-> x < y.
Proof.
  unfold Qltb. rewrite negb_true_iff.
  split; intro H.
  - apply Qnot_le_lt. intro L. apply Qle_bool_iff in L. congruence.
  - destruct (Qle_bool y x) eqn:E; [| reflexivity].
    apply Qle_bool_iff in E. exfalso. apply (Qlt_not_le _ _ H E).
Qed.

Lemma Qltb_ge (x y : Q) : Qltb x y = false <-> y <= x.
Proof.
  unfold Qltb. rewrite negb_false_iff. apply Qle_bool_iff.
Qed.

Lemma value_bind {A B} (c : Logged A) (k : A -> Logged B) :
  value (bind c k) = value (k (value c)).
Proof. destruct c as [a l]. unfold bind, value. simpl. destruct (k a). reflexivity. Qed.

Lemma events_bind {A B} (c : Logged A) (k : A -> Logged B) :
  events (bind c k) = events c ++ events (k (value c)).
Proof. destruct c as [a l]. unfold bind, events, value. simpl. destruct (k a). reflexivity. Qed.

Lemma forallb_app_true {A} (f : A -> bool) (l1 l2 : list A) :
  forallb f l1 = true -> forallb f l2 = true -> forallb f (l1 ++ l2) = true.
Proof. intros H1 H2. rewrite forallb_app, H1, H2. reflexivity. Qed.

Section Properties.

Context {Fl : DoubleArith} {C : Collaborators}.

(** ** The sentinel *)

Lemma sentinel_not_snapped (s : SnappedPoint) :
  sp_distance s = NR_HUGE -> getSnapped s = false.
Proof.
  intro H. destruct (getSnapped s) eqn:E; [| reflexivity].
  apply getSnapped_finite in E. rewrite H in E.
  exfalso. apply (Qlt_irrefl _ E).
Qed.

Lemma events_check_snap_window (m : SnapManager) :
  no_provider_call (events (check_snap_window m)) = true.
Proof.
  unfold check_snap_window.
  destruct (event_context_snap_window_open (_desktop m)) as [[|]|]; reflexivity.
Qed.

(** ** The selection policy *)

Lemma findBestSnap_value (m : SnapManager) (p : Point) (src : SnapSourceType)
    (sc : SnappedConstraints) (constrained : bool) :
  value (findBestSnap m p src sc constrained)
  = select_best (not_snapped p) true (collect_candidates m p src sc constrained).
Proof. unfold findBestSnap. rewrite value_bind. reflexivity. Qed.

Lemma findBestSnap_events (m : SnapManager) (p : Point) (src : SnapSourceType)
    (sc : SnappedConstraints) (constrained : bool) :
  no_provider_call (events (findBestSnap m p src sc constrained)) = true.
Proof.
  unfold findBestSnap. rewrite events_bind.
  destruct (_snapindicator m); [| reflexivity].
  match goal with |- context [if ?b then _ else _] => destruct b end; reflexivity.
Qed.

Lemma select_best_cases (l : list SnappedPoint) :
  forall (best : SnappedPoint) (at_begin : bool),
    select_best best at_begin l = best
    \/ (In (select_best best at_begin l) l
        /\ within_tolerance (select_best best at_begin l) = true).
Proof.
  induction l as [| i rest IH]; intros best at_begin; simpl.
  - left. reflexivity.
  - destruct (Qle_bool (sp_distance i) (sp_tolerance i)) eqn:W.
    + destruct (at_begin || isOtherSnapBetter best i false).
      * destruct (IH i false) as [E | [HI HW]].
        -- right. rewrite E. split; [left; reflexivity | exact W].
        -- right. split; [right; exact HI | exact HW].
      * destruct (IH best false) as [E | [HI HW]].
        -- left. exact E.
        -- right. split; [right; exact HI | exact HW].
    + destruct (IH best false) as [E | [HI HW]].
      * left. exact E.
      * right. split; [right; exact HI | exact HW].
Qed.

(** C1, as the code has it.  Whatever the candidate set, [findBestSnap]
    returns one result, and this result is either the "not snapped" sentinel
    (its distance is [NR_HUGE], it is not snapped and it echoes the point
    [p] of the query, with target kind undefined), or one of the candidates
    of the list, whose distance is at most the tolerance it carries; that
    distance is finite (below [NR_HUGE]) whenever that tolerance is. *)
Theorem C1_findBestSnap_result (m : SnapManager) (p : Point)
    (src : SnapSourceType) (sc : SnappedConstraints) (constrained : bool) :
  let r := value (findBestSnap m p src sc constrained) in
  (r = not_snapped p /\ sp_distance r = NR_HUGE /\ getSnapped r = false
   /\ sp_point r = p /\ sp_target r = SNAPTARGET_UNDEFINED)
  \/ (In r (collect_candidates m p src sc constrained)
      /\ sp_distance r <= sp_tolerance r
      /\ (sp_tolerance r < NR_HUGE -> sp_distance r < NR_HUGE)).
Proof.
  cbv zeta. rewrite findBestSnap_value.
  destruct (select_best_cases (collect_candidates m p src sc constrained)
              (not_snapped p) true) as [E | [HI HW]].
  - left. rewrite E. repeat split.
    apply sentinel_not_snapped. reflexivity.
  - right. apply Qle_bool_iff in HW. split; [exact HI |].
    split; [exact HW |].
    intro L. apply (Qle_lt_trans _ _ _ HW L).
Qed.

Lemma select_best_scan (l : list SnappedPoint) :
  forall best : SnappedPoint,
    select_best best false l = scan_better best (filter within_tolerance l).
Proof.
  induction l as [| i rest IH]; intro best; simpl.
  - reflexivity.
  - unfold within_tolerance at 1.
    destruct (Qle_bool (sp_distance i) (sp_tolerance i)); simpl.
    + apply IH.
    + apply IH.
Qed.

Lemma select_best_first_then_better (p : Point) (l : list SnappedPoint) :
  (forall c, In c l -> within_tolerance c = true ->
             isOtherSnapBetter (not_snapped p) c false = true) ->
  select_best (not_snapped p) true l = first_then_better p l.
Proof.
  intro H. unfold first_then_better.
  destruct l as [| i rest]; simpl.
  - reflexivity.
  - unfold within_tolerance at 1.
    destruct (Qle_bool (sp_distance i) (sp_tolerance i)) eqn:W; simpl.
    + apply select_best_scan.
    + rewrite select_best_scan.
      destruct (filter within_tolerance rest) as [| c r] eqn:F.
      * reflexivity.
      * simpl. rewrite H; [reflexivity | |].
        -- right. apply (proj1 (filter_In within_tolerance c rest)).
           rewrite F. left. reflexivity.
        -- apply (proj1 (filter_In within_tolerance c rest)).
           rewrite F. left. reflexivity.
Qed.

Lemma select_best_head_then_better (p : Point) (l : list SnappedPoint) :
  select_best (not_snapped p) true l = head_then_better p l.
Proof.
  destruct l as [| i rest]; simpl.
  - reflexivity.
  - unfold within_tolerance at 1.
    destruct (Qle_bool (sp_distance i) (sp_tolerance i)); simpl;
      apply select_best_scan.
Qed.

(** C2, as the code has it.  [findBestSnap] takes the head of the list as
    the initial best, without a comparison, if its distance is within its
    own tolerance; every other candidate within its own tolerance replaces
    the best so far (the "not snapped" result, until a candidate has been
    taken) exactly when [isOtherSnapBetter] says that it is better, in the
    order of the list, which is not sorted.  So the selection is the one of
    the specification (the first candidate within its tolerance is the
    initial best) whenever the candidates within their tolerance are better
    than the "not snapped" result. *)
Theorem C2_findBestSnap_selection (m : SnapManager) (p : Point)
    (src : SnapSourceType) (sc : SnappedConstraints) (constrained : bool) :
  let l := collect_candidates m p src sc constrained in
  let r := value (findBestSnap m p src sc constrained) in
  r = head_then_better p l
  /\ ((forall c, In c l -> within_tolerance c = true ->
                 isOtherSnapBetter (not_snapped p) c false = true) ->
      r = first_then_better p l).
Proof.
  cbv zeta. rewrite findBestSnap_value. split.
  - apply select_best_head_then_better.
  - intro H. apply select_best_first_then_better. exact H.
Qed.

Lemma collect_candidates_split (m : SnapManager) (p : Point)
    (src : SnapSourceType) (sc : SnappedConstraints) (constrained : bool) :
  collect_candidates m p src sc constrained
  = plain_candidates m p src sc
    ++ (if constrained then [] else line_intersection_candidates m src sc).
Proof.
  unfold collect_candidates, plain_candidates, line_intersection_candidates,
    intersection_candidate.
  destruct constrained; cbn [negb]; repeat rewrite <- app_assoc; reflexivity.
Qed.

(** C3. The three searches for an intersection of snapped lines (two grid
    lines, two guide lines, a grid line with a guide line) belong to the
    unconstrained query only.  The result of a constrained query is the
    selection among the candidates of the other searches alone; the result
    of an unconstrained query is the selection among these followed by what
    the grid search found, what the guide search found and, only when the
    preference for grid-guide intersections is on, what the grid-guide
    search found.  So a constrained query returns the same result and causes
    the same events with any other search in the place of the three, and
    with the preference off an unconstrained query does not depend on the
    grid-guide search. *)
Theorem C3_line_intersections_iff_unconstrained (m : SnapManager) (p : Point)
    (src : SnapSourceType) (sc : SnappedConstraints) :
  value (findBestSnap m p src sc true)
  = head_then_better p (plain_candidates m p src sc)
  /\ value (findBestSnap m p src sc false)
     = head_then_better p
         (plain_candidates m p src sc ++ line_intersection_candidates m src sc)
  /\ (forall f g,
        @findBestSnap (with_line_intersections C f g) m p src sc true
        = findBestSnap m p src sc true)
  /\ (getSnapIntersectionGG (snapprefs m) = false ->
      forall g,
        @findBestSnap (with_line_intersections C getClosestIntersectionSL g)
           m p src sc false
        = findBestSnap m p src sc false).
Proof.
  split; [| split; [| split]].
  - rewrite findBestSnap_value, select_best_head_then_better.
    rewrite collect_candidates_split, app_nil_r. reflexivity.
  - rewrite findBestSnap_value, select_best_head_then_better.
    rewrite collect_candidates_split. reflexivity.
  - intros f g. reflexivity.
  - intros H g. unfold findBestSnap, collect_candidates. simpl.
    rewrite H. reflexivity.
Qed.

(** ** No provider might snap *)

Lemma someSnapperMightSnap_false (m : SnapManager) :
  getSnapEnabledGlobally (snapprefs m) = false
  \/ getSnapPostponedGlobally (snapprefs m) = true
  \/ Forall (fun s => ThisSnapperMightSnap (snd s) = false) (getSnappers m) ->
  someSnapperMightSnap m = false.
Proof.
  unfold someSnapperMightSnap. intros [H | [H | H]].
  - rewrite H. reflexivity.
  - rewrite H, orb_true_r. reflexivity.
  - destruct (negb (getSnapEnabledGlobally (snapprefs m))
              || getSnapPostponedGlobally (snapprefs m)); [reflexivity |].
    induction H as [| s l Hs _ IH]; simpl.
    + reflexivity.
    + rewrite Hs, IH. reflexivity.
Qed.

Lemma freeSnap_idle (m : SnapManager) (pt : PointType) (p : Point)
    (src : SnapSourceType) (first : bool) (bbox : OptRect) :
  someSnapperMightSnap m = false ->
  freeSnap m pt p src first bbox
  = (check_snap_window m ;;;
     ret (SnappedPoint_make p src SNAPTARGET_UNDEFINED NR_HUGE 0 false false)).
Proof. intro H. unfold freeSnap. rewrite H. reflexivity. Qed.

Lemma constrainedSnap_idle (m : SnapManager) (pt : PointType) (p : Point)
    (src : SnapSourceType) (c : ConstraintLine) (sp first : bool)
    (bbox : OptRect) :
  someSnapperMightSnap m = false ->
  constrainedSnap m pt p src c sp first bbox
  = (check_snap_window m ;;;
     ret (SnappedPoint_make p src SNAPTARGET_UNDEFINED NR_HUGE 0 false false)).
Proof. intro H. unfold constrainedSnap. rewrite H. reflexivity. Qed.

Lemma idle_result (m : SnapManager) (s : SnappedPoint) :
  value (check_snap_window m ;;; ret s) = s
  /\ no_provider_call (events (check_snap_window m ;;; ret s)) = true.
Proof.
  split.
  - rewrite value_bind. reflexivity.
  - rewrite events_bind. unfold no_provider_call.
    apply forallb_app_true; [apply events_check_snap_window | reflexivity].
Qed.

(** C5. When global snapping is disabled, or snapping is postponed, or no
    provider of the manager might snap, [freeSnap] and [constrainedSnap]
    return the "not snapped" result, which has target kind undefined and
    distance [NR_HUGE], is not snapped and echoes the point of the query;
    and they call no provider. *)
Theorem C5_nothing_might_snap (m : SnapManager) (pt : PointType) (p : Point)
    (src : SnapSourceType) (c : ConstraintLine) (sp first : bool)
    (bbox : OptRect) :
  getSnapEnabledGlobally (snapprefs m) = false
  \/ getSnapPostponedGlobally (snapprefs m) = true
  \/ Forall (fun s => ThisSnapperMightSnap (snd s) = false) (getSnappers m) ->
  let sentinel :=
    SnappedPoint_make p src SNAPTARGET_UNDEFINED NR_HUGE 0 false false in
  (value (freeSnap m pt p src first bbox) = sentinel
   /\ no_provider_call (events (freeSnap m pt p src first bbox)) = true)
  /\ (value (constrainedSnap m pt p src c sp first bbox) = sentinel
      /\ no_provider_call (events (constrainedSnap m pt p src c sp first bbox))
         = true)
  /\ sp_target sentinel = SNAPTARGET_UNDEFINED
  /\ sp_distance sentinel = NR_HUGE
  /\ sp_point sentinel = p
  /\ getSnapped sentinel = false.
Proof.
  intros H sentinel. apply someSnapperMightSnap_false in H.
  rewrite (freeSnap_idle m pt p src first bbox H).
  rewrite (constrainedSnap_idle m pt p src c sp first bbox H).
  split; [apply idle_result |].
  split; [apply idle_result |].
  repeat split. apply sentinel_not_snapped. reflexivity.
Qed.

(** ** What the providers are asked *)

Lemma filter_no_event (P : Event -> bool) (l : list Event) :
  no_event P l = true -> filter P l = [].
Proof.
  induction l as [| e l IH]; simpl; intro H.
  - reflexivity.
  - apply andb_true_iff in H. destruct H as [He Hl].
    apply negb_true_iff in He. rewrite He. apply IH. exact Hl.
Qed.

Lemma filter_no_provider_call (l : list Event) :
  no_provider_call l = true -> filter is_provider_call l = [].
Proof. apply (filter_no_event is_provider_call). Qed.

Lemma events_constrainedSnap_all (snappers : list (SnapperId * Snapper)) :
  forall sc pt p src first bbox c ign,
    events (constrainedSnap_all snappers sc pt p src first bbox c ign)
    = map (fun s => CallConstrainedSnap (fst s) p c) snappers.
Proof.
  induction snappers as [| s rest IH]; intros.
  - reflexivity.
  - cbn [constrainedSnap_all]. rewrite events_bind. unfold call_constrainedSnap.
    rewrite events_bind. rewrite IH. reflexivity.
Qed.

Lemma events_freeSnap_all (snappers : list (SnapperId * Snapper)) :
  forall sc pt p src first bbox ign nodes,
    events (freeSnap_all snappers sc pt p src first bbox ign nodes)
    = map (fun s => CallFreeSnap (fst s) p) snappers.
Proof.
  induction snappers as [| s rest IH]; intros.
  - reflexivity.
  - cbn [freeSnap_all]. rewrite events_bind. unfold call_freeSnap.
    rewrite events_bind. rewrite IH. reflexivity.
Qed.

Lemma filter_all_provider_calls {A} (f : A -> Event) (l : list A) :
  (forall a, is_provider_call (f a) = true) ->
  filter is_provider_call (map f l) = map f l.
Proof.
  intro H. induction l as [| a l IH]; simpl.
  - reflexivity.
  - rewrite H, IH. reflexivity.
Qed.

(** The candidate set that the providers build in [constrainedSnap]. *)
Lemma constrainedSnap_active (m : SnapManager) (pt : PointType) (p : Point)
    (src : SnapSourceType) (c : ConstraintLine) (sp first : bool)
    (bbox : OptRect) :
  someSnapperMightSnap m = true ->
  constrainedSnap m pt p src c sp first bbox
  = (check_snap_window m ;;;
     sc <- constrainedSnap_all (getSnappers m) empty_constraints pt
             (projection c p) src first bbox c (items_to_ignore m) ;;
     findBestSnap m p src sc true).
Proof. intro H. unfold constrainedSnap. rewrite H. reflexivity. Qed.

Lemma provider_calls_constrainedSnap (m : SnapManager) (pt : PointType)
    (p : Point) (src : SnapSourceType) (c : ConstraintLine) (sp first : bool)
    (bbox : OptRect) :
  someSnapperMightSnap m = true ->
  filter is_provider_call (events (constrainedSnap m pt p src c sp first bbox))
  = map (fun s => CallConstrainedSnap (fst s) (projection c p) c)
      (getSnappers m).
Proof.
  intro H. rewrite (constrainedSnap_active m pt p src c sp first bbox H).
  rewrite !events_bind, !filter_app.
  rewrite (filter_no_provider_call _ (events_check_snap_window m)).
  rewrite (filter_no_provider_call _ (findBestSnap_events _ _ _ _ _)).
  rewrite events_constrainedSnap_all, app_nil_r. simpl.
  apply filter_all_provider_calls. reflexivity.
Qed.

(** For comparison: [freeSnap] asks every provider with the point [p]
    itself. *)
Lemma provider_calls_freeSnap (m : SnapManager) (pt : PointType) (p : Point)
    (src : SnapSourceType) (first : bool) (bbox : OptRect) :
  someSnapperMightSnap m = true ->
  filter is_provider_call (events (freeSnap m pt p src first bbox))
  = map (fun s => CallFreeSnap (fst s) p) (getSnappers m).
Proof.
  intro H. unfold freeSnap. rewrite H. cbn [negb].
  rewrite !events_bind, !filter_app.
  rewrite (filter_no_provider_call _ (events_check_snap_window m)).
  rewrite (filter_no_provider_call _ (findBestSnap_events _ _ _ _ _)).
  rewrite events_freeSnap_all, app_nil_r. simpl.
  apply filter_all_provider_calls. reflexivity.
Qed.

(** C4, as the code has it.  [constrainedSnap] asks the providers with the
    projection of [p] on the constraint line as the query point, and not
    with [p]: every provider of the manager, in their order, when some
    provider might snap, and none otherwise.  The point [p] itself goes to
    [findBestSnap] only.  The result is the one that [findBestSnap] selects
    for [p] among the candidates that it gathers from what the providers
    found for the projection: it is either the "not snapped" result, which
    echoes the unprojected [p], or one of these candidates as it is, with the
    distance that it carries; no distance is measured again from [p].  When
    no provider might snap, the result is the "not snapped" result of the
    early return, which echoes [p] and the source kind. *)
Theorem C4_constrainedSnap_projection (m : SnapManager) (pt : PointType)
    (p : Point) (src : SnapSourceType) (c : ConstraintLine) (sp first : bool)
    (bbox : OptRect) :
  let pp := projection c p in
  let sc :=
    value (constrainedSnap_all (getSnappers m) empty_constraints pt pp src
             first bbox c (items_to_ignore m)) in
  let r := value (constrainedSnap m pt p src c sp first bbox) in
  filter is_provider_call (events (constrainedSnap m pt p src c sp first bbox))
  = (if someSnapperMightSnap m
     then map (fun s => CallConstrainedSnap (fst s) pp c) (getSnappers m)
     else [])
  /\ (someSnapperMightSnap m = true ->
      r = value (findBestSnap m p src sc true)
      /\ (r = not_snapped p \/ In r (collect_candidates m p src sc true)))
  /\ (someSnapperMightSnap m = false ->
      r = SnappedPoint_make p src SNAPTARGET_UNDEFINED NR_HUGE 0 false false).
Proof.
  intros pp sc r. split; [| split].
  - destruct (someSnapperMightSnap m) eqn:H.
    + apply provider_calls_constrainedSnap. exact H.
    + rewrite (constrainedSnap_idle m pt p src c sp first bbox H).
      apply filter_no_provider_call. apply idle_result.
  - intro H. unfold r.
    rewrite (constrainedSnap_active m pt p src c sp first bbox H).
    rewrite !value_bind. split; [reflexivity |].
    rewrite findBestSnap_value.
    destruct (select_best_cases
                (collect_candidates m p src
                   (value
                      (constrainedSnap_all (getSnappers m) empty_constraints pt
                         (projection c p) src first bbox c (items_to_ignore m)))
                   true)
                (not_snapped p) true) as [E | [HI _]].
    + left. exact E.
    + right. exact HI.
  - intro H. unfold r.
    rewrite (constrainedSnap_idle m pt p src c sp first bbox H).
    apply idle_result.
Qed.

(** ** Non-uniform constrained scaling *)

Lemma no_nonuniform_warning_constrainedSnap (m : SnapManager) (pt : PointType)
    (p : Point) (src : SnapSourceType) (c : ConstraintLine) (sp first : bool)
    (bbox : OptRect) :
  filter (is_warning nonuniform_scale_message)
    (events (constrainedSnap m pt p src c sp first bbox)) = [].
Proof.
  apply filter_no_event. unfold constrainedSnap.
  rewrite events_bind. unfold no_event. apply forallb_app_true.
  - unfold check_snap_window.
    destruct (event_context_snap_window_open (_desktop m)) as [[|]|];
      reflexivity.
  - destruct (negb (someSnapperMightSnap m)); [reflexivity |].
    rewrite events_bind, events_constrainedSnap_all.
    apply forallb_app_true.
    + induction (getSnappers m) as [| s l IH]; simpl; [reflexivity | exact IH].
    + unfold findBestSnap. rewrite events_bind.
      destruct (_snapindicator m); [| reflexivity].
      match goal with |- context [if ?b then _ else _] => destruct b end;
        reflexivity.
Qed.

(** The body of the loop for one point, in a constrained non-uniform
    scaling: the warning, then the constrained snap along the constraint of
    the caller. *)
Lemma snapOnePoint_nonuniform_scale (m : SnapManager) (a : BatchArgs)
    (bbox : Rect) (first : bool) (i j : Point * SnapSourceType) :
  arg_constrained a = true ->
  arg_transformation_type a = SCALE ->
  arg_uniform a = false ->
  snapOnePoint m a bbox first i j
  = (snapped_point <-
       (tell (Warning nonuniform_scale_message) ;;;
        constrainedSnap m (arg_type a) (fst j) (snd j) (arg_constraint a) false
          first (Some bbox)) ;;
     ret (setPointerDistance snapped_point (L2 (sub (arg_pointer a) (fst i))))).
Proof.
  intros Hc Ht Hu. unfold snapOnePoint, dedicated_constraint.
  rewrite Hc, Ht, Hu. reflexivity.
Qed.

Lemma snapLoop_nonuniform_scale_events (m : SnapManager) (a : BatchArgs)
    (bbox : Rect) :
  arg_constrained a = true ->
  arg_transformation_type a = SCALE ->
  arg_uniform a = false ->
  someSnapperMightSnap m = true ->
  forall pts first st,
    List.length (filter (is_warning nonuniform_scale_message)
                   (events (snapLoop m a bbox first pts st)))
    = List.length pts
    /\ filter is_provider_call (events (snapLoop m a bbox first pts st))
       = flat_map
           (fun ij =>
              map (fun s =>
                     CallConstrainedSnap (fst s)
                       (projection (arg_constraint a) (fst (snd ij)))
                       (arg_constraint a))
                (getSnappers m))
           pts.
Proof.
  intros Hc Ht Hu Hs pts.
  induction pts as [| [i j] rest IH]; intros first st.
  - split; reflexivity.
  - cbn [snapLoop]. rewrite events_bind.
    rewrite (snapOnePoint_nonuniform_scale m a bbox first i j Hc Ht Hu).
    rewrite !events_bind. cbn [events tell snd ret].
    rewrite app_nil_r.
    destruct (IH false
                (absorb a i
                   (value
                      (snapped_point <-
                         (tell (Warning nonuniform_scale_message) ;;;
                          constrainedSnap m (arg_type a) (fst j) (snd j)
                            (arg_constraint a) false first (Some bbox)) ;;
                       ret (setPointerDistance snapped_point
                              (L2 (sub (arg_pointer a) (fst i)))))) st))
      as [IHw IHp].
    split.
    + rewrite !filter_app, !length_app.
      rewrite no_nonuniform_warning_constrainedSnap. rewrite IHw.
      reflexivity.
    + rewrite !filter_app.
      rewrite (provider_calls_constrainedSnap m (arg_type a) (fst j) (snd j)
                 (arg_constraint a) false first (Some bbox) Hs).
      rewrite IHp. reflexivity.
Qed.

Lemma flat_map_combine_snd {A B D} (g : B -> list D) (f : A -> B) (l : list A) :
  flat_map (fun ij => g (snd ij)) (combine l (map f l)) = flat_map g (map f l).
Proof.
  induction l as [| x l IH]; simpl.
  - reflexivity.
  - rewrite IH. reflexivity.
Qed.

Lemma length_combine_map {A B} (f : A -> B) (l : list A) :
  List.length (combine l (map f l)) = List.length l.
Proof.
  induction l as [| x l IH]; simpl.
  - reflexivity.
  - rewrite IH. reflexivity.
Qed.

(** C6, as the code has it.  In a constrained scaling that is not uniform,
    [_snapTransformed] logs the warning "Non-uniform constrained scaling is
    not supported!" once for each point, and nevertheless snaps each point:
    every provider's [constrainedSnap] is called for the transformed point,
    projected on the constraint line of the caller, which is used as it
    is.  That is so when some provider might snap; when none might, the
    batch returns at once, and nothing is logged and no provider is
    called. *)
Theorem C6_nonuniform_constrained_scale (m : SnapManager) (a : BatchArgs)
    (pts : list (Point * SnapSourceType)) :
  arg_constrained a = true ->
  arg_transformation_type a = SCALE ->
  arg_uniform a = false ->
  List.length (filter (is_warning nonuniform_scale_message)
                 (events (_snapTransformed m a pts)))
  = (if someSnapperMightSnap m then List.length pts else 0%nat)
  /\ filter is_provider_call (events (_snapTransformed m a pts))
     = (if someSnapperMightSnap m then
          flat_map
            (fun j =>
               map (fun s =>
                      CallConstrainedSnap (fst s)
                        (projection (arg_constraint a) (fst j))
                        (arg_constraint a))
                 (getSnappers m))
            (transformed_points a pts)
        else []).
Proof.
  intros Hc Ht Hu. destruct (someSnapperMightSnap m) eqn:Hs.
  - unfold _snapTransformed. rewrite Hs. cbn [negb].
    rewrite events_bind. cbn [events ret snd]. rewrite app_nil_r.
    destruct (snapLoop_nonuniform_scale_events m a
                (hull (map fst (transformed_points a pts))) Hc Ht Hu Hs
                (combine pts (transformed_points a pts)) true (initial_best a))
      as [Hw Hp].
    split.
    + rewrite Hw. apply length_combine_map.
    + rewrite Hp.
      apply (flat_map_combine_snd
               (fun j =>
                  map (fun s =>
                         CallConstrainedSnap (fst s)
                           (projection (arg_constraint a) (fst j))
                           (arg_constraint a))
                    (getSnappers m))).
  - unfold _snapTransformed. rewrite Hs. split; reflexivity.
Qed.

(** ** Snapping a guide *)

(** C10, as the code has it.  [guideFreeSnap] leaves the point as it is, and
    calls no provider, when global snapping is disabled, or snapping is
    postponed, or neither the guides might snap to objects
    ([object.GuidesMightSnap()]) nor snapping to guides is enabled.
    [guideConstrainedSnap] does so when global snapping is disabled, or
    snapping is postponed, or neither the object snapper might snap at all
    ([object.ThisSnapperMightSnap()]) nor snapping to guides is enabled. *)
Theorem C10_guide_snap_leaves_point (m : SnapManager) (p guide_normal : Point)
    (guideline : SPGuide) :
  (getSnapEnabledGlobally (snapprefs m) = false
   \/ getSnapPostponedGlobally (snapprefs m) = true
   \/ (GuidesMightSnap (object m) = false
       /\ getSnapToGuides (snapprefs m) = false) ->
   value (guideFreeSnap m p guide_normal) = p
   /\ no_provider_call (events (guideFreeSnap m p guide_normal)) = true)
  /\ (getSnapEnabledGlobally (snapprefs m) = false
      \/ getSnapPostponedGlobally (snapprefs m) = true
      \/ (ThisSnapperMightSnap (object_snapper (object m)) = false
          /\ getSnapToGuides (snapprefs m) = false) ->
      value (guideConstrainedSnap m p guideline) = p
      /\ no_provider_call (events (guideConstrainedSnap m p guideline)) = true).
Proof.
  split; intro H.
  - assert (E : guideFreeSnap m p guide_normal = (check_snap_window m ;;; ret p)).
    { unfold guideFreeSnap. destruct H as [H | [H | [H1 H2]]].
      - rewrite H. reflexivity.
      - rewrite H, orb_true_r. reflexivity.
      - rewrite H1, H2.
        destruct (negb (getSnapEnabledGlobally (snapprefs m))
                  || getSnapPostponedGlobally (snapprefs m)); reflexivity. }
    rewrite E. split.
    + rewrite value_bind. reflexivity.
    + rewrite events_bind. unfold no_provider_call.
      apply forallb_app_true; [apply events_check_snap_window | reflexivity].
  - assert (E : guideConstrainedSnap m p guideline
                = (check_snap_window m ;;; ret p)).
    { unfold guideConstrainedSnap. destruct H as [H | [H | [H1 H2]]].
      - rewrite H. reflexivity.
      - rewrite H, orb_true_r. reflexivity.
      - rewrite H1, H2.
        destruct (negb (getSnapEnabledGlobally (snapprefs m))
                  || getSnapPostponedGlobally (snapprefs m)); reflexivity. }
    rewrite E. split.
    + rewrite value_bind. reflexivity.
    + rewrite events_bind. unfold no_provider_call.
      apply forallb_app_true; [apply events_check_snap_window | reflexivity].
Qed.

(** ** Grid-pitch quantisation *)








(** ** The batch routine, through its values *)

Lemma value_snapLoop (m : SnapManager) (a : BatchArgs) (bbox : Rect)
    (pts : list ((Point * SnapSourceType) * (Point * SnapSourceType))) :
  forall first st,
    value (snapLoop m a bbox first pts st)
    = fold_left (fun st r => update_best a r st)
        (recoveries m a bbox first pts) st.
Proof.
  induction pts as [| [i j] rest IH]; intros first st.
  - reflexivity.
  - cbn [snapLoop recoveries]. rewrite value_bind, IH, fold_left_app.
    unfold absorb.
    destruct (getSnapped (value (snapOnePoint m a bbox first i j)));
      reflexivity.
Qed.

Lemma value_snapTransformed (m : SnapManager) (a : BatchArgs)
    (pts : list (Point * SnapSourceType)) :
  someSnapperMightSnap m = true ->
  value (_snapTransformed m a pts)
  = finish a (fold_left (fun st r => update_best a r st)
                (batch_recoveries m a pts) (initial_best a)).
Proof.
  intro H. unfold _snapTransformed. rewrite H. cbn [negb].
  rewrite value_bind, value_snapLoop. reflexivity.
Qed.

Lemma scale_fallback_axis_keeps (uniform : bool) (t bt : Point) (k : Dim2) :
  ~ get bt k == NR_HUGE -> scale_fallback_axis uniform t k bt = bt.
Proof.
  intro H. unfold scale_fallback_axis.
  destruct (Qeq_bool (get bt k) NR_HUGE) eqn:E; [| reflexivity].
  apply Qeq_bool_iff in E. contradiction.
Qed.

Lemma Qmin_same (x : Q) : Qmin x x = x.
Proof.
  unfold Qmin, GenericMinMax.gmin. destruct (x ?= x); reflexivity.
Qed.

(** X18. When some provider might snap and no point snaps, the proposed
    transformation is returned, with a result that is not snapped (for a
    scaling: when no proposed factor is the sentinel itself). *)
Lemma snapTransformed_nothing_snapped (m : SnapManager) (a : BatchArgs)
    (pts : list (Point * SnapSourceType)) :
  someSnapperMightSnap m = true ->
  batch_recoveries m a pts = [] ->
  arg_transformation_type a <> SCALE
  \/ (~ get (arg_transformation a) X == NR_HUGE
      /\ ~ get (arg_transformation a) Y == NR_HUGE) ->
  getSnapped (value (_snapTransformed m a pts)) = false
  /\ sp_transformation (value (_snapTransformed m a pts)) = arg_transformation a.
Proof.
  intros Hs Hr Ht. rewrite (value_snapTransformed m a pts Hs), Hr.
  cbn [fold_left]. unfold finish, initial_best.
  cbn [best_transformation best_scale_metric best_snapped_point].
  split.
  - apply sentinel_not_snapped. cbn [setSnapDistance sp_distance].
    destruct (is_SCALE (arg_transformation_type a)).
    + cbn [get px py]. rewrite Qmin_same.
      destruct (Qltb NR_HUGE 1000000); reflexivity.
    + rewrite default_distance.
      destruct (Qltb NR_HUGE 1000000); reflexivity.
  - cbn [setSnapDistance setTransformation sp_transformation].
    destruct (arg_transformation_type a) eqn:T; cbn [is_SCALE];
      try reflexivity.
    destruct Ht as [Ht | [Hx Hy]]; [congruence |].
    rewrite (scale_fallback_axis_keeps _ _ _ X Hx).
    apply scale_fallback_axis_keeps. exact Hy.
Qed.

Lemma Qplus_one_neq (x : Q) : x <> x + 1.
Proof.
  intro E. assert (H : x == x + 1) by (rewrite <- E; reflexivity). lra.
Qed.

(** C9, at the early return.  When no provider might snap, for instance
    with global snapping disabled, [_snapTransformed] returns a default
    [SnappedPoint]: no point has snapped and the result is not snapped, but
    its transformation is that of the default result, whatever was proposed;
    so there is a proposed transformation that is not returned. *)
Theorem C9_early_return_drops_proposal (m : SnapManager) (a : BatchArgs)
    (pts : list (Point * SnapSourceType)) :
  someSnapperMightSnap m = false ->
  value (_snapTransformed m a pts) = SnappedPoint_default
  /\ getSnapped (value (_snapTransformed m a pts)) = false
  /\ exists proposed,
       sp_transformation
         (value (_snapTransformed m (with_transformation a proposed) pts))
       <> arg_transformation (with_transformation a proposed).
Proof.
  intro H.
  assert (E : forall a', value (_snapTransformed m a' pts) = SnappedPoint_default).
  { intro a'. unfold _snapTransformed. rewrite H. reflexivity. }
  split; [apply E |]. split.
  - rewrite E. apply sentinel_not_snapped. apply default_distance.
  - exists (mkPoint (px (sp_transformation SnappedPoint_default) + 1) 0).
    rewrite E. cbn [with_transformation arg_transformation].
    intro F. apply (f_equal px) in F. cbn [px] in F.
    exact (Qplus_one_neq _ F).
Qed.

(** ** Uniform scaling *)

Lemma provenance_mono (rs : list Recovered) (r : Recovered) (v mu : Coord) :
  provenance rs v mu -> provenance (rs ++ [r]) v mu.
Proof.
  intros [H | [r' [k [Hin H]]]].
  - left. exact H.
  - right. exists r', k. split; [apply in_or_app; left; exact Hin | exact H].
Qed.

Lemma provenance_new (rs : list Recovered) (r : Recovered) (k : Dim2) :
  provenance (rs ++ [r]) (get (rec_result r) k)
    (Qabs (get (rec_scale_metric r) k)).
Proof.
  right. exists r, k. split; [| split; reflexivity].
  apply in_or_app. right. left. reflexivity.
Qed.

Lemma scale_step_invariant (rs : list Recovered) (r : Recovered) (st : Best) :
  scale_invariant rs st -> scale_invariant (rs ++ [r]) (scale_step r st).
Proof.
  intros (Hx & Hy & Hle & Px & Py & _).
  pose proof (provenance_mono rs r _ _ Px) as Px'.
  pose proof (provenance_mono rs r _ _ Py) as Py'.
  pose proof (provenance_new rs r X) as Nx.
  pose proof (provenance_new rs r Y) as Ny.
  assert (Hle' : forall r', In r' (rs ++ [r]) -> forall k,
            (r' = r \/
             (get (best_scale_metric st) X <= Qabs (get (rec_scale_metric r') k)
              /\ get (best_scale_metric st) Y <= Qabs (get (rec_scale_metric r') k)))).
  { intros r' Hin k. apply in_app_or in Hin. destruct Hin as [Hin | [<- | []]].
    - right. apply Hle. exact Hin.
    - left. reflexivity. }
  clear Hle Px Py.
  pose proof (Qabs_nonneg (get (rec_scale_metric r) X)) as Ax.
  pose proof (Qabs_nonneg (get (rec_scale_metric r) Y)) as Ay.
  destruct st as [[btx bty] [mx my] bsp].
  unfold scale_invariant, scale_step, scale_update_axis, scale_collapse.
  cbn [best_transformation best_scale_metric get set px py] in *.
  destruct (Qltb (Qabs (px (rec_scale_metric r))) (Qabs mx)) eqn:c1;
    [apply Qltb_lt in c1 | apply Qltb_ge in c1];
    rewrite (Qabs_pos mx Hx) in c1;
    cbn [best_transformation best_scale_metric get set px py];
    (destruct (Qltb (Qabs (py (rec_scale_metric r))) (Qabs my)) eqn:c2;
     [apply Qltb_lt in c2 | apply Qltb_ge in c2];
     rewrite (Qabs_pos my Hy) in c2;
     cbn [best_transformation best_scale_metric get set px py]);
    match goal with |- context [Qltb ?a ?b] =>
      destruct (Qltb a b) eqn:c3; [apply Qltb_lt in c3 | apply Qltb_ge in c3]
    end;
    cbn [best_transformation best_scale_metric get set px py];
    (split; [lra |]); (split; [lra |]);
    (split; [intros r' Hin k; destruct (Hle' r' Hin k) as [-> | [H1 H2]];
             [destruct k; cbn [get]; lra | lra] |]);
    (split; [assumption |]); (split; [assumption |]);
    intros _; split; reflexivity.
Qed.

Lemma update_best_scale_uniform (a : BatchArgs) (r : Recovered) (st : Best) :
  arg_transformation_type a = SCALE -> arg_uniform a = true ->
  update_best a r st = scale_step r st.
Proof. intros Ht Hu. unfold update_best. rewrite Ht, Hu. reflexivity. Qed.

Lemma fold_scale_uniform (a : BatchArgs) (rs : list Recovered) :
  arg_transformation_type a = SCALE -> arg_uniform a = true ->
  forall st,
    fold_left (fun st r => update_best a r st) rs st
    = fold_left (fun st r => scale_step r st) rs st.
Proof.
  intros Ht Hu. induction rs as [| r rs IH]; intro st; cbn [fold_left].
  - reflexivity.
  - rewrite (update_best_scale_uniform a r st Ht Hu). apply IH.
Qed.

Lemma scale_invariant_fold (rs : list Recovered) (st : Best) :
  scale_invariant [] st ->
  scale_invariant rs (fold_left (fun st r => scale_step r st) rs st).
Proof.
  intro H0. induction rs as [| r rs IH] using rev_ind.
  - exact H0.
  - rewrite fold_left_app. cbn [fold_left].
    apply scale_step_invariant. exact IH.
Qed.

Lemma scale_collapse_equal (st : Best) :
  get (best_transformation (scale_collapse st)) X
  = get (best_transformation (scale_collapse st)) Y.
Proof.
  unfold scale_collapse.
  destruct (Qltb (get (best_scale_metric st) X) (get (best_scale_metric st) Y));
    destruct (best_transformation st); reflexivity.
Qed.

Lemma scale_exit_equal (rs : list Recovered) (st : Best) :
  let st' := fold_left (fun st r => scale_step r st) rs st in
  best_transformation st' = best_transformation st
  \/ get (best_transformation st') X = get (best_transformation st') Y.
Proof.
  destruct rs as [| r rs] using rev_ind.
  - left. reflexivity.
  - right. rewrite fold_left_app. cbn [fold_left]. apply scale_collapse_equal.
Qed.

Lemma fallback_equal_or_proposed (t bt : Point) :
  bt = t \/ get bt X = get bt Y ->
  let R := scale_fallback_axis true t Y (scale_fallback_axis true t X bt) in
  get R X = get R Y \/ R = t.
Proof.
  destruct bt as [bx by_], t as [tx ty]. cbn [get px py].
  intros [E | E]; [injection E as -> -> | subst by_];
    unfold scale_fallback_axis; cbn [get set other px py andb];
    repeat (match goal with
            | |- context [if ?c then _ else _] => destruct c eqn:?
            end; cbn [get set other px py andb]);
    try (left; reflexivity); try (right; reflexivity);
    cbn [get set px py] in *; congruence.
Qed.

Lemma fallback_not_sentinel (u : bool) (t bt : Point) (k : Dim2) :
  let R := scale_fallback_axis u t Y (scale_fallback_axis u t X bt) in
  get R k == NR_HUGE -> get t k == NR_HUGE.
Proof.
  destruct bt as [bx by_], t as [tx ty].
  unfold scale_fallback_axis; destruct k; cbn [get set other px py];
    repeat (match goal with
            | |- context [if ?c then _ else _] => destruct c eqn:?
            end; cbn [get set other px py]);
    intro H; try exact H;
    repeat match goal with
           | E : Qeq_bool _ _ = false |- _ =>
               apply Qeq_bool_neq in E
           | E : _ && _ = true |- _ => apply andb_true_iff in E; destruct E
           | E : Qltb _ _ = true |- _ => apply Qltb_lt in E
           end;
    cbn [get set px py] in *; try contradiction; try (exfalso; lra).
Qed.

Lemma scale_invariant_initial (t : Point) (bsp : SnappedPoint) :
  0 <= NR_HUGE ->
  scale_invariant [] (mkBest t (mkPoint NR_HUGE NR_HUGE) bsp).
Proof.
  intro H. unfold scale_invariant.
  cbn [best_scale_metric best_transformation get px py].
  split; [exact H |]. split; [exact H |].
  split; [intros r [] |].
  split; [left; reflexivity |]. split; [left; reflexivity |].
  intro E. congruence.
Qed.

Lemma get_psub (p q : Point) (k : Dim2) :
  get (psub p q) k = dsub (get p k) (get q k).
Proof. destruct k; reflexivity. Qed.

Lemma scale_uniform_one_axis (t : Point) (rs : list Recovered) (k : Dim2)
    (bsp : SnappedPoint) :
  (forall r, In r rs -> rec_scale_metric r = psub (rec_result r) t) ->
  (forall r, In r rs -> get (rec_result r) (other k) == NR_HUGE) ->
  (exists r0, In r0 rs
     /\ Qabs (dsub (get (rec_result r0) k) (get t k)) < NR_HUGE
     /\ Qabs (dsub (get (rec_result r0) k) (get t k)) < Qabs (dsub NR_HUGE (get t X))
     /\ Qabs (dsub (get (rec_result r0) k) (get t k)) < Qabs (dsub NR_HUGE (get t Y))) ->
  let st := fold_left (fun st r => scale_step r st) rs
              (mkBest t (mkPoint NR_HUGE NR_HUGE) bsp) in
  let R := scale_fallback_axis true t Y
             (scale_fallback_axis true t X (best_transformation st)) in
  exists r, In r rs
    /\ ~ get (rec_result r) k == NR_HUGE
    /\ get R X = get (rec_result r) k
    /\ get R Y = get (rec_result r) k
    /\ forall r', In r' rs ->
         Qabs (dsub (get (rec_result r) k) (get t k))
         <= Qabs (dsub (get (rec_result r') k) (get t k)).
Proof.
  intros Hm H1 [r0 [Hin0 [B0 [Bx By]]]] st R.
  pose proof (Qabs_nonneg (dsub (get (rec_result r0) k) (get t k))) as N0.
  assert (Inv : scale_invariant rs st).
  { apply scale_invariant_fold. apply scale_invariant_initial. lra. }
  destruct Inv as (_ & _ & Hle & Px & _ & Heq).
  destruct Heq as [Ebt Ebm]; [intro E; rewrite E in Hin0; exact Hin0 |].
  assert (L0 : get (best_scale_metric st) X
               <= Qabs (dsub (get (rec_result r0) k) (get t k))).
  { destruct (Hle r0 Hin0 k) as [L _]. rewrite (Hm r0 Hin0), get_psub in L.
    exact L. }
  destruct Px as [Px | [r [k' [Hin [Ev Em]]]]]; [exfalso; lra |].
  rewrite (Hm r Hin), get_psub in Em.
  assert (Hfin : ~ get (rec_result r) k' == NR_HUGE).
  { intro E.
    assert (Em' : get (best_scale_metric st) X == Qabs (dsub NR_HUGE (get t k')))
      by (rewrite Em, E; reflexivity).
    destruct k'; lra. }
  assert (Hk : k' = k).
  { destruct k, k'; try reflexivity; exfalso; apply Hfin;
      apply (H1 r Hin). }
  subst k'. exists r. split; [exact Hin |]. split; [exact Hfin |].
  assert (HR : R = best_transformation st).
  { unfold R. rewrite (scale_fallback_axis_keeps true t _ X).
    - apply scale_fallback_axis_keeps. rewrite <- Ebt, Ev. exact Hfin.
    - rewrite Ev. exact Hfin. }
  rewrite HR. split; [exact Ev |]. split; [rewrite <- Ebt; exact Ev |].
  intros r' Hin'. destruct (Hle r' Hin' k) as [L _].
  rewrite (Hm r' Hin'), get_psub in L. rewrite <- Em. exact L.
Qed.

Lemma recoveries_are_recovered (m : SnapManager) (a : BatchArgs) (bbox : Rect)
    (pts : list ((Point * SnapSourceType) * (Point * SnapSourceType))) :
  forall first r,
    In r (recoveries m a bbox first pts) ->
    exists i snapped_point, r = recover a i snapped_point.
Proof.
  induction pts as [| [i j] rest IH]; intros first r Hin.
  - destruct Hin.
  - cbn [recoveries] in Hin. apply in_app_or in Hin.
    destruct Hin as [Hin | Hin].
    + destruct (getSnapped (value (snapOnePoint m a bbox first i j)));
        [| destruct Hin].
      destruct Hin as [<- | []]. eexists. eexists. reflexivity.
    + apply (IH false r Hin).
Qed.

Lemma recover_scale_metric (a : BatchArgs) (i : Point * SnapSourceType)
    (snapped_point : SnappedPoint) :
  arg_transformation_type a = SCALE ->
  rec_scale_metric (recover a i snapped_point)
  = psub (rec_result (recover a i snapped_point)) (arg_transformation a).
Proof. intro H. unfold recover. rewrite H. reflexivity. Qed.

Lemma transformation_finish_scale (a : BatchArgs) (st : Best) :
  arg_transformation_type a = SCALE ->
  sp_transformation (finish a st)
  = scale_fallback_axis (arg_uniform a) (arg_transformation a) Y
      (scale_fallback_axis (arg_uniform a) (arg_transformation a) X
         (best_transformation st)).
Proof. intro H. unfold finish. rewrite H. reflexivity. Qed.

Lemma Qeq_bool_false (x y : Q) : ~ x == y -> Qeq_bool x y = false.
Proof.
  intro H. destruct (Qeq_bool x y) eqn:E; [| reflexivity].
  exfalso. apply H. apply Qeq_bool_iff. exact E.
Qed.

Ltac split_conditions :=
  repeat (match goal with
          | |- context [if ?c then _ else _] =>
              lazymatch c with
              | context [if _ then _ else _] => fail
              | _ => destruct c eqn:?
              end
          end; cbn [get set other px py] in *).

Lemma fallback_rule (u : bool) (t bt : Point) :
  let R := scale_fallback_axis u t Y (scale_fallback_axis u t X bt) in
  (forall k, ~ get bt k == NR_HUGE -> get R k = get bt k)
  /\ (get bt X == NR_HUGE ->
      get R X = if u && Qltb (get bt Y) NR_HUGE then get bt Y else get t X)
  /\ (get bt Y == NR_HUGE ->
      get R Y = if u && Qltb (get R X) NR_HUGE then get R X else get t Y).
Proof.
  destruct bt as [bx by_], t as [tx ty]. cbv zeta.
  split; [| split].
  - intros k H. apply Qeq_bool_false in H.
    destruct k; unfold scale_fallback_axis; cbn [get set other px py] in *;
      split_conditions;
      try reflexivity; congruence.
  - intro H. apply Qeq_bool_iff in H.
    unfold scale_fallback_axis; cbn [get set other px py] in *;
      split_conditions;
      try reflexivity; congruence.
  - intro H. apply Qeq_bool_iff in H.
    unfold scale_fallback_axis; cbn [get set other px py] in *;
      split_conditions;
      try reflexivity; congruence.
Qed.

(** C7, as the code has it.  In a scaling with [uniform = true], when no
    provider might snap the default result is returned at once.  Otherwise:
    - the two returned factors are equal, unless the proposed transformation
      itself is returned;
    - if the snapped points recovered a factor on one axis only, and one of
      these factors is closer to its proposed factor than [NR_HUGE] and than
      the sentinel is to either proposed factor (the differences being those
      of doubles), then both returned factors are the recovered factor of
      that axis that is closest to its proposed factor;
    - a returned factor is the sentinel [NR_HUGE] only if the proposed factor
      of that axis is;
    - a factor that is not the sentinel when the loop over the points is left
      is returned as it is; one that is the sentinel is replaced by the
      factor of the other axis when that one is below the sentinel, and by
      the proposed factor of its own axis otherwise. *)
Theorem C7_uniform_scale (m : SnapManager) (a : BatchArgs)
    (pts : list (Point * SnapSourceType)) :
  arg_transformation_type a = SCALE ->
  arg_uniform a = true ->
  let t := arg_transformation a in
  let rs := batch_recoveries m a pts in
  let E := best_transformation (batch_exit m a pts) in
  let R := sp_transformation (value (_snapTransformed m a pts)) in
  (someSnapperMightSnap m = false ->
   value (_snapTransformed m a pts) = SnappedPoint_default)
  /\ (someSnapperMightSnap m = true ->
  (get R X = get R Y \/ R = t)
  /\ (forall k,
        (forall r, In r rs -> get (rec_result r) (other k) == NR_HUGE) ->
        (exists r0, In r0 rs
           /\ Qabs (dsub (get (rec_result r0) k) (get t k)) < NR_HUGE
           /\ Qabs (dsub (get (rec_result r0) k) (get t k)) < Qabs (dsub NR_HUGE (get t X))
           /\ Qabs (dsub (get (rec_result r0) k) (get t k)) < Qabs (dsub NR_HUGE (get t Y))) ->
        exists r, In r rs
          /\ ~ get (rec_result r) k == NR_HUGE
          /\ get R X = get (rec_result r) k
          /\ get R Y = get (rec_result r) k
          /\ forall r', In r' rs ->
               Qabs (dsub (get (rec_result r) k) (get t k))
               <= Qabs (dsub (get (rec_result r') k) (get t k)))
  /\ (forall k, get R k == NR_HUGE -> get t k == NR_HUGE)
  /\ (forall k, ~ get E k == NR_HUGE -> get R k = get E k)
  /\ (get E X == NR_HUGE ->
      get R X = if Qltb (get E Y) NR_HUGE then get E Y else get t X)
  /\ (get E Y == NR_HUGE ->
      get R Y = if Qltb (get R X) NR_HUGE then get R X else get t Y)).
Proof.
  intros Ht Hu t rs E R. split.
  { intro Hs. unfold _snapTransformed. rewrite Hs. reflexivity. }
  intro Hs.
  assert (HR : R = scale_fallback_axis true t Y
                     (scale_fallback_axis true t X E)).
  { unfold R. rewrite (value_snapTransformed m a pts Hs).
    rewrite (transformation_finish_scale a _ Ht), Hu. reflexivity. }
  assert (HE : E = best_transformation
                     (fold_left (fun st r => scale_step r st) rs
                        (initial_best a))).
  { unfold E, batch_exit. rewrite (fold_scale_uniform a _ Ht Hu). reflexivity. }
  split; [| split; [| split]].
  - rewrite HR. apply fallback_equal_or_proposed.
    rewrite HE. apply (scale_exit_equal rs (initial_best a)).
  - intros k H1 H2. rewrite HR, HE.
    apply (scale_uniform_one_axis t rs k SnappedPoint_default); try assumption.
    intros r Hin. destruct (recoveries_are_recovered _ _ _ _ _ _ Hin)
      as [i [sp ->]].
    apply recover_scale_metric. exact Ht.
  - intros k. rewrite HR. apply fallback_not_sentinel.
  - rewrite HR.
    destruct (fallback_rule true t E) as [F1 [F2 F3]]. cbn [andb] in F2, F3.
    split; [exact F1 | split; [exact F2 | exact F3]].
Qed.

End Properties.

(** * Further properties of the manager *)

Section MoreProperties.

Context {Fl : DoubleArith} {C : Collaborators}.

(** ** The list of providers *)

Lemma existsb_grid_snappers (P : Snapper -> bool) (l : list CanvasGrid) :
  forall k,
    existsb (fun s => P (snd s))
      (combine (map GridSnapperId (seq k (List.length l))) (map grid_snapper l))
    = existsb (fun g => P (grid_snapper g)) l.
Proof.
  induction l as [| g l IH]; intro k; simpl.
  - reflexivity.
  - rewrite IH. reflexivity.
Qed.

(** X1. Some provider might snap exactly when global snapping is enabled
    and not postponed, and the guide snapper, or the object snapper, or the
    snapper of a grid might snap; the grids count only when the desktop
    shows grids and snapping to grids is enabled. *)
Theorem X1_someSnapperMightSnap_iff (m : SnapManager) :
  someSnapperMightSnap m = true
  <-> getSnapEnabledGlobally (snapprefs m) = true
      /\ getSnapPostponedGlobally (snapprefs m) = false
      /\ (ThisSnapperMightSnap (guide m) = true
          \/ ThisSnapperMightSnap (object_snapper (object m)) = true
          \/ (gridsEnabled (_desktop m) = true
              /\ getSnapToGrids (snapprefs m) = true
              /\ exists g, In g (named_view_grids m)
                           /\ ThisSnapperMightSnap (grid_snapper g) = true)).
Proof.
  unfold someSnapperMightSnap, getSnappers, getGridSnappers.
  destruct (getSnapEnabledGlobally (snapprefs m));
    destruct (getSnapPostponedGlobally (snapprefs m)); cbn [negb orb];
    try (split; [discriminate | intros [? [? _]]; discriminate]).
  rewrite existsb_app. cbn [existsb snd]. rewrite orb_false_r.
  rewrite orb_true_iff, orb_true_iff.
  split.
  - intro H. split; [reflexivity |]. split; [reflexivity |].
    destruct H as [H | [H | H]]; [| left; exact H | right; left; exact H].
    right. right.
    destruct (gridsEnabled (_desktop m)); [| discriminate].
    destruct (getSnapToGrids (snapprefs m)); [| discriminate].
    cbn [andb] in H. rewrite existsb_grid_snappers in H.
    apply existsb_exists in H. destruct H as [g [Hin Hg]].
    split; [reflexivity |]. split; [reflexivity |]. exists g. split; assumption.
  - intros [_ [_ [H | [H | [Hg [Hs [g [Hin Hm]]]]]]]].
    + right. left. exact H.
    + right. right. exact H.
    + left. rewrite Hg, Hs. cbn [andb]. rewrite existsb_grid_snappers.
      apply existsb_exists. exists g. split; assumption.
Qed.

(** X2. If a grid snapper might snap, some snapper might snap. *)
Theorem X2_gridSnapperMightSnap_some (m : SnapManager) :
  gridSnapperMightSnap m = true -> someSnapperMightSnap m = true.
Proof.
  unfold gridSnapperMightSnap, someSnapperMightSnap, getSnappers.
  destruct (negb (getSnapEnabledGlobally (snapprefs m))
            || getSnapPostponedGlobally (snapprefs m)); [discriminate |].
  intro H. rewrite existsb_app, H. reflexivity.
Qed.

(** ** The free snap *)

Lemma freeSnap_active (m : SnapManager) (pt : PointType) (p : Point)
    (src : SnapSourceType) (first : bool) (bbox : OptRect) :
  someSnapperMightSnap m = true ->
  freeSnap m pt p src first bbox
  = (check_snap_window m ;;;
     sc <- freeSnap_all (getSnappers m) empty_constraints pt p src first bbox
             (items_to_ignore m) (_unselected_nodes m) ;;
     findBestSnap m p src sc false).
Proof. intro H. unfold freeSnap. rewrite H. reflexivity. Qed.

(** X3. When some provider might snap, [freeSnap] asks every provider of
    the manager once, in the order of [getSnappers], with the point [p]
    itself, and returns what [findBestSnap] selects, unconstrained, from what
    they found: the "not snapped" result for [p] or one of the candidates. *)
Theorem X3_freeSnap_asks_all (m : SnapManager) (pt : PointType) (p : Point)
    (src : SnapSourceType) (first : bool) (bbox : OptRect) :
  someSnapperMightSnap m = true ->
  let sc :=
    value (freeSnap_all (getSnappers m) empty_constraints pt p src first bbox
             (items_to_ignore m) (_unselected_nodes m)) in
  let r := value (freeSnap m pt p src first bbox) in
  filter is_provider_call (events (freeSnap m pt p src first bbox))
  = map (fun s => CallFreeSnap (fst s) p) (getSnappers m)
  /\ r = value (findBestSnap m p src sc false)
  /\ (r = not_snapped p \/ In r (collect_candidates m p src sc false)).
Proof.
  intros H sc r. split; [apply provider_calls_freeSnap; exact H |].
  assert (E : r = value (findBestSnap m p src sc false)).
  { unfold r. rewrite (freeSnap_active m pt p src first bbox H).
    rewrite !value_bind. reflexivity. }
  split; [exact E |]. rewrite E, findBestSnap_value.
  destruct (select_best_cases (collect_candidates m p src sc false)
              (not_snapped p) true) as [E' | [HI _]].
  - left. exact E'.
  - right. exact HI.
Qed.

(** ** The snap indicator *)

Lemma filter_indicator_check (m : SnapManager) :
  filter is_indicator_call (events (check_snap_window m)) = [].
Proof.
  unfold check_snap_window.
  destruct (event_context_snap_window_open (_desktop m)) as [[|]|]; reflexivity.
Qed.

Lemma filter_indicator_findBestSnap (m : SnapManager) (p : Point)
    (src : SnapSourceType) (sc : SnappedConstraints) (constrained : bool) :
  filter is_indicator_call (events (findBestSnap m p src sc constrained))
  = if _snapindicator m
    then [indicator_call (value (findBestSnap m p src sc constrained))]
    else [].
Proof.
  rewrite findBestSnap_value. unfold findBestSnap, indicator_call.
  rewrite events_bind. cbn [events ret snd]. rewrite app_nil_r.
  destruct (_snapindicator m); [| reflexivity].
  destruct (getSnapped
              (select_best (not_snapped p) true
                 (collect_candidates m p src sc constrained))); reflexivity.
Qed.

Lemma filter_indicator_provider_calls {A} (f : A -> Event) (l : list A) :
  (forall a, is_indicator_call (f a) = false) ->
  filter is_indicator_call (map f l) = [].
Proof.
  intro H. induction l as [| a l IH]; simpl.
  - reflexivity.
  - rewrite H. exact IH.
Qed.

(** X4. [freeSnap] and [constrainedSnap] call the snap indicator once, when
    some provider might snap and the indicator is on: with the result if it
    is snapped, and to remove the target otherwise.  When nothing might snap
    or the indicator is off they do not call it. *)
Theorem X4_indicator_calls (m : SnapManager) (pt : PointType) (p : Point)
    (src : SnapSourceType) (c : ConstraintLine) (sp first : bool)
    (bbox : OptRect) :
  filter is_indicator_call (events (freeSnap m pt p src first bbox))
  = (if someSnapperMightSnap m && _snapindicator m
     then [indicator_call (value (freeSnap m pt p src first bbox))]
     else [])
  /\ filter is_indicator_call
       (events (constrainedSnap m pt p src c sp first bbox))
     = (if someSnapperMightSnap m && _snapindicator m
        then [indicator_call (value (constrainedSnap m pt p src c sp first bbox))]
        else []).
Proof.
  destruct (someSnapperMightSnap m) eqn:H; cbn [andb].
  - rewrite (freeSnap_active m pt p src first bbox H).
    rewrite (constrainedSnap_active m pt p src c sp first bbox H).
    rewrite !events_bind, !filter_app, !value_bind.
    rewrite filter_indicator_check, !filter_indicator_findBestSnap.
    rewrite events_freeSnap_all, events_constrainedSnap_all.
    rewrite !filter_indicator_provider_calls by reflexivity.
    split; reflexivity.
  - rewrite (freeSnap_idle m pt p src first bbox H).
    rewrite (constrainedSnap_idle m pt p src c sp first bbox H).
    rewrite !events_bind, !filter_app, filter_indicator_check.
    split; reflexivity.
Qed.

(** ** The selection policy at its edges *)

Lemma select_best_none (l : list SnappedPoint) :
  forall best at_begin,
    (forall c, In c l -> within_tolerance c = false) ->
    select_best best at_begin l = best.
Proof.
  induction l as [| i rest IH]; intros best at_begin H; cbn [select_best].
  - reflexivity.
  - assert (W : Qle_bool (sp_distance i) (sp_tolerance i) = false)
      by (apply (H i); left; reflexivity).
    rewrite W. apply IH. intros c Hin. apply H. right. exact Hin.
Qed.

(** X5. If no candidate of the list is within its own tolerance (in
    particular if the list is empty), [findBestSnap] returns the "not
    snapped" result, which echoes the point of the query.  If the first
    candidate of the list is within its tolerance, the result is not that
    sentinel but a candidate of the list that is within its tolerance. *)
Theorem X5_findBestSnap_edges (m : SnapManager) (p : Point)
    (src : SnapSourceType) (sc : SnappedConstraints) (constrained : bool) :
  let l := collect_candidates m p src sc constrained in
  let r := value (findBestSnap m p src sc constrained) in
  ((forall c, In c l -> within_tolerance c = false) ->
   r = not_snapped p /\ getSnapped r = false /\ sp_point r = p)
  /\ (forall c rest, l = c :: rest -> within_tolerance c = true ->
      In r l /\ within_tolerance r = true).
Proof.
  cbv zeta. rewrite findBestSnap_value. split.
  - intro H. rewrite (select_best_none _ _ _ H).
    repeat split. apply sentinel_not_snapped. reflexivity.
  - intros c rest E W. rewrite E. cbn [select_best].
    unfold within_tolerance in W. rewrite W. cbn [orb].
    destruct (select_best_cases rest c false) as [E' | [HI HW]].
    + rewrite E'. split; [left; reflexivity | exact W].
    + split; [right; exact HI | exact HW].
Qed.

(** X6. The point that [freeSnapReturnByRef] and
    [constrainedSnapReturnByRef] leave in [p] is either the point they were
    given, or the point of a result that is snapped, whose distance is below
    [NR_HUGE]; when no provider might snap it is the point they were
    given. *)
Theorem X6_return_by_ref (m : SnapManager) (pt : PointType) (p : Point)
    (src : SnapSourceType) (c : ConstraintLine) (sp first : bool)
    (bbox : OptRect) :
  let q1 := value (freeSnapReturnByRef m pt p src first bbox) in
  let q2 := value (constrainedSnapReturnByRef m pt p src c sp first bbox) in
  let r1 := value (freeSnap m pt p src first bbox) in
  let r2 := value (constrainedSnap m pt p src c sp first bbox) in
  (q1 = p \/ (q1 = sp_point r1 /\ getSnapped r1 = true
              /\ sp_distance r1 < NR_HUGE))
  /\ (q2 = p \/ (q2 = sp_point r2 /\ getSnapped r2 = true
                 /\ sp_distance r2 < NR_HUGE))
  /\ (someSnapperMightSnap m = false -> q1 = p /\ q2 = p).
Proof.
  cbv zeta. unfold freeSnapReturnByRef, constrainedSnapReturnByRef.
  rewrite !value_bind. cbn [value ret fst]. unfold getPoint_into.
  split; [| split].
  - destruct (getSnapped (value (freeSnap m pt p src first bbox))) eqn:G.
    + right. split; [reflexivity |]. split; [reflexivity |].
      apply getSnapped_finite. exact G.
    + left. reflexivity.
  - destruct (getSnapped (value (constrainedSnap m pt p src c sp first bbox)))
      eqn:G.
    + right. split; [reflexivity |]. split; [reflexivity |].
      apply getSnapped_finite. exact G.
    + left. reflexivity.
  - intro H.
    rewrite (freeSnap_idle m pt p src first bbox H).
    rewrite (constrainedSnap_idle m pt p src c sp first bbox H).
    rewrite !value_bind. cbn [value ret fst].
    rewrite sentinel_not_snapped by reflexivity. split; reflexivity.
Qed.

(** ** The items to ignore *)

(** X7. A single item to ignore prevails over a list: when
    [_item_to_ignore] is set, [freeSnap] and [constrainedSnap] do not depend
    on [_items_to_ignore]. *)
Theorem X7_single_item_prevails (m : SnapManager) (l : option (list SPItem))
    (pt : PointType) (p : Point) (src : SnapSourceType) (c : ConstraintLine)
    (sp first : bool) (bbox : OptRect) :
  _item_to_ignore m <> None ->
  freeSnap (with_items_to_ignore m l) pt p src first bbox
  = freeSnap m pt p src first bbox
  /\ constrainedSnap (with_items_to_ignore m l) pt p src c sp first bbox
     = constrainedSnap m pt p src c sp first bbox.
Proof.
  intro H.
  assert (E : items_to_ignore (with_items_to_ignore m l) = items_to_ignore m).
  { unfold items_to_ignore, with_items_to_ignore. cbn [_item_to_ignore].
    destruct (_item_to_ignore m); [reflexivity | contradiction]. }
  unfold freeSnap, constrainedSnap. rewrite E. split; reflexivity.
Qed.

(** A call of [setup] decides the whole session: of two calls in a row
    the second alone counts, whichever overloads they are.  After the
    overload for a single item the providers are told to ignore that item
    alone (nothing, if it is null); after the overload for a list they are
    told to ignore the list. *)
Lemma setup_replaces_session (m : SnapManager) (d1 d2 : SPDesktop)
    (i1 i2 : bool) (it1 it2 : option SPItem) (l1 l2 : list SPItem)
    (n1 n2 : option (list (Point * SnapSourceType))) (g1 g2 : option SPGuide) :
  setup_item (fst (setup_item m d1 i1 it1 n1 g1)) d2 i2 it2 n2 g2
  = setup_item m d2 i2 it2 n2 g2
  /\ setup_item (fst (setup_items m d1 i1 l1 n1 g1)) d2 i2 it2 n2 g2
     = setup_item m d2 i2 it2 n2 g2
  /\ setup_items (fst (setup_item m d1 i1 it1 n1 g1)) d2 i2 l2 n2 g2
     = setup_items m d2 i2 l2 n2 g2
  /\ setup_items (fst (setup_items m d1 i1 l1 n1 g1)) d2 i2 l2 n2 g2
     = setup_items m d2 i2 l2 n2 g2
  /\ items_to_ignore (fst (setup_item m d2 i2 it2 n2 g2))
     = option_map (fun it => [it]) it2
  /\ items_to_ignore (fst (setup_items m d2 i2 l2 n2 g2)) = Some l2.
Proof.
  repeat split; reflexivity.
Qed.

(** ** Which providers the other operations ask *)



(** X9. [guideFreeSnap] and [guideConstrainedSnap] never ask a grid
    snapper.  When they do not return at once, they ask the object snapper
    (if it passes the test of the function) and then the guide snapper (if
    snapping to guides is enabled), each once, with the point [p] as it is;
    [guideConstrainedSnap] passes the line through the point of the guide
    along the guide. *)
Theorem X9_guide_snap_asks (m : SnapManager) (p guide_normal : Point)
    (guideline : SPGuide) :
  let on :=
    getSnapEnabledGlobally (snapprefs m)
    && negb (getSnapPostponedGlobally (snapprefs m)) in
  let cl :=
    ConstraintLine_at (point_on_line guideline)
      (rot90 (normal_to_line guideline)) in
  filter is_provider_call (events (guideFreeSnap m p guide_normal))
  = (if on then
       (if GuidesMightSnap (object m)
        then [CallGuideFreeSnap p guide_normal] else [])
       ++ (if getSnapToGuides (snapprefs m)
           then [CallFreeSnap GuideSnapperId p] else [])
     else [])
  /\ filter is_provider_call (events (guideConstrainedSnap m p guideline))
     = (if on then
          (if ThisSnapperMightSnap (object_snapper (object m))
           then [CallConstrainedSnap ObjectSnapperId p cl] else [])
          ++ (if getSnapToGuides (snapprefs m)
              then [CallConstrainedSnap GuideSnapperId p cl] else [])
        else []).
Proof.
  cbv zeta. unfold guideFreeSnap, guideConstrainedSnap.
  rewrite !events_bind, !filter_app.
  rewrite (filter_no_provider_call _ (events_check_snap_window m)).
  cbn [app].
  destruct (getSnapEnabledGlobally (snapprefs m));
    destruct (getSnapPostponedGlobally (snapprefs m)); cbn [negb orb andb];
    try (split; reflexivity).
  split.
  - destruct (GuidesMightSnap (object m));
      destruct (getSnapToGuides (snapprefs m)); cbn [negb orb];
      try reflexivity;
      unfold call_freeSnap;
      rewrite !events_bind, !filter_app;
      rewrite (filter_no_provider_call _ (findBestSnap_events _ _ _ _ _));
      reflexivity.
  - destruct (ThisSnapperMightSnap (object_snapper (object m)));
      destruct (getSnapToGuides (snapprefs m)); cbn [negb orb];
      try reflexivity;
      unfold call_constrainedSnap;
      rewrite !events_bind, !filter_app;
      rewrite (filter_no_provider_call _ (findBestSnap_events _ _ _ _ _));
      reflexivity.
Qed.

(** ** The batch routine: where its result comes from *)

Lemma recoveries_origin (m : SnapManager) (a : BatchArgs) (bbox : Rect)
    (pts : list ((Point * SnapSourceType) * (Point * SnapSourceType))) :
  forall first r,
    In r (recoveries m a bbox first pts) ->
    exists i j f,
      In (i, j) pts
      /\ getSnapped (value (snapOnePoint m a bbox f i j)) = true
      /\ r = recover a i (value (snapOnePoint m a bbox f i j)).
Proof.
  induction pts as [| [i j] rest IH]; intros first r Hin.
  - destruct Hin.
  - cbn [recoveries] in Hin. apply in_app_or in Hin.
    destruct Hin as [Hin | Hin].
    + destruct (getSnapped (value (snapOnePoint m a bbox first i j))) eqn:G;
        [| destruct Hin].
      destruct Hin as [<- | []]. exists i, j, first.
      split; [left; reflexivity |]. split; [exact G | reflexivity].
    + destruct (IH false r Hin) as [i' [j' [f [H1 H2]]]].
      exists i', j', f. split; [right; exact H1 | exact H2].
Qed.

Lemma nonscale_fold (a : BatchArgs) (rs : list Recovered) :
  is_SCALE (arg_transformation_type a) = false ->
  forall st,
    let st' := fold_left (fun st r => update_best a r st) rs st in
    st' = st
    \/ exists r, In r rs
         /\ best_transformation st' = rec_result r
         /\ best_snapped_point st' = rec_snapped r.
Proof.
  intro T. induction rs as [| r rs IH]; intro st; cbn [fold_left].
  - left. reflexivity.
  - destruct (IH (update_best a r st)) as [E | [r' [Hin H]]].
    + cbv zeta. rewrite E. unfold update_best. rewrite T.
      destruct (isOtherSnapBetter (best_snapped_point st) (rec_snapped r) true).
      * right. exists r. split; [left; reflexivity |]. split; reflexivity.
      * left. reflexivity.
    + right. exists r'. split; [right; exact Hin | exact H].
Qed.

Lemma recover_keeps_target (a : BatchArgs) (i : Point * SnapSourceType)
    (s : SnappedPoint) :
  sp_point (rec_snapped (recover a i s)) = sp_point s
  /\ sp_target (rec_snapped (recover a i s)) = sp_target s
  /\ sp_source (rec_snapped (recover a i s)) = sp_source s.
Proof.
  unfold recover. destruct (arg_transformation_type a); repeat split.
Qed.

(** X15. In a translation or a stretch that is carried out, the result is
    either not snapped, with the proposed transformation, or it comes from
    one point of the batch that snapped: the returned transformation is the
    one recovered from that point, and the returned target is the point and
    the target kind that this point snapped to.  For a translation the
    returned vector is then the difference of doubles between the returned
    target and that point, and the returned distance is the snap distance of
    the point if it is below [1e6]. *)
Theorem X15_batch_result_from_a_point (m : SnapManager) (a : BatchArgs)
    (pts : list (Point * SnapSourceType)) :
  arg_transformation_type a = TRANSLATION
  \/ arg_transformation_type a = STRETCH ->
  someSnapperMightSnap m = true ->
  let res := value (_snapTransformed m a pts) in
  let bbox := hull (map fst (transformed_points a pts)) in
  (sp_transformation res = arg_transformation a /\ getSnapped res = false)
  \/ exists i j first,
       In (i, j) (combine pts (transformed_points a pts))
       /\ getSnapped (value (snapOnePoint m a bbox first i j)) = true
       /\ sp_transformation res
          = rec_result (recover a i (value (snapOnePoint m a bbox first i j)))
       /\ sp_point res = sp_point (value (snapOnePoint m a bbox first i j))
       /\ sp_target res = sp_target (value (snapOnePoint m a bbox first i j))
       /\ (arg_transformation_type a = TRANSLATION ->
           sp_transformation res = psub (sp_point res) (fst i)
           /\ (sp_distance (value (snapOnePoint m a bbox first i j)) < 1000000 ->
               sp_distance res
               = sp_distance (value (snapOnePoint m a bbox first i j)))).
Proof.
  intros T Hs. cbv zeta.
  assert (T' : is_SCALE (arg_transformation_type a) = false)
    by (destruct T as [T | T]; rewrite T; reflexivity).
  rewrite (value_snapTransformed m a pts Hs).
  destruct (nonscale_fold a (batch_recoveries m a pts) T' (initial_best a))
    as [E | [r [Hin [Hbt Hbsp]]]]; cbv zeta in *.
  - left. rewrite E. unfold finish. rewrite T'.
    cbn [initial_best best_transformation best_snapped_point
           setSnapDistance setTransformation sp_transformation].
    split; [reflexivity |].
    apply sentinel_not_snapped. cbn [sp_distance]. rewrite default_distance.
    destruct (Qltb NR_HUGE 1000000); reflexivity.
  - right.
    destruct (recoveries_origin _ _ _ _ _ _ Hin) as [i [j [f [Hij [G ->]]]]].
    exists i, j, f. split; [exact Hij |]. split; [exact G |].
    destruct (recover_keeps_target a i
                (value (snapOnePoint m a
                          (hull (map fst (transformed_points a pts))) f i j)))
      as [Kp [Kt _]].
    unfold finish. rewrite T'.
    cbn [setSnapDistance setTransformation sp_transformation sp_point
           sp_target sp_distance].
    rewrite Hbt, Hbsp, Kp, Kt.
    split; [reflexivity |]. split; [reflexivity |]. split; [reflexivity |].
    intro Tr. unfold recover. rewrite Tr. cbn [rec_result rec_snapped].
    split.
    + reflexivity.
    + intro L. apply Qltb_lt in L. rewrite L. reflexivity.
Qed.

(** X16. The distance of the result of [_snapTransformed] is either below
    [1e6] or is [NR_HUGE], on every path. *)
Theorem X16_batch_distance (m : SnapManager) (a : BatchArgs)
    (pts : list (Point * SnapSourceType)) :
  sp_distance (value (_snapTransformed m a pts)) < 1000000
  \/ sp_distance (value (_snapTransformed m a pts)) = NR_HUGE.
Proof.
  destruct (someSnapperMightSnap m) eqn:Hs.
  - rewrite (value_snapTransformed m a pts Hs). unfold finish.
    cbn [setSnapDistance sp_distance].
    match goal with
    | |- context [if Qltb ?x 1000000 then _ else _] =>
        destruct (Qltb x 1000000) eqn:L
    end.
    + left. apply Qltb_lt. exact L.
    + right. reflexivity.
  - right. unfold _snapTransformed. rewrite Hs. apply default_distance.
Qed.

(** ** Scaling that is not uniform *)

Lemma scale_axes_fold (a : BatchArgs) (rs : list Recovered) :
  arg_transformation_type a = SCALE ->
  arg_uniform a = false ->
  forall st k,
    let st' := fold_left (fun st r => update_best a r st) rs st in
    get (best_transformation st') k = get (best_transformation st) k
    \/ exists r, In r rs
         /\ get (best_transformation st') k = get (rec_result r) k.
Proof.
  intros T U. induction rs as [| r rs IH]; intros st k; cbn [fold_left].
  - left. reflexivity.
  - destruct (IH (update_best a r st) k) as [E | [r' [Hin H]]]; cbv zeta in *.
    + rewrite E. unfold update_best. rewrite T, U. cbn [is_SCALE].
      unfold scale_update_axis.
      destruct st as [[bx by_] [mx my] bsp].
      cbn [best_scale_metric best_transformation get set px py].
      destruct (Qltb (Qabs (px (rec_scale_metric r))) (Qabs mx));
        cbn [best_scale_metric best_transformation get set px py];
        destruct (Qltb (Qabs (py (rec_scale_metric r))) (Qabs my));
        cbn [best_scale_metric best_transformation get set px py];
        destruct k; cbn [get px py];
        first [ left; reflexivity
              | right; exists r; split; [left; reflexivity | reflexivity] ].
    + right. exists r'. split; [right; exact Hin | exact H].
Qed.

(** X17. In a scaling with [uniform = false] that is carried out, each axis
    is settled on its own.  The factor of an axis after the loop is the
    proposed one or one recovered on that same axis from a point that
    snapped.  If it is the sentinel, the proposed factor of that axis is
    returned, otherwise it is returned as it is; so a returned factor is the
    sentinel only if the proposed factor of that axis is. *)
Theorem X17_nonuniform_scale_axes (m : SnapManager) (a : BatchArgs)
    (pts : list (Point * SnapSourceType)) (k : Dim2) :
  arg_transformation_type a = SCALE ->
  arg_uniform a = false ->
  someSnapperMightSnap m = true ->
  let t := arg_transformation a in
  let E := best_transformation (batch_exit m a pts) in
  let R := sp_transformation (value (_snapTransformed m a pts)) in
  (get E k = get t k
   \/ exists r, In r (batch_recoveries m a pts)
        /\ get E k = get (rec_result r) k)
  /\ (get E k == NR_HUGE -> get R k = get t k)
  /\ (~ get E k == NR_HUGE -> get R k = get E k)
  /\ (get R k == NR_HUGE -> get t k == NR_HUGE).
Proof.
  intros T U Hs t E R.
  assert (HR : R = scale_fallback_axis false t Y
                     (scale_fallback_axis false t X E)).
  { unfold R. rewrite (value_snapTransformed m a pts Hs).
    rewrite (transformation_finish_scale a _ T), U. reflexivity. }
  split.
  - apply (scale_axes_fold a (batch_recoveries m a pts) T U (initial_best a) k).
  - destruct (fallback_rule false t E) as [F1 [F2 F3]]. cbn [andb] in F2, F3.
    rewrite HR. split; [| split].
    + destruct k; [exact F2 | exact F3].
    + apply F1.
    + apply fallback_not_sentinel.
Qed.

(** ** The batch routine: what it asks and what it logs *)

Lemma snapOnePoint_events (m : SnapManager) (a : BatchArgs) (bbox : Rect)
    (first : bool) (i j : Point * SnapSourceType) :
  exists (warn : bool) (q : Logged SnappedPoint),
    events (snapOnePoint m a bbox first i j)
    = (if warn then [Warning nonuniform_scale_message] else []) ++ events q
    /\ warn = arg_constrained a && is_SCALE (arg_transformation_type a)
              && negb (arg_uniform a)
    /\ ((exists c, q = constrainedSnap m (arg_type a) (fst j) (snd j) c false
                       first (Some bbox))
        \/ q = freeSnap m (arg_type a) (fst j) (snd j) first (Some bbox)).
Proof.
  unfold snapOnePoint. rewrite events_bind. cbn [events ret snd].
  rewrite app_nil_r.
  destruct (arg_constrained a); cbn [andb].
  - exists (is_SCALE (arg_transformation_type a) && negb (arg_uniform a)).
    exists (constrainedSnap m (arg_type a) (fst j) (snd j)
              (dedicated_constraint a (fst i)) false first (Some bbox)).
    split; [| split; [reflexivity | left; eexists; reflexivity]].
    rewrite events_bind.
    destruct (is_SCALE (arg_transformation_type a) && negb (arg_uniform a));
      reflexivity.
  - exists false.
    match goal with
    | |- context [if ?c then constrainedSnap _ _ _ _ ?l _ _ _ else ?f] =>
        destruct c;
        [ exists (constrainedSnap m (arg_type a) (fst j) (snd j) l false first
                    (Some bbox))
        | exists f ]
    end.
    + split; [reflexivity |]. split; [reflexivity |].
      left. eexists. reflexivity.
    + split; [reflexivity |]. split; [reflexivity |]. right. reflexivity.
Qed.

Lemma no_nonuniform_warning_freeSnap (m : SnapManager) (pt : PointType)
    (p : Point) (src : SnapSourceType) (first : bool) (bbox : OptRect) :
  filter (is_warning nonuniform_scale_message)
    (events (freeSnap m pt p src first bbox)) = [].
Proof.
  apply filter_no_event. unfold freeSnap.
  rewrite events_bind. unfold no_event. apply forallb_app_true.
  - unfold check_snap_window.
    destruct (event_context_snap_window_open (_desktop m)) as [[|]|];
      reflexivity.
  - destruct (negb (someSnapperMightSnap m)); [reflexivity |].
    rewrite events_bind, events_freeSnap_all.
    apply forallb_app_true.
    + induction (getSnappers m) as [| s l IH]; simpl; [reflexivity | exact IH].
    + unfold findBestSnap. rewrite events_bind.
      destruct (_snapindicator m); [| reflexivity].
      match goal with |- context [if ?b then _ else _] => destruct b end;
        reflexivity.
Qed.

Lemma snapLoop_counts (m : SnapManager) (a : BatchArgs) (bbox : Rect) :
  someSnapperMightSnap m = true ->
  forall pts first st,
    List.length (filter is_provider_call
                   (events (snapLoop m a bbox first pts st)))
    = (List.length pts * List.length (getSnappers m))%nat
    /\ List.length (filter (is_warning nonuniform_scale_message)
                      (events (snapLoop m a bbox first pts st)))
       = if arg_constrained a && is_SCALE (arg_transformation_type a)
            && negb (arg_uniform a)
         then List.length pts else 0%nat.
Proof.
  intros Hs pts. induction pts as [| [i j] rest IH]; intros first st.
  - split; [reflexivity |].
    destruct (arg_constrained a && is_SCALE (arg_transformation_type a)
              && negb (arg_uniform a)); reflexivity.
  - cbn [snapLoop]. rewrite events_bind, !filter_app, !length_app.
    destruct (IH false
                (absorb a i (value (snapOnePoint m a bbox first i j)) st))
      as [IHp IHw].
    rewrite IHp, IHw.
    destruct (snapOnePoint_events m a bbox first i j)
      as [warn [q [Ev [Ew Hq]]]].
    rewrite Ev, !filter_app, !length_app.
    assert (Qp : List.length (filter is_provider_call (events q))
                 = List.length (getSnappers m)).
    { destruct Hq as [[c ->] | ->].
      - rewrite (provider_calls_constrainedSnap m _ _ _ c false first _ Hs).
        apply length_map.
      - rewrite (provider_calls_freeSnap m _ _ _ first _ Hs).
        apply length_map. }
    assert (Qw : filter (is_warning nonuniform_scale_message) (events q) = []).
    { destruct Hq as [[c ->] | ->].
      - apply no_nonuniform_warning_constrainedSnap.
      - apply no_nonuniform_warning_freeSnap. }
    rewrite Qp, Qw, <- Ew.
    split.
    + destruct warn; cbn [filter is_provider_call List.length]; lia.
    + destruct warn; cbn [filter is_warning List.length app];
        [rewrite String.eqb_refl |]; cbn [List.length]; lia.
Qed.

(** X19. A batch that is carried out asks every provider of the manager
    exactly once for every point, whatever the transformation: the number of
    provider calls is the number of points times the number of snappers. *)
Theorem X19_batch_provider_calls (m : SnapManager) (a : BatchArgs)
    (pts : list (Point * SnapSourceType)) :
  someSnapperMightSnap m = true ->
  List.length (filter is_provider_call (events (_snapTransformed m a pts)))
  = (List.length pts * List.length (getSnappers m))%nat.
Proof.
  intro Hs. unfold _snapTransformed. rewrite Hs. cbn [negb].
  rewrite events_bind. cbn [events ret snd]. rewrite app_nil_r.
  destruct (snapLoop_counts m a (hull (map fst (transformed_points a pts))) Hs
              (combine pts (transformed_points a pts)) true (initial_best a))
    as [Hp _].
  rewrite Hp. unfold transformed_points. rewrite length_combine_map.
  reflexivity.
Qed.

Lemma no_warning_unless_nonuniform_scale (m : SnapManager) (a : BatchArgs)
    (pts : list (Point * SnapSourceType)) :
  arg_constrained a && is_SCALE (arg_transformation_type a)
  && negb (arg_uniform a) = false ->
  filter (is_warning nonuniform_scale_message)
    (events (_snapTransformed m a pts)) = [].
Proof.
  intro H. unfold _snapTransformed.
  destruct (someSnapperMightSnap m) eqn:Hs; cbn [negb]; [| reflexivity].
  rewrite events_bind. cbn [events ret snd]. rewrite app_nil_r.
  destruct (snapLoop_counts m a (hull (map fst (transformed_points a pts))) Hs
              (combine pts (transformed_points a pts)) true (initial_best a))
    as [_ Hw].
  rewrite H in Hw. apply length_zero_iff_nil. exact Hw.
Qed.

(** X20. No entry point of the batch routine logs the warning "Non-uniform
    constrained scaling is not supported!": the only constrained scaling
    among them, [constrainedSnapScale], is uniform.  [constrainedSnapSkew]
    does not return for the points of a bounding box. *)
Theorem X20_entry_points_never_warn (dp : DisplayPreferences)
    (m : SnapManager) (pt : PointType) (p : list (Point * SnapSourceType))
    (pointer tr s o : Point) (c : ConstraintLine) (f : Coord) (d : Dim2)
    (u : bool) :
  let quiet (r : list SourceEvent * Logged SnappedPoint) :=
    filter (is_warning nonuniform_scale_message) (events (snd r)) = [] in
  quiet (freeSnapTranslation dp m pt p pointer tr)
  /\ quiet (constrainedSnapTranslation dp m pt p pointer c tr)
  /\ quiet (freeSnapScale dp m pt p pointer s o)
  /\ quiet (constrainedSnapScale dp m pt p pointer s o)
  /\ quiet (constrainedSnapStretch dp m pt p pointer f o d u)
  /\ match constrainedSnapSkew dp m pt p pointer c s o d with
     | Some r => quiet r /\ pt <> SNAPPOINT_BBOX
     | None => pt = SNAPPOINT_BBOX
     end.
Proof.
  cbv zeta.
  repeat split;
    try (apply no_warning_unless_nonuniform_scale; reflexivity).
  unfold constrainedSnapSkew.
  destruct pt;
    try (split; [apply no_warning_unless_nonuniform_scale; reflexivity
                | discriminate]).
  reflexivity.
Qed.

(** ** The batch routine: the line of each point *)

Lemma provider_calls_snapOnePoint (m : SnapManager) (a : BatchArgs)
    (bbox : Rect) (first : bool) (i j : Point * SnapSourceType) :
  someSnapperMightSnap m = true ->
  filter is_provider_call (events (snapOnePoint m a bbox first i j))
  = point_calls m (point_line a i) j.
Proof.
  intro Hs. unfold snapOnePoint, point_line, point_calls.
  rewrite events_bind. cbn [events ret snd]. rewrite app_nil_r.
  destruct (arg_constrained a).
  - rewrite events_bind, filter_app.
    rewrite (provider_calls_constrainedSnap m _ _ _ _ false first _ Hs).
    destruct (is_SCALE (arg_transformation_type a) && negb (arg_uniform a));
      reflexivity.
  - destruct (is_SCALE (arg_transformation_type a)); cbn [andb].
    + destruct (Qltb (Qabs (get (sub (fst i) (arg_origin a)) X)) eps6);
        destruct (Qltb (Qabs (get (sub (fst i) (arg_origin a)) Y)) eps6);
        cbn [orb andb negb xorb];
        first [ apply (provider_calls_constrainedSnap m _ _ _ _ false first _ Hs)
              | apply (provider_calls_freeSnap m _ _ _ first _ Hs) ].
    + apply (provider_calls_freeSnap m _ _ _ first _ Hs).
Qed.

Lemma provider_calls_snapLoop (m : SnapManager) (a : BatchArgs) (bbox : Rect) :
  someSnapperMightSnap m = true ->
  forall pts first st,
    filter is_provider_call (events (snapLoop m a bbox first pts st))
    = flat_map (fun ij => point_calls m (point_line a (fst ij)) (snd ij)) pts.
Proof.
  intros Hs pts. induction pts as [| [i j] rest IH]; intros first st.
  - reflexivity.
  - cbn [snapLoop flat_map fst snd]. rewrite events_bind, filter_app.
    rewrite (provider_calls_snapOnePoint m a bbox first i j Hs), IH.
    reflexivity.
Qed.

Lemma provider_calls_batch (m : SnapManager) (a : BatchArgs)
    (pts : list (Point * SnapSourceType)) :
  someSnapperMightSnap m = true ->
  filter is_provider_call (events (_snapTransformed m a pts))
  = flat_map (fun ij => point_calls m (point_line a (fst ij)) (snd ij))
      (combine pts (transformed_points a pts)).
Proof.
  intro Hs. unfold _snapTransformed. rewrite Hs. cbn [negb].
  rewrite events_bind. cbn [events ret snd]. rewrite app_nil_r.
  apply provider_calls_snapLoop. exact Hs.
Qed.




(** ** Marking the snap source *)

Lemma display_single_cases (dp : DisplayPreferences) (m : SnapManager)
    (a : BatchArgs) (p : list (Point * SnapSourceType)) :
  display_single dp m a p = []
  \/ display_single dp m a p = [RemoveSnapSource]
  \/ exists x, p = [x]
       /\ display_single dp m a p
          = [SetNewSnapSource
               (_transformPoint x (arg_transformation_type a)
                  (arg_transformation a) (arg_origin a) (arg_dim a)
                  (arg_uniform a), snd x)].
Proof.
  destruct p as [| x [| y rest]]; cbn [display_single]; [left; reflexivity | |
    left; reflexivity].
  unfold _displaySnapsource.
  destruct (snapclosestonly dp); [| left; reflexivity].
  match goal with
  | |- context [if ?c then _ else _] => destruct c
  end.
  - right. right. exists x. split; reflexivity.
  - right. left. reflexivity.
Qed.

Lemma display_single_none (dp : DisplayPreferences) (m : SnapManager)
    (a : BatchArgs) (p : list (Point * SnapSourceType)) :
  snapclosestonly dp = false \/ List.length p <> 1%nat ->
  display_single dp m a p = [].
Proof.
  intros [H | H].
  - destruct p as [| x [| y rest]]; cbn [display_single]; try reflexivity.
    unfold _displaySnapsource. rewrite H. reflexivity.
  - destruct p as [| x [| y rest]]; cbn [display_single]; try reflexivity.
    exfalso. apply H. reflexivity.
Qed.

(** X23. When an entry point of a translation marks a snap source, it marks
    the one point of the batch at its translated position, and that position
    is what the batch snaps: [freeSnapTranslation] asks every provider to
    snap it freely, [constrainedSnapTranslation] asks every provider to snap
    its projection on the line of the caller moved through the untranslated
    point. *)
Theorem X23_translation_marks_what_it_snaps (dp : DisplayPreferences)
    (m : SnapManager) (pt : PointType) (p : list (Point * SnapSourceType))
    (pointer tr : Point) (c : ConstraintLine) (q : Point * SnapSourceType) :
  someSnapperMightSnap m = true ->
  (In (SetNewSnapSource q) (fst (freeSnapTranslation dp m pt p pointer tr)) ->
   exists x, p = [x] /\ q = (padd (fst x) tr, snd x)
     /\ filter is_provider_call
          (events (snd (freeSnapTranslation dp m pt p pointer tr)))
        = map (fun s => CallFreeSnap (fst s) (fst q)) (getSnappers m))
  /\ (In (SetNewSnapSource q)
        (fst (constrainedSnapTranslation dp m pt p pointer c tr)) ->
      exists x, p = [x] /\ q = (padd (fst x) tr, snd x)
        /\ filter is_provider_call
             (events (snd (constrainedSnapTranslation dp m pt p pointer c tr)))
           = map (fun s =>
                    CallConstrainedSnap (fst s)
                      (projection (setLinePoint c (fst x)) (fst q))
                      (setLinePoint c (fst x)))
               (getSnappers m)).
Proof.
  intro Hs. split; intro H.
  - unfold freeSnapTranslation, entry in *. cbn [fst snd] in *.
    destruct (display_single_cases dp m (freeSnapTranslation_args pt pointer tr) p)
      as [E | [E | [x [-> E]]]]; rewrite E in H.
    + destruct H.
    + destruct H as [H | []]. discriminate H.
    + destruct H as [H | []]. injection H as <-. exists x.
      split; [reflexivity |]. split; [reflexivity |].
      rewrite (provider_calls_batch _ _ _ Hs).
      cbn. rewrite app_nil_r. reflexivity.
  - unfold constrainedSnapTranslation, entry in *. cbn [fst snd] in *.
    destruct (display_single_cases dp m
                (constrainedSnapTranslation_args pt pointer c tr) p)
      as [E | [E | [x [-> E]]]]; rewrite E in H.
    + destruct H.
    + destruct H as [H | []]. discriminate H.
    + destruct H as [H | []]. injection H as <-. exists x.
      split; [reflexivity |]. split; [reflexivity |].
      rewrite (provider_calls_batch _ _ _ Hs).
      cbn. rewrite app_nil_r. reflexivity.
Qed.

(** X24. No entry point marks a snap source unless the preference
    "/options/snapclosestonly/value" is set and the batch has exactly one
    point; in particular an empty batch is accepted, and marks nothing. *)
Theorem X24_no_snap_source (dp : DisplayPreferences) (m : SnapManager)
    (pt : PointType) (p : list (Point * SnapSourceType))
    (pointer tr s o : Point) (c : ConstraintLine) (f : Coord) (d : Dim2)
    (u : bool) :
  snapclosestonly dp = false \/ List.length p <> 1%nat ->
  fst (freeSnapTranslation dp m pt p pointer tr) = []
  /\ fst (constrainedSnapTranslation dp m pt p pointer c tr) = []
  /\ fst (freeSnapScale dp m pt p pointer s o) = []
  /\ fst (constrainedSnapScale dp m pt p pointer s o) = []
  /\ fst (constrainedSnapStretch dp m pt p pointer f o d u) = []
  /\ forall r, constrainedSnapSkew dp m pt p pointer c s o d = Some r ->
       fst r = [].
Proof.
  intro H.
  repeat split; try (apply display_single_none; exact H).
  intros r E. unfold constrainedSnapSkew in E.
  destruct pt; try discriminate E; injection E as <-;
    apply display_single_none; exact H.
Qed.

End MoreProperties.

(** * The manager at work: the theorems applied, and what the code does
      where it departs from the specification *)

Import Demo.

(** With the tie-break rule of the specification, a candidate whose
    distance is below the sentinel is a better snap than the "not snapped"
    result: the assumption of C2 holds for such candidates. *)
Lemma spec_rule_beats_not_snapped (p : Point) (c : SnappedPoint) :
  sp_distance c < NR_HUGE ->
  isOtherSnapBetter (not_snapped p) c false = true.
Proof.
  intro H. apply Qltb_lt in H.
  change (isOtherSnapBetter_spec (not_snapped p) c false = true).
  unfold isOtherSnapBetter_spec.
  change (sp_always_snap (not_snapped p)) with false.
  change (sp_distance (not_snapped p)) with NR_HUGE.
  destruct (sp_always_snap c); cbn [xorb]; [reflexivity |].
  rewrite H. reflexivity.
Qed.

(** C1 as stated fails: a candidate at the distance [NR_HUGE], within its
    tolerance [NR_HUGE], is returned.  The distance of the result is the
    sentinel, not a finite value, and the result is not snapped; but it is
    not the "not snapped" result either: it does not echo the point of the
    query. *)
Lemma C1_sentinel_distance_not_echoing :
  let r := value (findBestSnap far_manager origin0 SNAPSOURCE_NODE far_found
                    false) in
  sp_distance r = NR_HUGE
  /\ getSnapped r = false
  /\ sp_distance r <= sp_tolerance r
  /\ sp_point r = mkPoint NR_HUGE 0
  /\ sp_point r <> origin0.
Proof.
  cbv zeta. split; [reflexivity |]. split; [reflexivity |].
  split; [vm_compute; discriminate |]. split; [reflexivity |].
  intro E. vm_compute in E. discriminate E.
Qed.

(** C2 as stated fails: the first candidate within its own tolerance is not
    the head of the list, and it is not taken as the initial best, because
    it is not better than the "not snapped" result; [findBestSnap] returns
    that result, where the selection of the specification returns the
    candidate. *)
Lemma C2_later_candidate_not_taken :
  let l := collect_candidates far_manager origin0 SNAPSOURCE_NODE stale_found
             true in
  let r := value (findBestSnap far_manager origin0 SNAPSOURCE_NODE stale_found
                    true) in
  map within_tolerance l = [false; true]
  /\ r = not_snapped origin0
  /\ first_then_better origin0 l = nth 1 l (not_snapped origin0)
  /\ sp_point (first_then_better origin0 l) = mkPoint NR_HUGE 0
  /\ r <> first_then_better origin0 l.
Proof.
  cbv zeta. split; [reflexivity |]. split; [reflexivity |].
  split; [reflexivity |]. split; [reflexivity |].
  intro E. apply (f_equal sp_target) in E. vm_compute in E. discriminate E.
Qed.

(** C2 applied: the guides at [x = 20] and [y = 50], seen from [(21, 49)]. *)
Lemma C2_witness :
  value (findBestSnap (guide_manager prefs_on) (mkPoint 21 49) SNAPSOURCE_NODE
           guides_found false)
  = first_then_better (mkPoint 21 49)
      (collect_candidates (guide_manager prefs_on) (mkPoint 21 49)
         SNAPSOURCE_NODE guides_found false).
Proof.
  apply (proj2 (C2_findBestSnap_selection (guide_manager prefs_on)
                  (mkPoint 21 49) SNAPSOURCE_NODE guides_found false)).
  intros c Hin _. vm_compute in Hin.
  destruct Hin as [<- | [<- | []]]; vm_compute; reflexivity.
Defined.

(** C3 applied.  With the guides [x = 20] and [y = 50] seen from [(21, 49)],
    the unconstrained query returns their intersection and the constrained
    query a guide line.  With one grid line and one guide line, the
    unconstrained query returns their intersection when the preference for
    it is on, and a line when it is off. *)
Lemma C3_witness :
  let p := mkPoint 21 49 in
  let on := guide_manager prefs_on in
  let off := guide_manager prefs_no_grid_guide in
  let free := value (findBestSnap on p SNAPSOURCE_NODE guides_found false) in
  let bound := value (findBestSnap on p SNAPSOURCE_NODE guides_found true) in
  let gg := value (findBestSnap on p SNAPSOURCE_NODE grid_and_guide_found
                     false) in
  let no_gg := value (findBestSnap off p SNAPSOURCE_NODE grid_and_guide_found
                        false) in
  (sp_target free = SNAPTARGET_GUIDE_INTERSECTION
   /\ sp_point free = mkPoint 20 50)
  /\ sp_target bound = SNAPTARGET_GUIDE
  /\ (sp_target gg = SNAPTARGET_GRID_GUIDE_INTERSECTION
      /\ sp_point gg = mkPoint 20 50)
  /\ sp_target no_gg = SNAPTARGET_GRID.
Proof.
  intros p on off free bound gg no_gg.
  unfold free, bound, gg, no_gg.
  rewrite (proj1 (proj2 (C3_line_intersections_iff_unconstrained on p
                           SNAPSOURCE_NODE guides_found))).
  rewrite (proj1 (C3_line_intersections_iff_unconstrained on p
                    SNAPSOURCE_NODE guides_found)).
  rewrite (proj1 (proj2 (C3_line_intersections_iff_unconstrained on p
                           SNAPSOURCE_NODE grid_and_guide_found))).
  rewrite (proj1 (proj2 (C3_line_intersections_iff_unconstrained off p
                           SNAPSOURCE_NODE grid_and_guide_found))).
  vm_compute. repeat split.
Defined.

(** C4 applied: the node [(5, 0)], the point [(3, 4)] and the x-axis. *)
Lemma C4_witness :
  filter is_provider_call
    (events (constrainedSnap (node_manager prefs_on (mkPoint 5 0))
               SNAPPOINT_NODE (mkPoint 3 4) SNAPSOURCE_NODE x_axis false true
               None))
  = map (fun s => CallConstrainedSnap (fst s)
                    (projection x_axis (mkPoint 3 4)) x_axis)
      (getSnappers (node_manager prefs_on (mkPoint 5 0))).
Proof.
  exact (proj1 (C4_constrainedSnap_projection
                  (node_manager prefs_on (mkPoint 5 0)) SNAPPOINT_NODE
                  (mkPoint 3 4) SNAPSOURCE_NODE x_axis false true None)).
Defined.

(** C4, as stated, fails.  The point [(3, 4)] is snapped along the x-axis;
    the object provider is asked for the projection [(3, 0)], finds its node
    [(5, 0)] and reports the distance 2 between the two.  [constrainedSnap]
    returns this candidate: its distance is measured from the projection and
    not from the point [(3, 4)], which is at the distance of the square root
    of 20 from the node. *)
Lemma C4_distance_from_projection :
  let r :=
    value (constrainedSnap (node_manager prefs_on (mkPoint 5 0)) SNAPPOINT_NODE
             (mkPoint 3 4) SNAPSOURCE_NODE x_axis false true None) in
  sp_point r = mkPoint 5 0
  /\ sp_distance r == 2
  /\ measured_from (projection x_axis (mkPoint 3 4)) r
  /\ sqdist (mkPoint 3 4) (sp_point r) == 20
  /\ ~ measured_from (mkPoint 3 4) r.
Proof.
  cbv zeta. split; [vm_compute; reflexivity |].
  split; [vm_compute; reflexivity |].
  split; [split; vm_compute; [discriminate | reflexivity] |].
  split; [vm_compute; reflexivity |].
  intros [_ H]. vm_compute in H. discriminate.
Qed.

(** C5 applied: global snapping is off. *)
Lemma C5_witness :
  value (freeSnap (node_manager prefs_off (mkPoint 5 0)) SNAPPOINT_NODE
           (mkPoint 5 0) SNAPSOURCE_NODE true None)
  = SnappedPoint_make (mkPoint 5 0) SNAPSOURCE_NODE SNAPTARGET_UNDEFINED NR_HUGE
      0 false false
  /\ no_provider_call
       (events (freeSnap (node_manager prefs_off (mkPoint 5 0)) SNAPPOINT_NODE
                  (mkPoint 5 0) SNAPSOURCE_NODE true None)) = true.
Proof.
  apply (C5_nothing_might_snap (node_manager prefs_off (mkPoint 5 0))
           SNAPPOINT_NODE (mkPoint 5 0) SNAPSOURCE_NODE x_axis false true None).
  left. reflexivity.
Defined.

(** C6 applied: a constrained scaling by [(2, 2)] along the x-axis that is
    not uniform. *)
Lemma C6_witness :
  List.length
    (filter (is_warning nonuniform_scale_message)
       (events (_snapTransformed (node_manager prefs_on (mkPoint 5 0))
                  (scale_along_x_args (mkPoint 2 2))
                  [(mkPoint 2 0, SNAPSOURCE_NODE)])))
  = 1%nat.
Proof.
  exact (proj1 (C6_nonuniform_constrained_scale
                  (node_manager prefs_on (mkPoint 5 0))
                  (scale_along_x_args (mkPoint 2 2))
                  [(mkPoint 2 0, SNAPSOURCE_NODE)] eq_refl eq_refl eq_refl)).
Defined.

(** C6, as stated, fails.  In the constrained scaling by [(2, 2)] along the
    x-axis that is not uniform, the point [(2, 0)] is snapped after the
    warning: the object provider is asked for [(4, 0)], the point snaps to
    the node [(5, 0)] and the result is snapped. *)
Lemma C6_snap_is_attempted :
  let r :=
    _snapTransformed (node_manager prefs_on (mkPoint 5 0))
      (scale_along_x_args (mkPoint 2 2)) [(mkPoint 2 0, SNAPSOURCE_NODE)] in
  filter (is_warning nonuniform_scale_message) (events r)
  = [Warning nonuniform_scale_message]
  /\ In (CallConstrainedSnap ObjectSnapperId (mkPoint 4 0) x_axis)
       (events r)
  /\ getSnapped (value r) = true
  /\ sp_point (value r) = mkPoint 5 0.
Proof.
  cbv zeta. split; [vm_compute; reflexivity |].
  split; [vm_compute; auto |].
  split; vm_compute; reflexivity.
Qed.

(** C7 applied: a uniform scaling by [(2, 2)] of the point [(2, 0)], which
    snaps to the node [(5, 0)]; the x-axis alone gives a factor, 5/2, and
    both returned factors are 5/2. *)
Lemma C7_witness :
  let R :=
    sp_transformation
      (value (_snapTransformed (node_manager prefs_on (mkPoint 5 0))
                (scale_args (mkPoint 2 2) true)
                [(mkPoint 2 0, SNAPSOURCE_NODE)])) in
  get R X == 5 # 2 /\ get R Y == 5 # 2.
Proof.
  cbv zeta.
  destruct (C7_uniform_scale (node_manager prefs_on (mkPoint 5 0))
              (scale_args (mkPoint 2 2) true) [(mkPoint 2 0, SNAPSOURCE_NODE)]
              eq_refl eq_refl) as [_ K].
  destruct (K eq_refl) as [_ [P2 _]].
  destruct (P2 X) as [r [Hin [_ [HX [HY _]]]]].
  - intros r Hin. vm_compute in Hin. destruct Hin as [<- | []].
    vm_compute. reflexivity.
  - exists (hd (mkRecovered origin0 origin0 default_point)
              (batch_recoveries (node_manager prefs_on (mkPoint 5 0))
                 (scale_args (mkPoint 2 2) true)
                 [(mkPoint 2 0, SNAPSOURCE_NODE)])).
    split; [vm_compute; left; reflexivity |].
    split; [vm_compute; reflexivity |].
    split; vm_compute; reflexivity.
  - rewrite HX, HY. vm_compute in Hin. destruct Hin as [<- | []].
    split; vm_compute; reflexivity.
Defined.

(** C7, as stated, fails, in four ways.

    A never-recovered axis need not fall back to its proposed factor: in
    the uniform scaling about the origin by the proposed factors
    [(-1000, 1000)], the point [(1, 0)] goes to [(-1000, 0)], where the
    object provider has a node, and snaps to it at distance 0.  This gives
    no factor on either axis, and the returned y-factor is not the proposed
    one, 1000, but -1000, the factor of the other axis.

    A returned factor can be the sentinel: with the proposed factors
    [(NR_HUGE, NR_HUGE)] and a point that does not snap, they are returned.

    A factor recovered on one axis only need not be returned: with the
    proposed factors [(T, T)], [T = 1e18 - 1024], the point [(1, 0)] goes
    to [(T, 0)] and snaps to the node [(T - 2048, 0)].  The x-axis recovers
    the factor [T - 2048], at the distance 2048 from [T], but the sentinel is
    at the distance 1024 from [T]: the y-axis wins with the sentinel, and the
    proposed factors are returned.

    Nor is it returned when it is as far as [NR_HUGE] from its proposed
    factor: with the proposed factors [(-1e18, -1e18)], the point
    [(1/1024, 0)] goes to [(-1e18/1024, 0)] and snaps to the node [(1, 0)]
    of a provider with the tolerance [1e15].  The x-axis recovers the factor
    1024, at the distance [1e18 + 1024] from the proposed one, which is not
    below the initial metric [NR_HUGE]: no axis is updated and the proposed
    factors are returned. *)
Lemma C7_fails_as_stated :
  (let m := node_manager prefs_on (mkPoint (-1000) 0) in
   let a := scale_args (mkPoint (-1000) 1000) true in
   let pts := [(mkPoint 1 0, SNAPSOURCE_NODE)] in
   let R := sp_transformation (value (_snapTransformed m a pts)) in
   map rec_result (batch_recoveries m a pts) = [mkPoint NR_HUGE NR_HUGE]
   /\ get (arg_transformation a) Y == 1000
   /\ get R Y == - (1000)
   /\ R = mkPoint (get (arg_transformation a) X) (get (arg_transformation a) X))
  /\ (let m := node_manager prefs_on (mkPoint 5 0) in
      let a := scale_args (mkPoint NR_HUGE NR_HUGE) true in
      let pts := [(mkPoint 1 0, SNAPSOURCE_NODE)] in
      let R := sp_transformation (value (_snapTransformed m a pts)) in
      batch_recoveries m a pts = []
      /\ get R X == NR_HUGE /\ get R Y == NR_HUGE)
  /\ (let T := 999999999999998976 in
      let m := node_manager_within 4096 (mkPoint (T - 2048) 0) in
      let a := scale_args (mkPoint T T) true in
      let pts := [(mkPoint 1 0, SNAPSOURCE_NODE)] in
      let R := sp_transformation (value (_snapTransformed m a pts)) in
      T == NR_HUGE - 1024
      /\ (exists r, batch_recoveries m a pts = [r]
                    /\ get (rec_result r) X == T - 2048
                    /\ get (rec_result r) Y == NR_HUGE
                    /\ Qabs (get (rec_scale_metric r) X) == 2048
                    /\ Qabs (get (rec_scale_metric r) Y) == 1024)
      /\ get R X == T /\ get R Y == T)
  /\ (let m := node_manager_within 1000000000000000 (mkPoint 1 0) in
      let a := scale_args (mkPoint (- NR_HUGE) (- NR_HUGE)) true in
      let pts := [(mkPoint (1 # 1024) 0, SNAPSOURCE_NODE)] in
      let R := sp_transformation (value (_snapTransformed m a pts)) in
      (exists r, batch_recoveries m a pts = [r]
                 /\ get (rec_result r) X == 1024
                 /\ get (rec_result r) Y == NR_HUGE
                 /\ Qabs (get (rec_scale_metric r) X) == NR_HUGE + 1024
                 /\ Qabs (get (rec_scale_metric r) Y) == 2 * NR_HUGE)
      /\ get R X == - NR_HUGE /\ get R Y == - NR_HUGE).
Proof.
  cbv zeta. split; [| split; [| split]].
  - repeat split; vm_compute; reflexivity.
  - repeat split; vm_compute; reflexivity.
  - split; [vm_compute; reflexivity |].
    split; [| split; vm_compute; reflexivity].
    eexists. split; [vm_compute; reflexivity |].
    repeat split; vm_compute; reflexivity.
  - split; [| split; vm_compute; reflexivity].
    eexists. split; [vm_compute; reflexivity |].
    repeat split; vm_compute; reflexivity.
Qed.

(** With small proposed factors the sentinel swallows them in a difference
    of doubles ([1e18 - 2 = 1e18 + 2 = 1e18]): in the uniform scaling by
    [(-2, 2)], the point [(1, 0)] snaps where it lands and gives no factor,
    no axis is updated, and both returned factors are the proposed factor of
    the y-axis. *)
Example uniform_scale_small_proposal :
  let m := node_manager prefs_on (mkPoint (-2) 0) in
  let a := scale_args (mkPoint (-2) 2) true in
  let pts := [(mkPoint 1 0, SNAPSOURCE_NODE)] in
  map rec_result (batch_recoveries m a pts) = [mkPoint NR_HUGE NR_HUGE]
  /\ sp_transformation (value (_snapTransformed m a pts)) = mkPoint 2 2.
Proof. cbv zeta. split; vm_compute; reflexivity. Qed.


(** In this example the first grid snaps at distance 1/2 and the second,
    after it in the list, at distance 0: the second grid is the closest and
    the offset becomes [(8, 9)]. *)
Example multipleOfGridPitch_two_grids :
  closest_grid grid_manager (mkPoint 8 (19 # 2)) [first_grid; second_grid]
    second_grid
  /\ px (value (multipleOfGridPitch grid_manager (mkPoint 8 (19 # 2)))) == 8
  /\ py (value (multipleOfGridPitch grid_manager (mkPoint 8 (19 # 2)))) == 9.
Proof.
  split.
  - exists [first_grid], []. split; [reflexivity |].
    split; [vm_compute; reflexivity |].
    split.
    + intros g' [<- | []] _. vm_compute. reflexivity.
    + intros g' [].
  - split; vm_compute; reflexivity.
Qed.

(** C9, the failing input: global snapping is off, a translation by
    [(3, 1/5)] is proposed for the point [(0, 0)]; the result is a default
    [SnappedPoint] and the proposed translation is lost. *)
Lemma C9_witness :
  value (_snapTransformed (node_manager prefs_off (mkPoint 5 0))
           (translation_args (mkPoint 3 (1 # 5)))
           [(mkPoint 0 0, SNAPSOURCE_NODE)])
  = SnappedPoint_default.
Proof.
  apply (C9_early_return_drops_proposal (node_manager prefs_off (mkPoint 5 0))
           (translation_args (mkPoint 3 (1 # 5)))
           [(mkPoint 0 0, SNAPSOURCE_NODE)]).
  reflexivity.
Defined.

(** C10 applied: with global snapping off, a guide point stays where it
    is. *)
Lemma C10_witness :
  value (guideConstrainedSnap (node_manager prefs_off (mkPoint 5 0))
           (mkPoint 3 0) (mkSPGuide origin0 (mkPoint 0 1)))
  = mkPoint 3 0.
Proof.
  apply (proj2 (C10_guide_snap_leaves_point
                  (node_manager prefs_off (mkPoint 5 0)) (mkPoint 3 0)
                  (mkPoint 0 1) (mkSPGuide origin0 (mkPoint 0 1)))).
  left. reflexivity.
Defined.

(** C10, as stated, fails for [guideConstrainedSnap].  Global snapping is
    on and not postponed; the guides might not snap to objects
    ([GuidesMightSnap] is false) and snapping to guides is off; but the
    object snapper might snap.  The origin [(3, 0)] of a horizontal guide is
    then moved to the node [(5, 0)]. *)
Lemma C10_guideConstrainedSnap_moves_point :
  let m := node_manager prefs_no_guides (mkPoint 5 0) in
  getSnapEnabledGlobally (snapprefs m) = true
  /\ getSnapPostponedGlobally (snapprefs m) = false
  /\ GuidesMightSnap (object m) = false
  /\ getSnapToGuides (snapprefs m) = false
  /\ value (guideConstrainedSnap m (mkPoint 3 0)
              (mkSPGuide origin0 (mkPoint 0 1)))
     = mkPoint 5 0.
Proof. cbv zeta. repeat split; vm_compute; reflexivity. Qed.

(** * The further properties applied *)

(** X2 applied: the manager with two grids. *)
Lemma X2_witness : someSnapperMightSnap grid_manager = true.
Proof. apply (X2_gridSnapperMightSnap_some grid_manager). reflexivity. Defined.

(** X3 applied: the node [(5, 0)] seen from [(3, 0)]. *)
Lemma X3_witness :
  filter is_provider_call
    (events (freeSnap (node_manager prefs_on (mkPoint 5 0)) SNAPPOINT_NODE
               (mkPoint 3 0) SNAPSOURCE_NODE true None))
  = map (fun s => CallFreeSnap (fst s) (mkPoint 3 0))
      (getSnappers (node_manager prefs_on (mkPoint 5 0))).
Proof.
  apply (X3_freeSnap_asks_all (node_manager prefs_on (mkPoint 5 0))
           SNAPPOINT_NODE (mkPoint 3 0) SNAPSOURCE_NODE true None).
  reflexivity.
Defined.

(** X7 applied: a session set up to ignore the item 7. *)
Lemma X7_witness :
  freeSnap
    (with_items_to_ignore
       (fst (setup_item (node_manager prefs_on (mkPoint 5 0)) desktop false
               (Some 7%nat) None None))
       (Some [1%nat; 2%nat]))
    SNAPPOINT_NODE (mkPoint 3 0) SNAPSOURCE_NODE true None
  = freeSnap
      (fst (setup_item (node_manager prefs_on (mkPoint 5 0)) desktop false
              (Some 7%nat) None None))
      SNAPPOINT_NODE (mkPoint 3 0) SNAPSOURCE_NODE true None.
Proof.
  refine (proj1 (X7_single_item_prevails
                   (fst (setup_item (node_manager prefs_on (mkPoint 5 0))
                           desktop false (Some 7%nat) None None))
                   (Some [1%nat; 2%nat]) SNAPPOINT_NODE (mkPoint 3 0)
                   SNAPSOURCE_NODE x_axis false true None _)).
  discriminate.
Defined.

(** X15 and X19 applied: the point [(2, 0)] translated by [(2, 0)], near
    the node [(5, 0)]. *)
Lemma X15_witness :
  let m := node_manager prefs_on (mkPoint 5 0) in
  let a := translation_args (mkPoint 2 0) in
  let pts := [(mkPoint 2 0, SNAPSOURCE_NODE)] in
  let res := value (_snapTransformed m a pts) in
  let bbox := hull (map fst (transformed_points a pts)) in
  (sp_transformation res = arg_transformation a /\ getSnapped res = false)
  \/ exists i j first,
       In (i, j) (combine pts (transformed_points a pts))
       /\ getSnapped (value (snapOnePoint m a bbox first i j)) = true
       /\ sp_transformation res
          = rec_result (recover a i (value (snapOnePoint m a bbox first i j)))
       /\ sp_point res = sp_point (value (snapOnePoint m a bbox first i j))
       /\ sp_target res = sp_target (value (snapOnePoint m a bbox first i j))
       /\ (arg_transformation_type a = TRANSLATION ->
           sp_transformation res = psub (sp_point res) (fst i)
           /\ (sp_distance (value (snapOnePoint m a bbox first i j)) < 1000000 ->
               sp_distance res
               = sp_distance (value (snapOnePoint m a bbox first i j)))).
Proof.
  exact (X15_batch_result_from_a_point (node_manager prefs_on (mkPoint 5 0))
           (translation_args (mkPoint 2 0)) [(mkPoint 2 0, SNAPSOURCE_NODE)]
           (or_introl eq_refl) eq_refl).
Defined.

Lemma X19_witness :
  List.length
    (filter is_provider_call
       (events (_snapTransformed (node_manager prefs_on (mkPoint 5 0))
                  (translation_args (mkPoint 2 0))
                  [(mkPoint 2 0, SNAPSOURCE_NODE)])))
  = Nat.mul (List.length [(mkPoint 2 0, SNAPSOURCE_NODE)])
      (List.length (getSnappers (node_manager prefs_on (mkPoint 5 0)))).
Proof.
  exact (X19_batch_provider_calls (node_manager prefs_on (mkPoint 5 0))
           (translation_args (mkPoint 2 0)) [(mkPoint 2 0, SNAPSOURCE_NODE)]
           eq_refl).
Defined.

(** In this example the point snaps: the returned translation is [(3, 0)],
    which takes [(2, 0)] to the node, and the returned distance is 1. *)
Example translation_to_node :
  let res :=
    value (_snapTransformed (node_manager prefs_on (mkPoint 5 0))
             (translation_args (mkPoint 2 0)) [(mkPoint 2 0, SNAPSOURCE_NODE)]) in
  getSnapped res = true
  /\ same_point (sp_transformation res) (mkPoint 3 0)
  /\ sp_point res = mkPoint 5 0
  /\ sp_distance res == 1.
Proof. cbv zeta. repeat split; vm_compute; reflexivity. Qed.

(** X17 applied: a free scaling by [(2, 2)] of the point [(2, 0)], near the
    node [(5, 0)]: the point gives no factor for the y-axis, whose factor is
    still the proposed one when the loop is left, and is returned as it
    is. *)
Lemma X17_witness :
  let m := node_manager prefs_on (mkPoint 5 0) in
  let a :=
    mkBatchArgs SNAPPOINT_NODE origin0 false (ConstraintLine_dir origin0) SCALE
      (mkPoint 2 2) origin0 X false in
  let pts := [(mkPoint 2 0, SNAPSOURCE_NODE)] in
  get (sp_transformation (value (_snapTransformed m a pts))) Y
  = get (best_transformation (batch_exit m a pts)) Y.
Proof.
  intros m a pts.
  refine (proj1 (proj2 (proj2 (X17_nonuniform_scale_axes m a pts Y eq_refl
                                 eq_refl eq_refl))) _).
  intro H. vm_compute in H. discriminate H.
Defined.

(** X18 applied: nothing to snap to: the point [(0, 0)] translated
    by [(3, 1/5)], with the only node far away at [(100, 100)]. *)
Lemma X18_witness :
  let m := node_manager prefs_on (mkPoint 100 100) in
  let a := translation_args (mkPoint 3 (1 # 5)) in
  let pts := [(mkPoint 0 0, SNAPSOURCE_NODE)] in
  getSnapped (value (_snapTransformed m a pts)) = false
  /\ sp_transformation (value (_snapTransformed m a pts)) = arg_transformation a.
Proof.
  intros m a pts.
  refine (snapTransformed_nothing_snapped m a pts eq_refl _ (or_introl _)).
  - vm_compute. reflexivity.
  - intro E. inversion E.
Defined.



(** X23 applied: the point [(2, 0)] translated by [(2, 0)], with the
    preference set and nodes allowed as snap sources. *)
Lemma X23_witness :
  exists x,
    [(mkPoint 2 0, SNAPSOURCE_NODE)] = [x]
    /\ (padd (mkPoint 2 0) (mkPoint 2 0), SNAPSOURCE_NODE)
       = (padd (fst x) (mkPoint 2 0), snd x)
    /\ filter is_provider_call
         (events
            (snd (freeSnapTranslation (mkDisplayPreferences true true true)
                    (node_manager prefs_on (mkPoint 5 0)) SNAPPOINT_NODE
                    [(mkPoint 2 0, SNAPSOURCE_NODE)] origin0 (mkPoint 2 0))))
       = map (fun s =>
                CallFreeSnap (fst s)
                  (fst (padd (mkPoint 2 0) (mkPoint 2 0), SNAPSOURCE_NODE)))
           (getSnappers (node_manager prefs_on (mkPoint 5 0))).
Proof.
  refine (proj1 (X23_translation_marks_what_it_snaps
                   (mkDisplayPreferences true true true)
                   (node_manager prefs_on (mkPoint 5 0)) SNAPPOINT_NODE
                   [(mkPoint 2 0, SNAPSOURCE_NODE)] origin0 (mkPoint 2 0)
                   x_axis (padd (mkPoint 2 0) (mkPoint 2 0), SNAPSOURCE_NODE)
                   eq_refl) _).
  left. reflexivity.
Defined.

(** X24 applied: an empty batch. *)
Lemma X24_witness :
  fst (freeSnapTranslation (mkDisplayPreferences true true true)
         (node_manager prefs_on (mkPoint 5 0)) SNAPPOINT_NODE [] origin0
         (mkPoint 2 0)) = [].
Proof.
  refine (proj1 (X24_no_snap_source (mkDisplayPreferences true true true)
                   (node_manager prefs_on (mkPoint 5 0)) SNAPPOINT_NODE []
                   origin0 (mkPoint 2 0) origin0 origin0 x_axis 1 X false
                   (or_intror _))).
  intro E. inversion E.
Defined.
